(** * Crypto ML platform: feature pipeline, split, metrics and model ownership

    A shallow embedding of the JavaScript sources of the platform:

    - [src/js/dataProcessor.js], second class ("Optimized Data Processor"):
      module [Optimized];
    - [src/unnamed/part_001], last class ("Real Data Processor"):
      module [RealData];
    - [src/js/main.js]: [MLPlatform.trainModel] (split and size guard) and the
      [splitData(trainRatio)] of the third data processor;
    - [src/unnamed/part_000]: [ModelBuilder].

    Number model.  JavaScript numbers are IEEE doubles.  They are modelled
    here as real numbers ([R]): rounding, overflow, [NaN] and the infinities
    are idealised away, [Math.sqrt] is [sqrt], [Math.abs] is [Rabs],
    [Math.max] is [Rmax].  Where JavaScript divides by zero the model has
    Stdlib's [x / 0]; no statement below depends on such a value.  Array
    indices and lengths are [nat].

    The split index is the one place where the rounding of doubles decides
    an integer result, so it is computed in double precision: the ratio is a
    rational [Q] read as the nearest double ([toDouble]), its product with
    the length is the rounded product ([fmul]) and [Math.floor] is [Qfloor];
    every index computation evaluates. *)

From Stdlib Require Import Reals Lra Lia List ZArith QArith Qround String.
From Stdlib Require Lqa.
From stdpp Require Import base option list gmap.
Import ListNotations.

Local Open Scope nat_scope.

(** ** JavaScript values and exceptions *)

(** [throw new Error(msg)] and the engine's own [TypeError] (a property read
    on [undefined]). *)
Inductive JsError : Type :=
| Error (msg : string)
| TypeError (msg : string).

Inductive result (A : Type) : Type :=
| Return (a : A)
| Throw (e : JsError).
Arguments Return {A} a.
Arguments Throw {A} e.

(** Sequencing: an exception aborts the rest of the block. *)
#[global] Instance result_bind : MBind result := fun A B k m =>
  match m with
  | Return a => k a
  | Throw e => Throw e
  end.

Definition raises {A} (m : result A) : Prop := exists e, m = Throw e.

(** [Array.prototype.slice(start, end)] with JavaScript's relative indices: a
    negative index counts from the end, and both ends are clamped to the
    array. *)
Definition relIndex (len : nat) (k : Z) : nat :=
  if (k <? 0)%Z then Z.to_nat (Z.max (Z.of_nat len + k) 0)
  else Nat.min (Z.to_nat k) len.

Definition slice {A} (l : list A) (start final : Z) : list A :=
  let k := relIndex (length l) start in
  let e := relIndex (length l) final in
  firstn (e - k) (skipn k l).

(** [slice(start)]: the end defaults to the length. *)
Definition sliceFrom {A} (l : list A) (start : Z) : list A :=
  slice l start (Z.of_nat (length l)).

(** ** Configuration ([src/unnamed/part_001], lines 1-118) *)

Module DATA_CONFIG.
Definition syntheticDataPoints : nat := 100.
Definition trainTestSplit : Q := 0.8.
Definition validationSplit : Q := 0.2.
Definition batchSize : nat := 16.
Definition rsiPeriod : nat := 14.
End DATA_CONFIG.

(** ** Data model *)

(** One element of [rawData]. *)
Record Observation : Type := mkObservation {
  date : Z;
  price : R;
  volume : R
}.

(** One element of [processedData]. *)
Record FeatureRow : Type := mkFeatureRow {
  features : list R;
  target : R;
  rowPrice : R;
  rowDate : Z
}.

Record Scaler : Type := mkScaler {
  means : list R;
  stds : list R
}.

(** The object returned by [splitData]. *)
Record Split (A : Type) : Type := mkSplit {
  train : list A;
  test : list A
}.
Arguments mkSplit {A} train test.
Arguments train {A} s.
Arguments test {A} s.

(** ** Double-precision arithmetic of the split index *)

(** Rounding to the nearest integer, ties to the even one. *)
Definition roundHalfEven (y : Q) : Z :=
  let f := Qfloor y in
  match ((y - inject_Z f) ?= (1 # 2))%Q with
  | Lt => f
  | Gt => (f + 1)%Z
  | Eq => if Z.even f then f else (f + 1)%Z
  end.

(** The binary64 number nearest to [x >= 0]: a multiple [M * 2^E] of the
    smallest subnormal [2^-1074], with [M] below [2^53] up to the carry of
    the rounding.  Overflow to [Infinity] (from about [1.8e308]) is outside
    the model. *)
Definition roundMagnitude (x : Q) : Q :=
  let X := (x * inject_Z (2 ^ 1074))%Q in
  let E := Z.max 0 (Z.log2 (Qfloor X) - 52) in
  let M := roundHalfEven (X / inject_Z (2 ^ E))%Q in
  (inject_Z (M * 2 ^ E) / inject_Z (2 ^ 1074))%Q.

(** A number literal, or any exact value, as the double the engine holds. *)
Definition toDouble (x : Q) : Q :=
  if Qle_bool 0 x then roundMagnitude x else (- roundMagnitude (- x))%Q.

(** [a * b] on doubles. *)
Definition fmul (a b : Q) : Q := toDouble (a * b)%Q.

(** ** Train/test split *)

(** [Math.floor(this.processedData.length * trainRatio)]. *)
Definition splitIndex (len : nat) (trainRatio : Q) : Z :=
  Qfloor (fmul (inject_Z (Z.of_nat len)) (toDouble trainRatio)).

(** [splitData] on the processed set as it stands: [src/js/dataProcessor.js]
    (478-484) and [src/unnamed/part_001] (978-985, 1268-1274), where the
    ratio is [DATA_CONFIG.trainTestSplit].  [src/js/main.js] (623-633) takes
    the ratio as an argument defaulting to 0.8 and first computes an empty
    processed set; that version is [Advanced.splitData] below, which ends in
    this one. *)
Definition splitData {A} (processedData : list A) (trainRatio : Q) : Split A :=
  let splitIndex := splitIndex (length processedData) trainRatio in
  {| train := slice processedData 0 splitIndex;
     test := sliceFrom processedData splitIndex |}.

Definition insufficientTrainingData : string :=
  "Insufficient data for training. Need at least 15 data points.".

(** The split step of [MLPlatform.trainModel] ([src/js/main.js], 128-132):
    split, then refuse partitions that are too small.  The ratio used by
    [splitData] is a parameter here. *)
Definition splitThenCheck {A} (trainRatio : Q) (processedData : list A)
  : result (Split A) :=
  let s := splitData processedData trainRatio in
  if (length (train s) <? 10) || (length (test s) <? 5)
  then Throw (Error insufficientTrainingData)
  else Return s.

(** [trainModel] calls [splitData()] without an argument: the ratio is the
    configured one. *)
Definition splitForTraining {A} (processedData : list A) : result (Split A) :=
  splitThenCheck DATA_CONFIG.trainTestSplit processedData.

(** ** Loops and array helpers *)

(** [arr.reduce(f, init)]. *)
Definition reduce {A B} (f : A -> B -> A) (init : A) (arr : list B) : A :=
  fold_left f arr init.

(** [for (let i = lo; i < hi; i++) st = body(i, st)]. *)
Definition forLoop {S} (lo hi : nat) (body : nat -> S -> S) (init : S) : S :=
  fold_left (fun st i => body i st) (seq lo (hi - lo)) init.

Section Numbers.
Local Open Scope R_scope.

(** [arr[i]] on an array of numbers.  Every read made by the functions below
    on the paths the theorems follow is in range; the default stands for the
    out-of-range read ([undefined], then [NaN]), which [R] cannot express. *)
Definition at_ (arr : list R) (i : nat) : R := nth i arr 0.

(** [x || d] on numbers: [0] is falsy. *)
Definition orElse (x d : R) : R := if Req_dec_T x 0 then d else x.

(** [a > b], [a < b] and [a === b] as tests. *)
Definition gtb (a b : R) : bool := if Rgt_dec a b then true else false.
Definition ltb (a b : R) : bool := if Rlt_dec a b then true else false.
Definition eqb (a b : R) : bool := if Req_dec_T a b then true else false.

(** ** Feature normalisation
    ([normalizeFeatures]: [src/js/dataProcessor.js] 435-463 and
    [src/unnamed/part_001] 1235-1263, the same text) *)

(** The first loop: [means[i]] for [i < featureCount]. *)
Definition columnMeans (processedData : list FeatureRow) (featureCount : nat)
  : list R :=
  map (fun i =>
         reduce (fun sum item => sum + at_ (features item) i) 0 processedData
         / INR (length processedData))
      (seq 0 featureCount).

(** The second loop: [stds[i] = Math.sqrt(variance) || 1]. *)
Definition columnStds (processedData : list FeatureRow) (featureCount : nat)
  (means : list R) : list R :=
  map (fun i =>
         let variance :=
           reduce (fun sum item => sum + (at_ (features item) i - at_ means i) ^ 2)
                  0 processedData
           / INR (length processedData) in
         orElse (sqrt variance) 1)
      (seq 0 featureCount).

(** The parameters [{ means, stds }] computed from a set of rows whose first
    row has [featureCount] features. *)
Definition computeScaler (processedData : list FeatureRow) (featureCount : nat)
  : Scaler :=
  let means := columnMeans processedData featureCount in
  let stds := columnStds processedData featureCount means in
  {| means := means; stds := stds |}.

(** The inner loop of the [forEach]: [item.features[i]] is overwritten for
    [i < featureCount].  (On a row shorter than [featureCount] JavaScript
    would extend the array; [processFeatures] builds rows of one width.) *)
Definition normalizeRow (featureCount : nat) (sc : Scaler) (item : FeatureRow)
  : FeatureRow :=
  {| features :=
       forLoop 0 featureCount
         (fun i fs => <[i := (at_ fs i - at_ (means sc) i) / at_ (stds sc) i]> fs)
         (features item);
     target := target item;
     rowPrice := rowPrice item;
     rowDate := rowDate item |}.

(** [normalizeFeatures] on the fields it touches: [None] is the early
    [return] on an empty set, otherwise the normalised rows and the scaler
    stored in [this.scaler]. *)
Definition normalizeFeatures (processedData : list FeatureRow)
  : option (list FeatureRow * Scaler) :=
  match processedData with
  | [] => None
  | first :: _ =>
      let featureCount := length (features first) in
      let sc := computeScaler processedData featureCount in
      Some (map (normalizeRow featureCount sc) processedData, sc)
  end.

(** [getLatestFeatures] ([src/js/dataProcessor.js] 489-491, [part_001]
    1279-1281): [null] is [None]; reading [.features] of a missing element
    would be a [TypeError]. *)
Definition getLatestFeatures (processedData : list FeatureRow)
  : result (option (list R)) :=
  if (0 <? length processedData)%nat then
    match processedData !! (length processedData - 1)%nat with
    | Some item => Return (Some (features item))
    | None => Throw (TypeError "Cannot read properties of undefined")
    end
  else Return None.

Definition insufficientFeatureData : string :=
  "Insufficient data for feature processing".

End Numbers.

(** ** The real-data processor ([src/unnamed/part_001], 1019-1301) *)

Module RealData.
Section Defs.
Local Open Scope R_scope.

Record DataProcessor : Type := mkDataProcessor {
  rawData : list Observation;
  processedData : list FeatureRow;
  scaler : option Scaler
}.

(** [Math.max(0, index - period + 1)]; on [nat] the truncated subtraction
    already stops at 0. *)
Definition windowStart (index period : nat) : nat :=
  Nat.max 0 (index + 1 - period).

Definition window (arr : list R) (index period : nat) : list R :=
  slice arr (Z.of_nat (windowStart index period)) (Z.of_nat (index + 1)).

Definition calculateMA (prices : list R) (index period : nat) : R :=
  let slice := window prices index period in
  reduce (fun sum price => sum + price) 0 slice / INR (length slice).

Definition calculateMomentum (prices : list R) (index : nat) : R :=
  if (0 <? index)%nat then at_ prices index / at_ prices (index - 1) - 1 else 0.

Definition calculateVolatility (prices : list R) (index period : nat) : R :=
  let slice := window prices index period in
  if (length slice <? 2)%nat then 0
  else
    let mean := reduce (fun sum price => sum + price) 0 slice / INR (length slice) in
    let variance :=
      reduce (fun sum price => sum + (price - mean) ^ 2) 0 slice
      / INR (length slice) in
    sqrt variance.

Definition calculateVolumeRatio (volumes : list R) (index period : nat) : R :=
  let slice := window volumes index period in
  let avgVolume := reduce (fun sum vol => sum + vol) 0 slice / INR (length slice) in
  if eqb avgVolume 0 then 1 else at_ volumes index / avgVolume.

(** The [changes] array of [calculateRSI]: one difference per index of the
    lookback that has a predecessor. *)
Definition priceChanges (prices : list R) (index period : nat) : list R :=
  forLoop (index + 1 - period) (index + 1)
    (fun i changes =>
       if (0 <? i)%nat then changes ++ [at_ prices i - at_ prices (i - 1)]
       else changes)
    [].

(** [avgGain] and [avgLoss] of [calculateRSI]. *)
Definition averageGain (changes : list R) (period : nat) : R :=
  let gains := List.filter (fun change => gtb change 0) changes in
  if (0 <? length gains)%nat
  then reduce (fun sum gain => sum + gain) 0 gains / INR period else 0.

Definition averageLoss (changes : list R) (period : nat) : R :=
  let losses := map Rabs (List.filter (fun change => ltb change 0) changes) in
  if (0 <? length losses)%nat
  then reduce (fun sum loss => sum + loss) 0 losses / INR period else 0.

Definition calculateRSI (prices : list R) (index period : nat) : R :=
  if (index <? period)%nat then 50
  else
    let changes := priceChanges prices index period in
    let avgGain := averageGain changes period in
    let avgLoss := averageLoss changes period in
    if eqb avgLoss 0 then 100
    else
      let rs := avgGain / avgLoss in
      100 - 100 / (1 + rs).

(** The rows pushed by the loop of [processFeatures], before normalisation:
    [i] runs from 14 to [length - 2]. *)
Definition featureRow (rawData : list Observation) (prices volumes : list R)
  (i : nat) : FeatureRow :=
  {| features :=
       [ calculateMA prices i 5;
         calculateMA prices i 10;
         calculateMomentum prices i;
         calculateVolatility prices i 10;
         calculateVolumeRatio volumes i 10;
         calculateRSI prices i 14 ];
     target := at_ prices (i + 1);
     rowPrice := at_ prices i;
     rowDate := nth i (map date rawData) 0%Z |}.

Definition featureRows (rawData : list Observation) : list FeatureRow :=
  let prices := map price rawData in
  let volumes := map volume rawData in
  forLoop 14 (length rawData - 1)
    (fun i processedData => processedData ++ [featureRow rawData prices volumes i])
    [].

(** [processFeatures]: the new state and the returned [processedData]. *)
Definition processFeatures (this : DataProcessor)
  : result (DataProcessor * list FeatureRow) :=
  if (length (rawData this) <? 20)%nat then
    Throw (Error insufficientFeatureData)
  else
    let rows := featureRows (rawData this) in
    let this' :=
      match normalizeFeatures rows with
      | None =>
          {| rawData := rawData this; processedData := rows;
             scaler := scaler this |}
      | Some (rows', sc) =>
          {| rawData := rawData this; processedData := rows';
             scaler := Some sc |}
      end in
    Return (this', processedData this').

End Defs.
End RealData.

(** ** The optimised processor ([src/js/dataProcessor.js], 189-531) *)

Module Optimized.
Section Defs.
Local Open Scope R_scope.

(** The cache is a [Map] from the key string to a processed set.  The key is
    ["processed_"] followed by an integer, so the integer stands for the
    string. *)
Record DataProcessor : Type := mkDataProcessor {
  rawData : list Observation;
  processedData : list FeatureRow;
  scaler : option Scaler;
  cache : gmap Z (list FeatureRow)
}.

(** [Math.round]. *)
Definition round (x : R) : Z := Int_part (x + / 2).

Definition generateCacheKey (rawData : list Observation) : Z :=
  let priceHash :=
    reduce (fun hash '(i, item) => hash + price item * INR (i + 1)) 0
           (combine (seq 0 (length rawData)) rawData) in
  round (priceHash * 1000).

Definition calculateMovingAverageArray (prices : list R) (window : nat)
  : list R :=
  let result := repeat 0 (length prices) in
  let '(sum, result) :=
    forLoop 0 (Nat.min window (length prices))
      (fun i '(sum, result) =>
         let sum := sum + at_ prices i in
         (sum, <[i := sum / INR (i + 1)]> result))
      (0, result) in
  let '(sum, result) :=
    forLoop window (length prices)
      (fun i '(sum, result) =>
         let sum := sum + at_ prices i - at_ prices (i - window) in
         (sum, <[i := sum / INR window]> result))
      (sum, result) in
  result.

(** The body of the first loop of [calculateRSIArray]: the changes of the
    first [period] steps are summed into gains and losses. *)
Definition rsiSeedStep (prices : list R) (i : nat) (st : R * R) : R * R :=
  let '(avgGain, avgLoss) := st in
  let change := at_ prices i - at_ prices (i - 1) in
  if gtb change 0 then (avgGain + change, avgLoss)
  else (avgGain, avgLoss + Rabs change).

(** The body of the rolling loop: smoothed averages, then [result[i]]. *)
Definition rsiRollStep (prices : list R) (period : nat) (i : nat)
  (st : R * R * list R) : R * R * list R :=
  let '(avgGain, avgLoss, result) := st in
  let change := at_ prices i - at_ prices (i - 1) in
  let gain := if gtb change 0 then change else 0 in
  let loss := if ltb change 0 then Rabs change else 0 in
  let avgGain := (avgGain * INR (period - 1) + gain) / INR period in
  let avgLoss := (avgLoss * INR (period - 1) + loss) / INR period in
  let rs := if eqb avgLoss 0 then 100 else avgGain / avgLoss in
  (avgGain, avgLoss, <[i := 100 - 100 / (1 + rs)]> result).

(** The state of the rolling loop when it stops: the two smoothed averages
    and the result array. *)
Definition rsiRun (prices : list R) (period : nat) : R * R * list R :=
  let result := repeat 50 (length prices) in
  let '(avgGain, avgLoss) :=
    forLoop 1 (period + 1) (rsiSeedStep prices) (0, 0) in
  let avgGain := avgGain / INR period in
  let avgLoss := avgLoss / INR period in
  forLoop period (length prices) (rsiRollStep prices period)
    (avgGain, avgLoss, result).

Definition calculateRSIArray (prices : list R) (period : nat) : list R :=
  let result := repeat 50 (length prices) in
  if (length prices <? period + 1)%nat then result
  else
    let '(_, _, result) := rsiRun prices period in
    result.

Definition calculateMomentum (prices : list R) (index : nat) : R :=
  if (0 <? index)%nat then at_ prices index / at_ prices (index - 1) - 1 else 0.

Definition calculateVolatility (prices : list R) : R :=
  if (length prices <? 2)%nat then 0
  else
    let mean := reduce (fun a b => a + b) 0 prices / INR (length prices) in
    let variance :=
      reduce (fun sum price => sum + (price - mean) ^ 2) 0 prices
      / INR (length prices) in
    sqrt variance.

Definition calculateVolumeRatio (volumes : list R) (index : nat) : R :=
  let start := Nat.max 0 (index - 9) in
  let recentVolumes := slice volumes (Z.of_nat start) (Z.of_nat (index + 1)) in
  let avgVolume :=
    reduce (fun a b => a + b) 0 recentVolumes / INR (length recentVolumes) in
  if eqb avgVolume 0 then 1 else at_ volumes index / avgVolume.

Definition featureRow (rawData : list Observation)
  (prices volumes ma5Array ma10Array rsiArray : list R) (i : nat) : FeatureRow :=
  {| features :=
       [ at_ ma5Array i;
         at_ ma10Array i;
         calculateMomentum prices i;
         calculateVolatility
           (slice prices (Z.of_nat (Nat.max 0 (i - 9))) (Z.of_nat (i + 1)));
         calculateVolumeRatio volumes i;
         at_ rsiArray i ];
     target := at_ prices (i + 1);
     rowPrice := at_ prices i;
     rowDate := nth i (map date rawData) 0%Z |}.

(** The rows pushed by the loop, before normalisation: [i] runs from 10 to
    [length - 2]. *)
Definition featureRows (rawData : list Observation) : list FeatureRow :=
  let prices := map price rawData in
  let volumes := map volume rawData in
  let ma5Array := calculateMovingAverageArray prices 5 in
  let ma10Array := calculateMovingAverageArray prices 10 in
  let rsiArray := calculateRSIArray prices 14 in
  forLoop 10 (length rawData - 1)
    (fun i processedData =>
       processedData
       ++ [featureRow rawData prices volumes ma5Array ma10Array rsiArray i])
    [].

(** [processFeatures].  The rows are plain values here: the cached copy
    shares its row objects with [processedData], but no row is written after
    [normalizeFeatures] has run, so the sharing is not observable. *)
Definition processFeatures (this : DataProcessor)
  : result (DataProcessor * list FeatureRow) :=
  if (length (rawData this) <? 20)%nat then
    Throw (Error insufficientFeatureData)
  else
    let cacheKey := generateCacheKey (rawData this) in
    match cache this !! cacheKey with
    | Some cached =>
        Return ({| rawData := rawData this; processedData := cached;
                   scaler := scaler this; cache := cache this |}, cached)
    | None =>
        let rows := featureRows (rawData this) in
        let '(rows', scaler') :=
          match normalizeFeatures rows with
          | None => (rows, scaler this)
          | Some (rows', sc) => (rows', Some sc)
          end in
        Return ({| rawData := rawData this; processedData := rows';
                   scaler := scaler';
                   cache := <[cacheKey := rows']> (cache this) |}, rows')
    end.

(** [reset] and a freshly constructed processor. *)
Definition reset (this : DataProcessor) : DataProcessor :=
  {| rawData := []; processedData := []; scaler := None; cache := ∅ |}.

Definition new : DataProcessor :=
  {| rawData := []; processedData := []; scaler := None; cache := ∅ |}.

End Defs.
End Optimized.

(** ** Model configuration ([src/unnamed/part_001], 7-72) *)

Record CryptoConfig : Type := mkCryptoConfig {
  name : string;
  iso20022 : bool
}.

Definition CRYPTO_CONFIG (cryptoKey : string) : option CryptoConfig :=
  if String.eqb cryptoKey "xrp" then Some {| name := "XRP"; iso20022 := true |}
  else if String.eqb cryptoKey "xlm" then Some {| name := "Stellar"; iso20022 := true |}
  else if String.eqb cryptoKey "ada" then Some {| name := "Cardano"; iso20022 := true |}
  else if String.eqb cryptoKey "btc" then Some {| name := "Bitcoin"; iso20022 := false |}
  else if String.eqb cryptoKey "eth" then Some {| name := "Ethereum"; iso20022 := false |}
  else if String.eqb cryptoKey "sol" then Some {| name := "Solana"; iso20022 := false |}
  else None.

Record TrainingConfig : Type := mkTrainingConfig {
  hiddenUnits : nat;
  epochs : nat;
  learningRate : Q
}.

(** [MODEL_CONFIG[modelType][configType]], with [configType] the flag
    [crypto.iso20022]. *)
Definition MODEL_CONFIG (modelType : string) (iso : bool) : option TrainingConfig :=
  if String.eqb modelType "neural" then
    Some (if iso then mkTrainingConfig 64 150 0.0008 else mkTrainingConfig 32 100 0.001)
  else if String.eqb modelType "deep" then
    Some (if iso then mkTrainingConfig 96 180 0.0006 else mkTrainingConfig 64 120 0.0008)
  else if String.eqb modelType "lstm" then
    Some (if iso then mkTrainingConfig 72 200 0.0007 else mkTrainingConfig 48 130 0.0009)
  else None.

(** ** The tensor library, as far as [ModelBuilder] uses it *)

Inductive Layer : Type :=
| Dense (units : nat) (activation : string)
| Dropout (rate : Q)
| BatchNormalization
| Reshape (rows cols : nat)
| Lstm (units : nat) (dropout recurrentDropout : Q).

(** A model object: [modelId] is its identity in the library's memory. *)
Record Model : Type := mkModel {
  modelId : nat;
  inputShape : nat;
  layers : list Layer;
  optimizer : option Q
}.

(** The library's memory: the models created and not yet disposed. *)
Record Tf : Type := mkTf {
  nextModelId : nat;
  liveModels : list nat
}.

Definition tfInit : Tf := {| nextModelId := 0; liveModels := [] |}.

(** [tf.sequential({ layers })]. *)
Definition tfSequential (tf : Tf) (inputShape : nat) (layers : list Layer)
  : Tf * Model :=
  ({| nextModelId := S (nextModelId tf);
      liveModels := nextModelId tf :: liveModels tf |},
   {| modelId := nextModelId tf; inputShape := inputShape; layers := layers;
      optimizer := None |}).

(** [model.dispose()]. *)
Definition tfDispose (tf : Tf) (m : Model) : Tf :=
  {| nextModelId := nextModelId tf;
     liveModels := List.filter (fun id => negb (Nat.eqb id (modelId m))) (liveModels tf) |}.

(** ** [ModelBuilder] ([src/unnamed/part_000]) *)

Record Metrics : Type := mkMetrics {
  mae : R;
  mse : R;
  rmse : R;
  r2 : R;
  accuracy : R;
  sampleSize : nat
}.

Module ModelBuilder.
Section Defs.
Local Open Scope R_scope.

(** [trainingHistory] holds what [fit] returned; only its presence matters
    here. *)
Record ModelBuilder : Type := mkModelBuilder {
  model : option Model;
  trainingHistory : option nat
}.

Definition new : ModelBuilder := {| model := None; trainingHistory := None |}.

(** [compileModel]: the optimiser is attached to [this.model]. *)
Definition compileModel (m : Model) (learningRate : Q) : Model :=
  {| modelId := modelId m; inputShape := inputShape m; layers := layers m;
     optimizer := Some learningRate |}.

Definition neuralLayers (config : TrainingConfig) : list Layer :=
  [ Dense (hiddenUnits config) "relu";
    Dropout 0.2;
    Dense (hiddenUnits config / 2) "relu";
    Dense 1 "linear" ].

Definition deepLayers (config : TrainingConfig) : list Layer :=
  [ Dense (hiddenUnits config * 2) "relu";
    BatchNormalization;
    Dropout 0.3;
    Dense (hiddenUnits config) "relu";
    BatchNormalization;
    Dropout 0.2;
    Dense (hiddenUnits config / 2) "relu";
    Dropout 0.1;
    Dense 1 "linear" ].

Definition lstmLayers (config : TrainingConfig) : list Layer :=
  [ Reshape 6 1;
    Lstm (hiddenUnits config) 0.2 0.2;
    Dense (hiddenUnits config / 2) "relu";
    Dropout 0.2;
    Dense 1 "linear" ].

(** The body shared by [buildNeuralNetwork], [buildDeepNetwork] and
    [buildLSTMNetwork]: [this.model = tf.sequential(...)], then
    [compileModel], then [return this.model]. *)
Definition buildNetwork (layersOf : TrainingConfig -> list Layer)
  (tf : Tf) (this : ModelBuilder) (config : TrainingConfig)
  : Tf * ModelBuilder * Model :=
  let '(tf, m) := tfSequential tf 6 (layersOf config) in
  let m := compileModel m (learningRate config) in
  (tf, {| model := Some m; trainingHistory := trainingHistory this |}, m).

Definition buildNeuralNetwork := buildNetwork neuralLayers.
Definition buildDeepNetwork := buildNetwork deepLayers.
Definition buildLSTMNetwork := buildNetwork lstmLayers.

Definition buildModel (tf : Tf) (this : ModelBuilder) (modelType cryptoKey : string)
  : result (Tf * ModelBuilder * Model) :=
  match CRYPTO_CONFIG cryptoKey with
  | None => Throw (TypeError "Cannot read properties of undefined")
  | Some crypto =>
      match MODEL_CONFIG modelType (iso20022 crypto) with
      | None => Throw (TypeError "Cannot read properties of undefined")
      | Some config =>
          if String.eqb modelType "neural" then
            Return (buildNeuralNetwork tf this config)
          else if String.eqb modelType "deep" then
            Return (buildDeepNetwork tf this config)
          else if String.eqb modelType "lstm" then
            Return (buildLSTMNetwork tf this config)
          else Throw (Error ("Unknown model type: " ++ modelType))
      end
  end.

(** [dispose]. *)
Definition dispose (tf : Tf) (this : ModelBuilder) : Tf * ModelBuilder :=
  match model this with
  | Some m => (tfDispose tf m, {| model := None; trainingHistory := None |})
  | None => (tf, {| model := model this; trainingHistory := None |})
  end.

Definition isReady (this : ModelBuilder) : bool :=
  match model this with Some _ => true | None => false end.

(** [calculateMetrics]: one pass accumulating [mae], [mse] and [totalSq]. *)
Definition calculateMetrics (predictions actuals : list R) : Metrics :=
  let n := length predictions in
  let meanActual := reduce (fun sum val => sum + val) 0 actuals / INR n in
  let '(mae, mse, totalSq) :=
    forLoop 0 n
      (fun i '(mae, mse, totalSq) =>
         let error := Rabs (at_ predictions i - at_ actuals i) in
         let squaredError := (at_ predictions i - at_ actuals i) ^ 2 in
         (mae + error, mse + squaredError,
          totalSq + (at_ actuals i - meanActual) ^ 2))
      (0, 0, 0) in
  let mae := mae / INR n in
  let mse := mse / INR n in
  let r2 := if eqb totalSq 0 then 0 else 1 - (mse * INR n) / totalSq in
  let rmse := sqrt mse in
  let meanPrice := meanActual in
  let accuracy := Rmax 0 ((1 - mae / meanPrice) * 100) in
  {| mae := mae; mse := mse; rmse := rmse; r2 := r2; accuracy := accuracy;
     sampleSize := n |}.

(** [this.model.predict(testX)] followed by [predictions.data()] is the
    library's; it is a parameter, and may throw. *)
Variable tfPredict : Model -> list (list R) -> result (list R).

(** [evaluateModel].  [testY] is the tensor of one-element rows built by the
    caller; [testY.data()] is its flattening. *)
Definition evaluateModel (this : ModelBuilder) (testX testY : list (list R))
  : result Metrics :=
  match model this with
  | None => Throw (Error "No model available for evaluation")
  | Some m =>
      match tfPredict m testX with
      | Return predArray =>
          let actualArray := concat testY in
          Return (calculateMetrics predArray actualArray)
      | Throw (Error msg) | Throw (TypeError msg) =>
          Throw (Error ("Model evaluation failed: " ++ msg))
      end
  end.

End Defs.
End ModelBuilder.

(** ** The session: the calls of [MLPlatform] that create or release a model
    ([src/js/main.js]) *)

(** [trainModel] reaches [modelBuilder.buildModel(modelType, currentCrypto)]
    (line 141); [selectCrypto] (line 65) and [reset] (line 255) call
    [modelBuilder.dispose()]. *)
Inductive SessionCall : Type :=
| CallBuild (modelType cryptoKey : string)
| CallDispose.

Definition Session : Type := (Tf * ModelBuilder.ModelBuilder)%type.

Definition sessionInit : Session := (tfInit, ModelBuilder.new).

(** A throwing [buildModel] leaves the session as it was. *)
Definition sessionStep (s : Session) (c : SessionCall) : Session :=
  let '(tf, mb) := s in
  match c with
  | CallBuild modelType cryptoKey =>
      match ModelBuilder.buildModel tf mb modelType cryptoKey with
      | Return (tf', mb', _) => (tf', mb')
      | Throw _ => s
      end
  | CallDispose => ModelBuilder.dispose tf mb
  end.

Definition sessionRun (calls : list SessionCall) : Session :=
  fold_left sessionStep calls sessionInit.

(** * Statements and inputs

    The notions the properties below are stated with, the formulas of the
    specification, and the concrete inputs used as examples. *)

(** ** Evaluation metrics, in the words of the specification *)

Section Statements.
Local Open Scope R_scope.

(** The formulas in the words of the specification. *)
Definition specSum (l : list R) : R := fold_right Rplus 0 l.

Definition specMean (l : list R) : R := specSum l / INR (length l).

Fixpoint pairwise (f : R -> R -> R) (ps acts : list R) : list R :=
  match ps, acts with
  | p :: ps, a :: acts => f p a :: pairwise f ps acts
  | _, _ => []
  end.

Definition specMAE (ps acts : list R) : R :=
  specMean (pairwise (fun p a => Rabs (p - a)) ps acts).

Definition specMSE (ps acts : list R) : R :=
  specMean (pairwise (fun p a => (p - a) ^ 2) ps acts).

Definition specRMSE (ps acts : list R) : R := sqrt (specMSE ps acts).

(** The denominator of R²: the sum of squared deviations of the actuals. *)
Definition specTotalSq (acts : list R) : R :=
  specSum (map (fun a => (a - specMean acts) ^ 2) acts).

Definition specR2 (ps acts : list R) : R :=
  if Req_dec_T (specTotalSq acts) 0 then 0
  else 1 - (specMSE ps acts * INR (length ps)) / specTotalSq acts.

Definition specAccuracy (ps acts : list R) : R :=
  Rmax 0 ((1 - specMAE ps acts / specMean acts) * 100).

(** Sum of [f 0 .. f (n - 1)], in loop order. *)
Fixpoint sumTo (n : nat) (f : nat -> R) : R :=
  match n with
  | O => 0
  | S n => sumTo n f + f n
  end.

(** ** RSI *)

Definition inRsiRange (x : R) : Prop := 0 <= x <= 100.

(** A series in which no price falls. *)
Definition neverFalls (prices : list R) : Prop :=
  forall i, (1 <= i < length prices)%nat -> at_ prices (i - 1) <= at_ prices i.

(** Fifteen prices rising by one unit each step. *)
Definition rising15 : list R :=
  [1; 2; 3; 4; 5; 6; 7; 8; 9; 10; 11; 12; 13; 14; 15].

(** ** Evaluation *)

(** A stand-in for the library's prediction.  Like the library it refuses an
    empty batch and rows that do not have the input width of the model; on
    any other batch it returns one value per row (the values, here 0, are
    those of the weights in the library). *)
Definition zeroPredict (m : Model) (testX : list (list R)) : result (list R) :=
  if (length testX =? 0)%nat
     || negb (forallb (fun row => (length row =? inputShape m)%nat) testX)
  then Throw (Error "the input does not fit the model")
  else Return (map (fun _ => 0) testX).

(** C7 as stated: whenever the two sequences differ in length or are empty,
    evaluation raises. *)
Definition evaluateValidatesAsStated
  (tfPredict : Model -> list (list R) -> result (list R))
  (this : ModelBuilder.ModelBuilder) (testX testY : list (list R)) : Prop :=
  forall m predArray,
    ModelBuilder.model this = Some m ->
    tfPredict m testX = Return predArray ->
    length predArray <> length (concat testY) \/ predArray = [] ->
    raises (ModelBuilder.evaluateModel tfPredict this testX testY).

(** ** Example series *)

(** Twenty observations at price 1, the last two at price 2. *)
Definition stepPrices : list R :=
  [1; 1; 1; 1; 1; 1; 1; 1; 1; 1; 1; 1; 1; 1; 1; 1; 1; 1; 2; 2].

Definition stepSeries : Optimized.DataProcessor :=
  {| Optimized.rawData :=
       map (fun p => {| date := 0%Z; price := p; volume := 1 |}) stepPrices;
     Optimized.processedData := [];
     Optimized.scaler := None;
     Optimized.cache := ∅ |}.

End Statements.

(** ** Rows, partitions and ownership *)

(** The shape shared by the rows of both processors: row [k] is built at
    index [start + k] of the series. *)
Definition rowsFollow (start : nat) (rawData : list Observation)
  (rows : list FeatureRow) : Prop :=
  length rows = length rawData - start - 1
  /\ forall k, k < length rawData - start - 1 ->
       exists row o o',
         rows !! k = Some row
         /\ length (features row) = 6
         /\ rawData !! (start + k) = Some o
         /\ rowPrice row = price o /\ rowDate row = date o
         /\ rawData !! (start + k + 1) = Some o'
         /\ target row = price o'.

(** A series of sixteen observations: long enough for one row after a
    warm-up of 14. *)
Definition series16 : RealData.DataProcessor :=
  {| RealData.rawData :=
       map (fun i => {| date := Z.of_nat i; price := INR (i + 1); volume := 1%R |})
           (seq 0 16);
     RealData.processedData := [];
     RealData.scaler := None |}.

(** The same with twenty observations. *)
Definition series20 : RealData.DataProcessor :=
  {| RealData.rawData :=
       map (fun i => {| date := Z.of_nat i; price := INR (i + 1); volume := 1%R |})
           (seq 0 20);
     RealData.processedData := [];
     RealData.scaler := None |}.

(** C3 as stated: with warm-up 14, any series of at least 16 observations
    yields [n - 14 - 1] rows. *)
Definition featureCountAsStated (this : RealData.DataProcessor) : Prop :=
  14 + 2 <= length (RealData.rawData this) ->
  exists this' rows,
    RealData.processFeatures this = Return (this', rows)
    /\ length rows = length (RealData.rawData this) - 14 - 1.

(** The rows the split puts in the train partition, before normalisation. *)
Definition trainRows (rawData : list Observation) : list FeatureRow :=
  train (splitData (Optimized.featureRows rawData) DATA_CONFIG.trainTestSplit).

(** C1 as stated: the scaler left by a pipeline run is the one computed from
    the train partition alone. *)
Definition scalerFromTrainOnly (this : Optimized.DataProcessor) : Prop :=
  forall this' rows,
    Optimized.processFeatures this = Return (this', rows) ->
    Optimized.scaler this' = Some (computeScaler (trainRows (Optimized.rawData this)) 6).

(** A builder that holds a model: the state after one [buildModel]. *)
Definition builtBuilder : ModelBuilder.ModelBuilder :=
  snd (sessionRun [CallBuild "neural" "xrp"]).

(** The session owns its models properly when the models alive in the
    library are exactly the one the builder holds. *)
Definition ownsItsModels (s : Session) : Prop :=
  liveModels (fst s)
  = match ModelBuilder.model (snd s) with
    | Some m => [modelId m]
    | None => []
    end.

(** * Further embedded code

    More of the cited files: data generation, the other processors, the
    remaining methods of [ModelBuilder] and the training call of
    [MLPlatform]. *)

(** ** The optimised processor: new data *)

(** [this.rawData = ...]: every loader of the optimised processor replaces
    the series and touches nothing else, in particular not the cache. *)
Definition Optimized_setRawData (this : Optimized.DataProcessor)
  (series : list Observation) : Optimized.DataProcessor :=
  {| Optimized.rawData := series;
     Optimized.processedData := Optimized.processedData this;
     Optimized.scaler := Optimized.scaler this;
     Optimized.cache := Optimized.cache this |}.

(** ** Data generation *)

Section Generation.
Local Open Scope R_scope.

(** The [basePrice] column of [CRYPTO_CONFIG]. *)
Definition CRYPTO_basePrice (cryptoKey : string) : option R :=
  if String.eqb cryptoKey "xrp" then Some (65 / 100)
  else if String.eqb cryptoKey "xlm" then Some (12 / 100)
  else if String.eqb cryptoKey "ada" then Some (45 / 100)
  else if String.eqb cryptoKey "btc" then Some 45000
  else if String.eqb cryptoKey "eth" then Some 2500
  else if String.eqb cryptoKey "sol" then Some 95
  else None.

(** [DATA_CONFIG.volatility] and [DATA_CONFIG.volumeMultiplier]. *)
Definition volatilityOf (iso : bool) : R := if iso then 5 / 100 else 8 / 100.
Definition volumeMultiplier : R := 1000000.

(** A number used as a condition: [null], [undefined] and [0] are falsy. *)
Definition truthy (x : option R) : option R :=
  match x with
  | Some v => if eqb v 0 then None else Some v
  | None => None
  end.

(** One day in milliseconds. *)
Definition dayMs : Z := 24 * 60 * 60 * 1000.

(** The body of the loop of [generateRealisticData]
    ([src/js/dataProcessor.js], 261-288).  [rand k] is the value of the
    [k]-th call of [Math.random] (two calls per round) and [now i] the value
    of [Date.now()] in round [i]. *)
Definition realisticStep (rand : nat -> R) (now : nat -> Z) (dataPoints : nat)
  (latestPrice volatility : R) (i : nat) (st : R * list Observation)
  : R * list Observation :=
  let '(price, rawData) := st in
  let dayProgress := INR i / INR (dataPoints - 1) in
  let trendForce := (latestPrice - price) * (2 / 1000) * dayProgress in
  let dayOfWeek := (i mod 7)%nat in
  let weekendEffect :=
    if (Nat.eqb dayOfWeek 0 || Nat.eqb dayOfWeek 6)%bool then 98 / 100 else 102 / 100 in
  let randomWalk := (rand (2 * i)%nat - 1 / 2) * volatility in
  let trendComponent := trendForce + sin (INR i / 14) * (1 / 100) in
  let price := price * (1 + trendComponent + randomWalk) * weekendEffect in
  let price := Rmax price (latestPrice * (1 / 10)) in
  let volatilityFactor := Rabs randomWalk * 10 + 1 / 2 in
  let volume := volumeMultiplier * (1 / 2 + rand (2 * i + 1)%nat) * volatilityFactor in
  (price,
   rawData ++ [{| date := (now i - Z.of_nat (dataPoints - i - 1) * dayMs)%Z;
                  price := price; volume := volume |}]).

(** [rawData[rawData.length - 1].price = currentPrice]. *)
Definition setLastPrice (rawData : list Observation) (currentPrice : R)
  : list Observation :=
  match rawData !! (length rawData - 1)%nat with
  | Some last =>
      <[(length rawData - 1)%nat :=
          {| date := date last; price := currentPrice; volume := volume last |}]> rawData
  | None => rawData
  end.

(** [generateRealisticData(cryptoKey, currentPrice = null, recentChange = 0)]:
    the new state and the returned series.  The [source] tag of the
    observations is not modelled. *)
Definition Optimized_generateRealisticData (rand : nat -> R) (now : nat -> Z)
  (this : Optimized.DataProcessor) (cryptoKey : string)
  (currentPrice : option R) (recentChange : R)
  : result (Optimized.DataProcessor * list Observation) :=
  match CRYPTO_CONFIG cryptoKey, CRYPTO_basePrice cryptoKey with
  | Some crypto, Some basePrice =>
      let dataPoints := DATA_CONFIG.syntheticDataPoints in
      let latestPrice :=
        match truthy currentPrice with Some p => p | None => basePrice end in
      let volatility := volatilityOf (iso20022 crypto) in
      let price := latestPrice * (1 - recentChange / 100 * (3 / 10)) in
      let '(_, rawData) :=
        forLoop 0 dataPoints
          (realisticStep rand now dataPoints latestPrice volatility)
          (price, []) in
      let rawData :=
        match truthy currentPrice with
        | Some p => setLastPrice rawData p
        | None => rawData
        end in
      Return (Optimized_setRawData this rawData, rawData)
  | _, _ => Throw (TypeError "Cannot read properties of undefined")
  end.

(** What the price request of [fetchData] can come back with: a network
    failure or timeout, or a response with its [ok] flag and the [usd] and
    [usd_24h_change] fields of the payload when present. *)
Inductive PriceResponse : Type :=
| RequestFailed
| Responded (ok : bool) (usd usd_24h_change : option R).

(** [fetchData] of the optimised processor ([src/js/dataProcessor.js],
    200-226): the series is generated around the fetched price, or around
    the configured base price when the request fails, is not [ok] or carries
    no price. *)
Definition Optimized_fetchData (rand : nat -> R) (now : nat -> Z)
  (response : PriceResponse) (this : Optimized.DataProcessor) (cryptoKey : string)
  : result (Optimized.DataProcessor * list Observation) :=
  match CRYPTO_CONFIG cryptoKey with
  | None => Throw (TypeError "Cannot read properties of undefined")
  | Some _ =>
      match response with
      | Responded true usd change =>
          match truthy usd with
          | Some currentPrice =>
              let change24h := match truthy change with Some c => c | None => 0 end in
              Optimized_generateRealisticData rand now this cryptoKey
                (Some currentPrice) change24h
          | None =>
              Optimized_generateRealisticData rand now this cryptoKey None 0
          end
      | _ => Optimized_generateRealisticData rand now this cryptoKey None 0
      end
  end.

(** The body of the loop of [generateFallbackData] of the real-data
    processor ([src/unnamed/part_001], 1107-1128): the running price is not
    floored, the stored one is. *)
Definition fallbackStep (rand : nat -> R) (now : nat -> Z) (basePrice : R)
  (i : nat) (st : R * list Observation) : R * list Observation :=
  let '(price, rawData) := st in
  let change := (rand (2 * i)%nat - 1 / 2) * (2 / 100) in
  let price := price * (1 + change) in
  (price,
   rawData ++ [{| date := (now i - Z.of_nat (100 - i) * dayMs)%Z;
                  price := Rmax price (basePrice * (8 / 10));
                  volume := rand (2 * i + 1)%nat * 1000000 |}]).

Definition RealData_generateFallbackData (rand : nat -> R) (now : nat -> Z)
  (this : RealData.DataProcessor) (cryptoKey : string)
  : result (RealData.DataProcessor * list Observation) :=
  match CRYPTO_basePrice cryptoKey with
  | Some basePrice =>
      let '(_, rawData) :=
        forLoop 0 100 (fallbackStep rand now basePrice) (basePrice, []) in
      Return ({| RealData.rawData := rawData;
                 RealData.processedData := RealData.processedData this;
                 RealData.scaler := RealData.scaler this |}, rawData)
  | None => Throw (TypeError "Cannot read properties of undefined")
  end.

End Generation.

(** ** The synthetic-data processor ([src/unnamed/part_001], 762-1015) *)

Module Synthetic.
Section Defs.
Local Open Scope R_scope.

Record DataProcessor : Type := mkDataProcessor {
  rawData : list Observation;
  processedData : list FeatureRow;
  scaler : option Scaler
}.

(** [prices.slice(-window)] is the suffix of [window] elements. *)
Definition calculateMovingAverage (prices : list R) (window : nat) : R :=
  if (length prices <? window)%nat then at_ prices (length prices - 1)
  else
    let slice := sliceFrom prices (- Z.of_nat window) in
    reduce (fun a b => a + b) 0 slice / INR (length slice).

Definition calculateVolatility (prices : list R) : R :=
  if (length prices <? 2)%nat then 0
  else
    let mean := reduce (fun a b => a + b) 0 prices / INR (length prices) in
    let squaredDiffs := map (fun price => (price - mean) ^ 2) prices in
    let variance := reduce (fun a b => a + b) 0 squaredDiffs / INR (length prices) in
    sqrt variance.

Definition calculateRSI (prices : list R) (period : nat) : R :=
  if (length prices <? period + 1)%nat then 50
  else
    let recentPrices := sliceFrom prices (- Z.of_nat period - 1) in
    let '(gains, losses) :=
      forLoop 1 (length recentPrices)
        (fun i '(gains, losses) =>
           let change := at_ recentPrices i - at_ recentPrices (i - 1) in
           if gtb change 0 then (gains + change, losses)
           else (gains, losses + Rabs change))
        (0, 0) in
    let avgGain := gains / INR period in
    let avgLoss := losses / INR period in
    if eqb avgLoss 0 then 100
    else
      let rs := avgGain / avgLoss in
      100 - 100 / (1 + rs).

(** [calculateFeatures]: the indicators are computed on the last eleven
    prices and volumes at most ([lookback = 10]). *)
Definition calculateFeatures (prices volumes : list R) (index : nat) : list R :=
  let lookback := 10%nat in
  let recentPrices :=
    slice prices (Z.of_nat (Nat.max 0 (index - lookback))) (Z.of_nat (index + 1)) in
  let recentVolumes :=
    slice volumes (Z.of_nat (Nat.max 0 (index - lookback))) (Z.of_nat (index + 1)) in
  let ma5 := calculateMovingAverage recentPrices 5 in
  let ma10 := calculateMovingAverage recentPrices 10 in
  let momentum :=
    if (0 <? index)%nat then at_ prices index / at_ prices (index - 1) - 1 else 0 in
  let volatility := calculateVolatility recentPrices in
  let avgVolume :=
    reduce (fun a b => a + b) 0 recentVolumes / INR (length recentVolumes) in
  let volumeTrend := at_ volumes index / avgVolume in
  let rsi := calculateRSI recentPrices 14 in
  [ma5; ma10; momentum; volatility; volumeTrend; rsi].

Definition featureRows (rawData : list Observation) : list FeatureRow :=
  let prices := map price rawData in
  let volumes := map volume rawData in
  forLoop 10 (length rawData - 1)
    (fun i processedData =>
       let features := calculateFeatures prices volumes i in
       let target := at_ prices (i + 1) in
       processedData
       ++ [{| features := features; target := target; rowPrice := at_ prices i;
              rowDate := nth i (map date rawData) 0%Z |}])
    [].

(** The means and deviations of [normalizeFeatures], computed from the
    column [values] of each feature. *)
Definition columnMeans (processedData : list FeatureRow) (featureCount : nat)
  : list R :=
  map (fun i =>
         let values := map (fun d => at_ (features d) i) processedData in
         reduce (fun a b => a + b) 0 values / INR (length values))
      (seq 0 featureCount).

Definition columnStds (processedData : list FeatureRow) (featureCount : nat)
  (means : list R) : list R :=
  map (fun i =>
         let values := map (fun d => at_ (features d) i) processedData in
         let variance :=
           reduce (fun sum val => sum + (val - at_ means i) ^ 2) 0 values
           / INR (length values) in
         orElse (sqrt variance) 1)
      (seq 0 featureCount).

(** [normalizeFeatures]: here each row gets a new array,
    [item.features.map((feature, i) => (feature - means[i]) / stds[i])]. *)
Definition normalizeFeatures (processedData : list FeatureRow)
  : option (list FeatureRow * Scaler) :=
  match processedData with
  | [] => None
  | first :: _ =>
      let featureCount := length (features first) in
      let means := columnMeans processedData featureCount in
      let stds := columnStds processedData featureCount means in
      Some (map (fun item =>
                   {| features :=
                        imap (fun i feature => (feature - at_ means i) / at_ stds i)
                             (features item);
                      target := target item;
                      rowPrice := rowPrice item;
                      rowDate := rowDate item |})
                processedData,
            {| means := means; stds := stds |})
  end.

Definition processFeatures (this : DataProcessor)
  : result (DataProcessor * list FeatureRow) :=
  if (length (rawData this) <? 20)%nat then
    Throw (Error insufficientFeatureData)
  else
    let rows := featureRows (rawData this) in
    let this' :=
      match normalizeFeatures rows with
      | None =>
          {| rawData := rawData this; processedData := rows;
             scaler := scaler this |}
      | Some (rows', sc) =>
          {| rawData := rawData this; processedData := rows';
             scaler := Some sc |}
      end in
    Return (this', processedData this').

End Defs.
End Synthetic.

(** ** The indicator processor of [src/js/main.js] (360-685) *)

(** One element of its [rawData]. *)
Record Candle : Type := mkCandle {
  timestamp : Z;
  cprice : R;
  cvolume : R;
  high : R;
  low : R;
  open : R;
  close : R
}.

(** One element of its [processedData]: [{ features, target }]. *)
Record Sample : Type := mkSample {
  sampleFeatures : list R;
  sampleTarget : R
}.

Module Advanced.
Section Defs.
Local Open Scope R_scope.

(** [new Date(timestamp).getHours()] and [.getDay()] depend on the time zone
    of the browser; they are parameters. *)
Variable getHours : Z -> nat.
Variable getDay : Z -> nat.

Record DataProcessor : Type := mkDataProcessor {
  rawData : list Candle;
  processedData : list Sample;
  currentPrice : R
}.

Definition new : DataProcessor :=
  {| rawData := []; processedData := []; currentPrice := 62 / 100 |}.

(** [this.rawData[i].price] and [.volume]. *)
Definition priceAt (rawData : list Candle) (i : nat) : R :=
  at_ (map cprice rawData) i.
Definition volumeAt (rawData : list Candle) (i : nat) : R :=
  at_ (map cvolume rawData) i.

(** One round of the loop of [generateHistoricalData]; the loop counts [i]
    down from 99, so round [k] has [i = 99 - k].  [rand] numbers the calls
    of [Math.random], four per round. *)
Definition historicalStep (rand : nat -> R) (now : Z) (basePrice : R)
  (k : nat) (data : list Candle) : list Candle :=
  let i := (99 - k)%nat in
  let hoursAgo := i in
  let timestamp := (now - Z.of_nat hoursAgo * 3600000)%Z in
  let trendFactor := sin (INR i * (5 / 100)) * (1 / 100) in
  let volatility := (rand (4 * k)%nat - 1 / 2) * (15 / 1000) in
  let momentum := sin (INR i * (3 / 10)) * (8 / 1000) in
  let priceMultiplier := 1 + trendFactor + volatility + momentum in
  let price := Rmax (1 / 10) (basePrice * priceMultiplier) in
  let volume := 500000 + rand (4 * k + 1)%nat * 1500000 in
  let high := price * (1 + rand (4 * k + 2)%nat * (2 / 100)) in
  let low := price * (1 - rand (4 * k + 3)%nat * (2 / 100)) in
  let open :=
    if (i <? 99)%nat
    then match data !! (length data - 1)%nat with
         | Some prev => orElse (cprice prev) price
         | None => price
         end
    else price in
  data ++ [{| timestamp := timestamp; cprice := price; cvolume := volume;
              high := high; low := low; open := open; close := price |}].

Definition generateHistoricalData (rand : nat -> R) (now : Z) (this : DataProcessor)
  : DataProcessor * list Candle :=
  let data := forLoop 0 100 (historicalStep rand now (currentPrice this)) [] in
  ({| rawData := data; processedData := processedData this;
      currentPrice := currentPrice this |}, data).

Definition calculateSMA (rawData : list Candle) (index period : nat) : R :=
  let start := Nat.max 0 (index + 1 - period) in
  let prices := map cprice (slice rawData (Z.of_nat start) (Z.of_nat (index + 1))) in
  reduce (fun sum price => sum + price) 0 prices / INR (length prices).

Definition calculateRSI (rawData : list Candle) (index period : nat) : R :=
  if (index <? period)%nat then 50
  else
    let '(gains, losses) :=
      forLoop (index + 1 - period) (index + 1)
        (fun i '(gains, losses) =>
           let change := priceAt rawData i - priceAt rawData (i - 1) in
           if gtb change 0 then (gains + change, losses)
           else (gains, losses + Rabs change))
        (0, 0) in
    let avgGain := gains / INR period in
    let avgLoss := losses / INR period in
    let rs := avgGain / orElse avgLoss (1 / 1000) in
    100 - 100 / (1 + rs).

(** [calculateEMA(index, period, type)]: both values of [type] read the
    price, as in the source. *)
Definition calculateEMA (rawData : list Candle) (index period : nat)
  (type : string) : R :=
  if (index <? period)%nat then priceAt rawData index
  else
    let multiplier := 2 / (INR period + 1) in
    forLoop (index + 1 - period) (index + 1)
      (fun i ema =>
         let value :=
           if String.eqb type "price" then priceAt rawData i else priceAt rawData i in
         value * multiplier + ema * (1 - multiplier))
      (priceAt rawData (index - period)).

Record Macd : Type := mkMacd { macd : R; signal : R; histogram : R }.

Definition calculateMACD (rawData : list Candle) (index fast slow signal : nat)
  : Macd :=
  let emaFast := calculateEMA rawData index fast "price" in
  let emaSlow := calculateEMA rawData index slow "price" in
  let macd := emaFast - emaSlow in
  let signalLine := calculateEMA rawData index signal "macd" in
  {| macd := macd; signal := signalLine; histogram := macd - signalLine |}.

Record Bands : Type := mkBands { upper : R; middle : R; lower : R }.

Definition calculateBollingerBands (rawData : list Candle) (index period : nat)
  (stdDev : R) : Bands :=
  let sma := calculateSMA rawData index period in
  let start := Nat.max 0 (index + 1 - period) in
  let prices := map cprice (slice rawData (Z.of_nat start) (Z.of_nat (index + 1))) in
  let variance :=
    reduce (fun sum price => sum + (price - sma) ^ 2) 0 prices / INR (length prices) in
  let standardDeviation := sqrt variance in
  {| upper := sma + standardDeviation * stdDev;
     middle := sma;
     lower := sma - standardDeviation * stdDev |}.

Definition calculateVolatility (rawData : list Candle) (index period : nat) : R :=
  if (index <? period)%nat then 0
  else
    let returns :=
      forLoop (index + 1 - period) (index + 1)
        (fun i returns =>
           let prevPrice := priceAt rawData (i - 1) in
           let currentPrice := priceAt rawData i in
           returns ++ [ln (currentPrice / prevPrice)])
        [] in
    let mean := reduce (fun sum r => sum + r) 0 returns / INR (length returns) in
    let variance :=
      reduce (fun sum r => sum + (r - mean) ^ 2) 0 returns / INR (length returns) in
    sqrt (variance * 252).

Definition calculateAvgVolume (rawData : list Candle) (index period : nat) : R :=
  let start := Nat.max 0 (index + 1 - period) in
  let volumes := map cvolume (slice rawData (Z.of_nat start) (Z.of_nat (index + 1))) in
  reduce (fun sum vol => sum + vol) 0 volumes / INR (length volumes).

(** The sample pushed for index [i] by the loop of [processFeatures]. *)
Definition sampleAt (rawData : list Candle) (i : nat) : Sample :=
  let sma5 := calculateSMA rawData i 5 in
  let sma10 := calculateSMA rawData i 10 in
  let rsi := calculateRSI rawData i 14 in
  let macdLines := calculateMACD rawData i 12 26 9 in
  let bollinger := calculateBollingerBands rawData i 20 2 in
  let volatility := calculateVolatility rawData i 10 in
  let priceChange1h := (priceAt rawData i - priceAt rawData (i - 1)) / priceAt rawData (i - 1) in
  let priceChange5h := (priceAt rawData i - priceAt rawData (i - 5)) / priceAt rawData (i - 5) in
  let priceChange10h :=
    (priceAt rawData i - priceAt rawData (i - 10)) / priceAt rawData (i - 10) in
  let volumeRatio := volumeAt rawData i / volumeAt rawData (i - 1) in
  let avgVolume5 := calculateAvgVolume rawData i 5 in
  let volumeMA := volumeAt rawData i / avgVolume5 in
  let pricePosition :=
    (priceAt rawData i - lower bollinger) / (upper bollinger - lower bollinger) in
  let trendStrength := Rabs (sma5 - sma10) / sma10 in
  let hourOfDay := getHours (nth i (map timestamp rawData) 0%Z) in
  let dayOfWeek := getDay (nth i (map timestamp rawData) 0%Z) in
  {| sampleFeatures :=
       [ priceAt rawData i; priceChange1h; priceChange5h; priceChange10h;
         sma5; sma10; rsi; macd macdLines; signal macdLines;
         upper bollinger; lower bollinger; pricePosition; volatility;
         volumeRatio; volumeMA; trendStrength;
         sin (INR hourOfDay * PI / 12); cos (INR hourOfDay * PI / 12);
         sin (INR dayOfWeek * PI / (35 / 10)); cos (INR dayOfWeek * PI / (35 / 10)) ];
     sampleTarget := priceAt rawData (Nat.min (i + 1) (length rawData - 1)) |}.

(** [processFeatures]: a series of fewer than 10 candles is first replaced by
    a generated one. *)
Definition processFeatures (rand : nat -> R) (now : Z) (this : DataProcessor)
  : DataProcessor * list Sample :=
  let this :=
    if (length (rawData this) <? 10)%nat
    then fst (generateHistoricalData rand now this) else this in
  let features :=
    forLoop 10 (length (rawData this))
      (fun i features => features ++ [sampleAt (rawData this) i]) [] in
  ({| rawData := rawData this; processedData := features;
      currentPrice := currentPrice this |}, features).

(** [splitData(trainRatio = 0.8)]: an empty processed set is computed first. *)
Definition splitData (rand : nat -> R) (now : Z) (this : DataProcessor)
  (trainRatio : Q) : DataProcessor * Split Sample :=
  let this :=
    if (length (processedData this) =? 0)%nat
    then fst (processFeatures rand now this) else this in
  (this, splitData (processedData this) trainRatio).

End Defs.
End Advanced.

(** What [generateHistoricalData] of main.js establishes for the candle of
    round [k] in the series [data]. *)
Definition candleOk (now : Z) (basePrice : R) (data : list Candle) (k : nat)
  (c : Candle) : Prop :=
  timestamp c = (now - Z.of_nat (99 - k) * 3600000)%Z
  /\ (1 / 10 <= cprice c)%R
  /\ (basePrice * (9745 / 10000) <= cprice c
      <= Rmax (1 / 10) (basePrice * (10255 / 10000)))%R
  /\ (500000 <= cvolume c < 2000000)%R
  /\ (low c <= cprice c <= high c)%R
  /\ close c = cprice c
  /\ (k = 0%nat -> open c = cprice c)
  /\ (forall p, (1 <= k)%nat -> data !! (k - 1)%nat = Some p -> open c = cprice p).

(** [getLatestFeatures] of the indicator processor ([src/js/main.js],
    635-640): an empty processed set is computed first; [null] is [None]. *)
Definition Advanced_getLatestFeatures (getHours getDay : Z -> nat)
  (rand : nat -> R) (now : Z) (this : Advanced.DataProcessor)
  : Advanced.DataProcessor * option (list R) :=
  let this :=
    if (length (Advanced.processedData this) =? 0)%nat
    then fst (Advanced.processFeatures getHours getDay rand now this) else this in
  (this,
   match Advanced.processedData this
         !! (length (Advanced.processedData this) - 1)%nat with
   | Some s => Some (sampleFeatures s)
   | None => None
   end).

(** ** The first processor of [src/js/dataProcessor.js] (1-183) *)

Module Basic.
Section Defs.
Local Open Scope R_scope.

Record DataProcessor : Type := mkDataProcessor {
  rawData : list Candle;
  processedData : list Sample;
  currentPrice : R
}.

Definition new : DataProcessor :=
  {| rawData := []; processedData := []; currentPrice := 62 / 100 |}.

Definition priceAt (rawData : list Candle) (i : nat) : R :=
  at_ (map cprice rawData) i.
Definition volumeAt (rawData : list Candle) (i : nat) : R :=
  at_ (map cvolume rawData) i.

(** [fetchRealData]: a failed request (or a payload that cannot be read) and
    a response that is not [ok] leave the price as it is. *)
Definition fetchRealData (response : PriceResponse) (this : DataProcessor)
  : DataProcessor * bool :=
  match response with
  | Responded true usd _ =>
      ({| rawData := rawData this; processedData := processedData this;
          currentPrice := match truthy usd with Some p => p | None => 62 / 100 end |},
       true)
  | _ => (this, false)
  end.

(** One round of the loop of [generateHistoricalData]; round [k] has
    [i = 99 - k] and makes the calls [3k], [3k+1], [3k+2] of [Math.random]. *)
Definition historicalStep (rand : nat -> R) (now : Z) (basePrice : R)
  (k : nat) (data : list Candle) : list Candle :=
  let i := (99 - k)%nat in
  let timestamp := (now - Z.of_nat i * 3600000)%Z in
  let variance := (rand (3 * k)%nat - 1 / 2) * (2 / 100) in
  let price := Rmax (1 / 2) (Rmin (7 / 10) (basePrice + variance)) in
  data ++ [{| timestamp := timestamp; cprice := price;
              cvolume := rand (3 * k + 1)%nat * 1000000 + 500000;
              high := price * (1005 / 1000);
              low := price * (995 / 1000);
              open := price * (99 / 100 + rand (3 * k + 2)%nat * (2 / 100));
              close := price |}].

Definition generateHistoricalData (rand : nat -> R) (now : Z) (this : DataProcessor)
  : DataProcessor * list Candle :=
  let data := forLoop 0 100 (historicalStep rand now (currentPrice this)) [] in
  ({| rawData := data; processedData := processedData this;
      currentPrice := currentPrice this |}, data).

Definition calculateVolatility (priceData : list Candle) : R :=
  if (length priceData <? 2)%nat then 0
  else
    let returns :=
      forLoop 1 (length priceData)
        (fun i returns =>
           returns ++ [ln (priceAt priceData i / priceAt priceData (i - 1))])
        [] in
    let mean := reduce (fun sum r => sum + r) 0 returns / INR (length returns) in
    let variance :=
      reduce (fun sum r => sum + (r - mean) ^ 2) 0 returns / INR (length returns) in
    sqrt variance.

(** The sample pushed for index [i] by the loop of [processFeatures]. *)
Definition sampleAt (rawData : list Candle) (i : nat) : Sample :=
  let priceChange := (priceAt rawData i - priceAt rawData (i - 1)) / priceAt rawData (i - 1) in
  let volumeRatio := volumeAt rawData i / volumeAt rawData (i - 1) in
  let window := slice rawData (Z.of_nat (i - 5)) (Z.of_nat i) in
  let sma5 := reduce (fun sum d => sum + cprice d) 0 window / 5 in
  let volatility := calculateVolatility window in
  {| sampleFeatures :=
       [ priceAt rawData i; priceChange; volumeRatio; sma5; volatility;
         volumeAt rawData i / 1000000;
         (at_ (map high rawData) i - at_ (map low rawData) i) / priceAt rawData i;
         sin (INR i * (1 / 10)); cos (INR i * (1 / 10)) ];
     sampleTarget := priceAt rawData (Nat.min (i + 1) (length rawData - 1)) |}.

(** [processFeatures]: only an empty series is generated first. *)
Definition processFeatures (rand : nat -> R) (now : Z) (this : DataProcessor)
  : DataProcessor * list Sample :=
  let this :=
    if (length (rawData this) =? 0)%nat
    then fst (generateHistoricalData rand now this) else this in
  let features :=
    forLoop 5 (length (rawData this))
      (fun i features => features ++ [sampleAt (rawData this) i]) [] in
  ({| rawData := rawData this; processedData := features;
      currentPrice := currentPrice this |}, features).

(** [splitData()]: the ratio is the literal 0.8. *)
Definition splitData (rand : nat -> R) (now : Z) (this : DataProcessor)
  : DataProcessor * Split Sample :=
  let this :=
    if (length (processedData this) =? 0)%nat
    then fst (processFeatures rand now this) else this in
  (this, splitData (processedData this) (8 # 10)).

Definition getLatestFeatures (rand : nat -> R) (now : Z) (this : DataProcessor)
  : DataProcessor * option (list R) :=
  let this :=
    if (length (processedData this) =? 0)%nat
    then fst (processFeatures rand now this) else this in
  (this,
   match processedData this !! (length (processedData this) - 1)%nat with
   | Some s => Some (sampleFeatures s)
   | None => None
   end).

Definition reset (this : DataProcessor) : DataProcessor := new.

(** [fetchData]: the price request, the generated series, its samples.  The
    series is the value returned.  [processFeatures] would draw its random
    numbers after the 300 of the series, at the later time [now']. *)
Definition fetchData (rand : nat -> R) (now now' : Z) (response : PriceResponse)
  (this : DataProcessor) : DataProcessor * list Candle :=
  let this := fst (fetchRealData response this) in
  let '(this, historicalData) := generateHistoricalData rand now this in
  let this := fst (processFeatures (fun k => rand (300 + k)%nat) now' this) in
  (this, historicalData).

End Defs.
End Basic.

(** * Properties *)

(** ** Slices *)

Lemma relIndex_le (len : nat) (k : Z) : relIndex len k <= len.
Proof. unfold relIndex. destruct (k <? 0)%Z eqn:E; [apply Z.ltb_lt in E|]; lia. Qed.

Lemma relIndex_nonneg (len : nat) (k : Z) :
  (0 <= k)%Z -> relIndex len k = Nat.min (Z.to_nat k) len.
Proof. intros H. unfold relIndex. destruct (k <? 0)%Z eqn:E; [apply Z.ltb_lt in E; lia|done]. Qed.

Lemma relIndex_length (len : nat) : relIndex len (Z.of_nat len) = len.
Proof. rewrite relIndex_nonneg by lia. lia. Qed.

Lemma slice_prefix {A} (l : list A) (k : Z) :
  slice l 0 k = firstn (relIndex (length l) k) l.
Proof.
  unfold slice. change (relIndex (length l) 0) with (Nat.min 0 (length l)).
  rewrite Nat.min_0_l, Nat.sub_0_r. reflexivity.
Qed.

Lemma sliceFrom_suffix {A} (l : list A) (k : Z) :
  sliceFrom l k = skipn (relIndex (length l) k) l.
Proof.
  unfold sliceFrom, slice. rewrite relIndex_length.
  apply firstn_all2. rewrite length_skipn. lia.
Qed.

Lemma slice_nat {A} (l : list A) (a b : nat) :
  slice l (Z.of_nat a) (Z.of_nat b) = firstn (b - a) (skipn a l).
Proof.
  unfold slice. rewrite !relIndex_nonneg, !Nat2Z.id by lia.
  destruct (Nat.le_gt_cases a (length l)) as [Ha|Ha].
  - rewrite (Nat.min_l a) by lia.
    destruct (Nat.le_gt_cases b (length l)) as [Hb|Hb].
    + rewrite Nat.min_l by lia. reflexivity.
    + rewrite Nat.min_r by lia.
      rewrite !firstn_all2; try reflexivity; rewrite length_skipn; lia.
  - rewrite !(skipn_all2 l) by lia. rewrite !firstn_nil. reflexivity.
Qed.

(** ** Split *)

Lemma splitData_reconstructs {A} (v : list A) (r : Q) :
  train (splitData v r) ++ test (splitData v r) = v.
Proof.
  unfold splitData; simpl. rewrite slice_prefix, sliceFrom_suffix.
  apply firstn_skipn.
Qed.

Lemma roundHalfEven_ge_floor (y : Q) : (Qfloor y <= roundHalfEven y)%Z.
Proof.
  unfold roundHalfEven. cbv zeta.
  destruct (_ ?= _)%Q; [destruct (Z.even _)|..]; lia.
Qed.

Lemma roundHalfEven_le_Z (y : Q) (N : Z) :
  (y <= inject_Z N)%Q -> (roundHalfEven y <= N)%Z.
Proof.
  intros Hy.
  assert (Hf : (Qfloor y <= N)%Z).
  { rewrite <- (Qfloor_Z N). apply Qfloor_resp_le, Hy. }
  assert (Hstep : (0 < y - inject_Z (Qfloor y))%Q -> (Qfloor y + 1 <= N)%Z).
  { intros Hpos.
    destruct (Z.eq_dec (Qfloor y) N) as [E|E]; [|lia].
    rewrite E in Hpos. exfalso. Lqa.lra. }
  unfold roundHalfEven. cbv zeta.
  destruct (_ ?= _)%Q eqn:C.
  - destruct (Z.even _); [exact Hf|].
    apply Hstep. apply Qeq_alt in C. Lqa.lra.
  - exact Hf.
  - apply Hstep. apply Qgt_alt in C. Lqa.lra.
Qed.

Lemma inject_pow2_pos (e : Z) : (0 <= e)%Z -> (0 < inject_Z (2 ^ e))%Q.
Proof.
  intros He. change 0%Q with (inject_Z 0). rewrite <- Zlt_Qlt.
  apply Z.pow_pos_nonneg; lia.
Qed.

Lemma roundMagnitude_nonneg (x : Q) : (0 <= x)%Q -> (0 <= roundMagnitude x)%Q.
Proof.
  intros Hx. unfold roundMagnitude. cbv zeta.
  set (X := (x * inject_Z (2 ^ 1074))%Q).
  set (E := Z.max 0 (Z.log2 (Qfloor X) - 52)).
  assert (HE : (0 <= E)%Z) by (subst E; lia).
  assert (HX : (0 <= X)%Q).
  { subst X. apply Qmult_le_0_compat; [exact Hx|]. apply Qlt_le_weak, inject_pow2_pos. lia. }
  assert (HY : (0 <= X / inject_Z (2 ^ E))%Q).
  { apply Qle_shift_div_l; [apply inject_pow2_pos, HE|]. rewrite Qmult_0_l. exact HX. }
  assert (HM : (0 <= roundHalfEven (X / inject_Z (2 ^ E)))%Z).
  { etransitivity; [|apply roundHalfEven_ge_floor].
    change 0%Z with (Qfloor 0). apply Qfloor_resp_le, HY. }
  apply Qle_shift_div_l; [apply inject_pow2_pos; lia|]. rewrite Qmult_0_l.
  change 0%Q with (inject_Z 0). rewrite <- Zle_Qle.
  apply Z.mul_nonneg_nonneg; [exact HM|]. apply Z.pow_nonneg. lia.
Qed.

Lemma toDouble_nonneg (x : Q) : (0 <= x)%Q -> (0 <= toDouble x)%Q.
Proof.
  intros Hx. unfold toDouble.
  rewrite (proj2 (Qle_bool_iff 0 x) Hx). apply roundMagnitude_nonneg, Hx.
Qed.

Lemma roundMagnitude_le_Z (x : Q) (n : Z) :
  (0 <= x)%Q -> (x <= inject_Z n)%Q -> (n < 2 ^ 53)%Z ->
  (roundMagnitude x <= inject_Z n)%Q.
Proof.
  intros Hx Hn Hb. unfold roundMagnitude. cbv zeta.
  set (X := (x * inject_Z (2 ^ 1074))%Q).
  set (F := Qfloor X).
  set (E := Z.max 0 (Z.log2 F - 52)).
  assert (HE : (0 <= E)%Z) by (subst E; lia).
  assert (HX0 : (0 <= X)%Q).
  { subst X. apply Qmult_le_0_compat; [exact Hx|]. apply Qlt_le_weak, inject_pow2_pos. lia. }
  assert (HXn : (X <= inject_Z (n * 2 ^ 1074))%Q).
  { subst X. rewrite inject_Z_mult.
    apply Qmult_le_compat_r; [exact Hn|]. apply Qlt_le_weak, inject_pow2_pos. lia. }
  assert (HF0 : (0 <= F)%Z).
  { subst F. change 0%Z with (Qfloor 0). apply Qfloor_resp_le, HX0. }
  assert (HFn : (F < 2 ^ 1127)%Z).
  { assert (H1 : (F <= n * 2 ^ 1074)%Z).
    { subst F. rewrite <- (Qfloor_Z (n * 2 ^ 1074)). apply Qfloor_resp_le, HXn. }
    assert (H2 : (n * 2 ^ 1074 < 2 ^ 53 * 2 ^ 1074)%Z).
    { apply Z.mul_lt_mono_pos_r; [apply Z.pow_pos_nonneg; lia | exact Hb]. }
    rewrite <- Z.pow_add_r in H2 by lia. change (53 + 1074)%Z with 1127%Z in H2. lia. }
  assert (HE' : (E <= 1074)%Z).
  { subst E. apply Z.max_lub; [lia|].
    destruct (Z.eq_dec F 0%Z) as [E0|Hne]; [rewrite E0; cbn; lia|].
    assert (Z.log2 F < 1127)%Z by (apply Z.log2_lt_pow2; lia). lia. }
  set (N := (n * 2 ^ (1074 - E))%Z).
  assert (Hsplit : (2 ^ 1074 = 2 ^ (1074 - E) * 2 ^ E)%Z).
  { rewrite <- Z.pow_add_r by lia. f_equal. lia. }
  assert (HY : (X / inject_Z (2 ^ E) <= inject_Z N)%Q).
  { apply Qle_shift_div_r; [apply inject_pow2_pos, HE|].
    rewrite <- inject_Z_mult. subst N.
    rewrite <- Z.mul_assoc, <- Hsplit. exact HXn. }
  apply roundHalfEven_le_Z in HY.
  apply Qle_shift_div_r; [apply inject_pow2_pos; lia|].
  rewrite <- inject_Z_mult, <- Zle_Qle.
  transitivity (N * 2 ^ E)%Z.
  - apply Z.mul_le_mono_nonneg_r; [apply Z.pow_nonneg; lia | exact HY].
  - subst N. rewrite <- Z.mul_assoc, <- Hsplit. lia.
Qed.

Lemma toDouble_le_Z (x : Q) (n : Z) :
  (0 <= x)%Q -> (x <= inject_Z n)%Q -> (n < 2 ^ 53)%Z ->
  (toDouble x <= inject_Z n)%Q.
Proof.
  intros Hx Hn Hb. unfold toDouble.
  rewrite (proj2 (Qle_bool_iff 0 x) Hx). apply roundMagnitude_le_Z; assumption.
Qed.

Lemma inject_nat_nonneg (len : nat) : (0 <= inject_Z (Z.of_nat len))%Q.
Proof. change 0%Q with (inject_Z 0). rewrite <- Zle_Qle. lia. Qed.

Lemma splitIndex_nonneg (len : nat) (r : Q) : (0 <= r)%Q -> (0 <= splitIndex len r)%Z.
Proof.
  intros Hr. unfold splitIndex, fmul.
  change 0%Z with (Qfloor 0). apply Qfloor_resp_le. apply toDouble_nonneg.
  apply Qmult_le_0_compat; [apply inject_nat_nonneg | apply toDouble_nonneg, Hr].
Qed.

(** Any array length is below [2^53]. *)
Lemma splitIndex_le_length (len : nat) (r : Q) :
  (0 <= r)%Q -> (r <= 1)%Q -> (Z.of_nat len < 2 ^ 53)%Z ->
  (splitIndex len r <= Z.of_nat len)%Z.
Proof.
  intros H0 H1 Hb. unfold splitIndex, fmul.
  rewrite <- (Qfloor_Z (Z.of_nat len)) at 2. apply Qfloor_resp_le.
  assert (Hd0 : (0 <= toDouble r)%Q) by (apply toDouble_nonneg, H0).
  assert (Hd1 : (toDouble r <= 1)%Q).
  { apply (toDouble_le_Z r 1); [exact H0 | exact H1 | reflexivity]. }
  pose proof (inject_nat_nonneg len) as Hn.
  apply toDouble_le_Z; [apply Qmult_le_0_compat; assumption | | exact Hb].
  rewrite <- (Qmult_1_r (inject_Z (Z.of_nat len))) at 2.
  rewrite !(Qmult_comm (inject_Z (Z.of_nat len))).
  apply Qmult_le_compat_r; assumption.
Qed.

(** For a non-negative ratio the partitions are the prefix and the suffix at
    the split index. *)
Lemma splitData_prefix_suffix {A} (v : list A) (r : Q) :
  (0 <= r)%Q ->
  train (splitData v r) = firstn (Z.to_nat (splitIndex (length v) r)) v
  /\ test (splitData v r) = skipn (Z.to_nat (splitIndex (length v) r)) v.
Proof.
  intros Hr. pose proof (splitIndex_nonneg (length v) r Hr) as Hk.
  set (k := Z.to_nat (splitIndex (length v) r)).
  split.
  - unfold splitData; simpl. rewrite slice_prefix, relIndex_nonneg by exact Hk.
    fold k. destruct (Nat.le_gt_cases k (length v)).
    + rewrite Nat.min_l by lia. reflexivity.
    + rewrite Nat.min_r by lia. rewrite !firstn_all2 by lia. reflexivity.
  - unfold splitData; simpl. rewrite sliceFrom_suffix, relIndex_nonneg by exact Hk.
    fold k. destruct (Nat.le_gt_cases k (length v)).
    + rewrite Nat.min_l by lia. reflexivity.
    + rewrite Nat.min_r by lia. rewrite !skipn_all2 by lia. reflexivity.
Qed.

(** The split index at the ratio 0.8 for the sizes met below. *)
Lemma splitIndex_configured :
  splitIndex 9 (8 # 10) = 7%Z /\ splitIndex 12 (8 # 10) = 9%Z
  /\ splitIndex 90 (8 # 10) = 72%Z /\ splitIndex 95 (8 # 10) = 76%Z.
Proof. vm_compute. repeat split; reflexivity. Qed.

(** Outside [0, 1] the cut is not at the split index: [slice] counts a
    negative index from the end and caps an index beyond the length.  The
    two partitions still reassemble the input. *)
Example splitData_negative_ratio :
  splitIndex 4 (-0.5) = (-2)%Z
  /\ splitData [1; 2; 3; 4] (-0.5) = {| train := [1; 2]; test := [3; 4] |}
  /\ splitIndex 4 1.5 = 6%Z
  /\ splitData [1; 2; 3; 4] 1.5 = {| train := [1; 2; 3; 4]; test := [] |}.
Proof. vm_compute. repeat split; reflexivity. Qed.

Lemma splitThenCheck_cases {A} (r : Q) (v : list A) :
  let s := splitData v r in
  (length (train s) < 10 \/ length (test s) < 5) /\
    splitThenCheck r v = Throw (Error insufficientTrainingData)
  \/ (10 <= length (train s) /\ 5 <= length (test s)) /\
    splitThenCheck r v = Return s.
Proof.
  intros s. unfold splitThenCheck. fold s.
  destruct (length (train s) <? 10) eqn:E1; cbn [orb].
  - left. apply Nat.ltb_lt in E1. split; [left; lia | reflexivity].
  - apply Nat.ltb_ge in E1. destruct (length (test s) <? 5) eqn:E2.
    + left. apply Nat.ltb_lt in E2. split; [right; lia | reflexivity].
    + right. apply Nat.ltb_ge in E2. split; [lia | reflexivity].
Qed.

(** C6.  For every set of rows and every ratio, the split step of training
    (split, then the size check) fails, with the insufficient-data error,
    exactly when the train partition has fewer than 10 rows or the test
    partition fewer than 5; otherwise it returns the two partitions.  With
    the configured ratio 0.8 a set of 12 rows gives 9 and 3 rows and fails. *)
Theorem splitForTraining_fails_iff {A} (r : Q) (v : list A) :
  let s := splitData v r in
  (raises (splitThenCheck r v) <-> length (train s) < 10 \/ length (test s) < 5)
  /\ (raises (splitThenCheck r v) ->
      splitThenCheck r v = Throw (Error insufficientTrainingData))
  /\ (~ raises (splitThenCheck r v) -> splitThenCheck r v = Return s)
  /\ (length v = 12 ->
      let s12 := splitData v DATA_CONFIG.trainTestSplit in
      length (train s12) = 9 /\ length (test s12) = 3
      /\ splitForTraining v = Throw (Error insufficientTrainingData)).
Proof.
  intros s. pose proof (splitThenCheck_cases r v) as H. cbv zeta in H. fold s in H.
  assert (Hiff : raises (splitThenCheck r v)
                 <-> length (train s) < 10 \/ length (test s) < 5).
  { destruct H as [[Hs He] | [Hs He]]; rewrite He; split.
    - intros _. exact Hs.
    - intros _. eexists; reflexivity.
    - intros [e He']. discriminate.
    - destruct Hs. intros [?|?]; lia. }
  split; [exact Hiff|]. split; [|split].
  - intros Hr. destruct H as [[_ He] | [Hs _]]; [exact He|].
    apply Hiff in Hr. destruct Hs. lia.
  - intros Hn. destruct H as [[Hs _] | [_ He]]; [|exact He].
    exfalso. apply Hn, Hiff, Hs.
  - intros Hlen s12.
    assert (H0 : (0 <= DATA_CONFIG.trainTestSplit)%Q) by (unfold Qle; simpl; lia).
    destruct (splitData_prefix_suffix v _ H0) as (Htr & Hte). fold s12 in Htr, Hte.
    rewrite Hlen in Htr, Hte.
    change DATA_CONFIG.trainTestSplit with (8 # 10)%Q in Htr, Hte.
    rewrite (proj1 (proj2 splitIndex_configured)) in Htr, Hte.
    change (Z.to_nat 9) with 9 in Htr, Hte.
    assert (H9 : length (train s12) = 9) by (rewrite Htr, length_firstn; lia).
    assert (H3 : length (test s12) = 3) by (rewrite Hte, length_skipn; lia).
    split; [exact H9|]. split; [exact H3|].
    destruct (splitThenCheck_cases DATA_CONFIG.trainTestSplit v) as [[_ He] | [[_ Hs] _]].
    + exact He.
    + fold s12 in Hs. lia.
Qed.

Lemma splitForTraining_fails_iff_witness :
  splitForTraining (seq 0 12) = Throw (Error insufficientTrainingData).
Proof.
  destruct (splitForTraining_fails_iff DATA_CONFIG.trainTestSplit (seq 0 12))
    as (_ & _ & _ & H12).
  apply H12. reflexivity.
Defined.

(** ** Loops that push and loops that overwrite *)

Lemma forLoop_push {A} (lo hi : nat) (f : nat -> A) :
  forLoop lo hi (fun i acc => acc ++ [f i]) [] = map f (seq lo (hi - lo)).
Proof.
  unfold forLoop.
  enough (H : forall l acc,
             fold_left (fun st i => st ++ [f i]) l acc = acc ++ map f l)
    by (rewrite H; reflexivity).
  induction l as [|i l IH]; intros acc; simpl.
  - rewrite app_nil_r. reflexivity.
  - rewrite IH, <- app_assoc. reflexivity.
Qed.

Lemma forLoop_S {S} (lo n : nat) (body : nat -> S -> S) (init : S) :
  forLoop lo (lo + Datatypes.S n) body init
  = body (lo + n) (forLoop lo (lo + n) body init).
Proof.
  unfold forLoop.
  replace (lo + Datatypes.S n - lo) with (Datatypes.S n) by lia.
  replace (lo + n - lo) with n by lia.
  rewrite seq_S, fold_left_app. reflexivity.
Qed.

Lemma forLoop_empty {S} (lo hi : nat) (body : nat -> S -> S) (init : S) :
  hi <= lo -> forLoop lo hi body init = init.
Proof. intros H. unfold forLoop. replace (hi - lo) with 0 by lia. reflexivity. Qed.

(** A loop invariant rule for [forLoop]. *)
Lemma forLoop_invariant {S} (P : nat -> S -> Prop) (lo hi : nat)
  (body : nat -> S -> S) (init : S) :
  lo <= hi ->
  P lo init ->
  (forall i st, lo <= i < hi -> P i st -> P (Datatypes.S i) (body i st)) ->
  P hi (forLoop lo hi body init).
Proof.
  intros Hle Hinit Hstep.
  replace hi with (lo + (hi - lo)) by lia.
  assert (Hb : hi - lo <= hi - lo) by lia. revert Hb.
  generalize (hi - lo) at 1 3 4 as n.
  induction n as [|n IH]; intros Hn.
  - rewrite Nat.add_0_r, forLoop_empty by lia. exact Hinit.
  - rewrite forLoop_S. replace (lo + Datatypes.S n) with (Datatypes.S (lo + n)) by lia.
    apply Hstep; [lia|]. apply IH. lia.
Qed.

Section NormalizeFacts.
Local Open Scope R_scope.

(** What the overwriting loop of [normalizeRow] leaves in the array. *)
Lemma normalize_loop_spec (sc : Scaler) (fs : list R) (featureCount : nat) :
  let fs' :=
    forLoop 0 featureCount
      (fun i fs => <[i := (at_ fs i - at_ (means sc) i) / at_ (stds sc) i]> fs) fs in
  length fs' = length fs
  /\ forall j, (j < length fs)%nat ->
       at_ fs' j =
         if (j <? featureCount)%nat
         then (at_ fs j - at_ (means sc) j) / at_ (stds sc) j
         else at_ fs j.
Proof.
  apply (forLoop_invariant
    (fun n fs' =>
       length fs' = length fs
       /\ forall j, (j < length fs)%nat ->
            at_ fs' j = if (j <? n)%nat
                        then (at_ fs j - at_ (means sc) j) / at_ (stds sc) j
                        else at_ fs j)).
  - lia.
  - split; [reflexivity|]. intros j _. reflexivity.
  - intros i st _ [Hlen Hval]. split.
    + rewrite length_insert. exact Hlen.
    + intros j Hj. unfold at_ in *.
      destruct (Nat.eq_dec j i) as [->|Hne].
      * rewrite (proj2 (Nat.ltb_lt i (Datatypes.S i))) by lia.
        rewrite (nth_lookup_Some _ _ _ ((nth i st 0 - nth i (means sc) 0) / nth i (stds sc) 0)).
        2:{ apply list_lookup_insert_eq. lia. }
        specialize (Hval i Hj). rewrite Nat.ltb_irrefl in Hval.
        rewrite Hval. reflexivity.
      * assert (Hn : nth j (<[i := (nth i st 0 - nth i (means sc) 0) / nth i (stds sc) 0]> st) 0
                     = nth j st 0).
        { rewrite !nth_lookup, list_lookup_insert_ne by congruence. reflexivity. }
        rewrite Hn, (Hval j Hj).
        destruct (j <? i)%nat eqn:E1, (j <? Datatypes.S i)%nat eqn:E2; try reflexivity;
          [apply Nat.ltb_lt in E1; apply Nat.ltb_ge in E2
          |apply Nat.ltb_ge in E1; apply Nat.ltb_lt in E2]; lia.
Qed.

Lemma normalizeRow_width (featureCount : nat) (sc : Scaler) (item : FeatureRow) :
  length (features (normalizeRow featureCount sc item)) = length (features item).
Proof. apply normalize_loop_spec. Qed.

(** [normalizeFeatures] keeps the number of rows, their widths, targets,
    prices and dates. *)
Lemma normalizeFeatures_shape (rows rows' : list FeatureRow) (sc : Scaler) :
  normalizeFeatures rows = Some (rows', sc) ->
  length rows' = length rows
  /\ forall k row', rows' !! k = Some row' ->
       exists row, rows !! k = Some row
                   /\ length (features row') = length (features row)
                   /\ target row' = target row
                   /\ rowPrice row' = rowPrice row
                   /\ rowDate row' = rowDate row.
Proof.
  unfold normalizeFeatures. destruct rows as [|first rest]; [discriminate|].
  set (fc := length (features first)). set (sc0 := computeScaler _ fc).
  intros H.
  assert (Hrows : rows' = map (normalizeRow fc sc0) (first :: rest))
    by (injection H as <- _; reflexivity).
  clear H. subst rows'. split; [apply length_map|].
  intros k row' Hk. rewrite list_lookup_fmap in Hk.
  destruct ((first :: rest) !! k) as [row|] eqn:E; [|discriminate].
  injection Hk as <-. exists row. split; [reflexivity|].
  split; [apply normalizeRow_width|]. repeat split; reflexivity.
Qed.

End NormalizeFacts.

(** ** Feature rows: count, width and targets *)

Lemma at_map_lookup {A} (f : A -> R) (l : list A) (i : nat) (x : A) :
  l !! i = Some x -> at_ (map f l) i = f x.
Proof.
  intros H. unfold at_. apply nth_lookup_Some.
  change (map f l) with (f <$> l). rewrite list_lookup_fmap, H. reflexivity.
Qed.

Lemma nth_map_lookup {A B} (f : A -> B) (l : list A) (i : nat) (x : A) (d : B) :
  l !! i = Some x -> nth i (map f l) d = f x.
Proof.
  intros H. apply nth_lookup_Some.
  change (map f l) with (f <$> l). rewrite list_lookup_fmap, H. reflexivity.
Qed.

Lemma rowsFollow_map (start : nat) (rawData : list Observation)
  (mk : nat -> FeatureRow) :
  (forall i, length (features (mk i)) = 6) ->
  (forall i, target (mk i) = at_ (map price rawData) (i + 1)) ->
  (forall i, rowPrice (mk i) = at_ (map price rawData) i) ->
  (forall i, rowDate (mk i) = nth i (map date rawData) 0%Z) ->
  rowsFollow start rawData (map mk (seq start (length rawData - 1 - start))).
Proof.
  intros Hw Ht Hp Hd. unfold rowsFollow.
  split; [rewrite length_map, length_seq; lia|].
  intros k Hk.
  destruct (lookup_lt_is_Some_2 rawData (start + k) ltac:(lia)) as [o Ho].
  destruct (lookup_lt_is_Some_2 rawData (start + k + 1) ltac:(lia)) as [o' Ho'].
  exists (mk (start + k)), o, o'.
  split.
  { change (map mk ?l) with (mk <$> l).
    rewrite list_lookup_fmap, lookup_seq_lt by lia. reflexivity. }
  split; [apply Hw|]. split; [exact Ho|].
  split; [rewrite Hp; apply at_map_lookup, Ho|].
  split; [rewrite Hd; apply nth_map_lookup, Ho|].
  split; [exact Ho'|]. rewrite Ht. apply at_map_lookup, Ho'.
Qed.

Lemma rowsFollow_normalized (start : nat) (rawData : list Observation)
  (rows rows' : list FeatureRow) (sc : Scaler) :
  rowsFollow start rawData rows ->
  normalizeFeatures rows = Some (rows', sc) ->
  rowsFollow start rawData rows'.
Proof.
  intros [Hlen Hrows] Hn.
  destruct (normalizeFeatures_shape _ _ _ Hn) as [Hlen' Hshape].
  split; [lia|]. intros k Hk.
  destruct (Hrows k Hk) as (row & o & o' & Hrow & Hw & Ho & Hp & Hd & Ho' & Ht).
  destruct (lookup_lt_is_Some_2 rows' k ltac:(lia)) as [row' Hrow'].
  destruct (Hshape k row' Hrow') as (row0 & Hrow0 & Hw' & Ht' & Hp' & Hd').
  rewrite Hrow in Hrow0. injection Hrow0 as <-.
  exists row', o, o'. repeat split; try assumption; congruence.
Qed.

Lemma normalizeFeatures_nonempty (rows : list FeatureRow) :
  rows <> [] -> exists rows' sc, normalizeFeatures rows = Some (rows', sc).
Proof. destruct rows; [congruence|]. intros _. eexists _, _. reflexivity. Qed.

Lemma RealData_featureRows_map (rawData : list Observation) :
  RealData.featureRows rawData
  = map (RealData.featureRow rawData (map price rawData) (map volume rawData))
        (seq 14 (length rawData - 1 - 14)).
Proof. unfold RealData.featureRows. apply forLoop_push. Qed.

Lemma RealData_featureRows_follow (rawData : list Observation) :
  rowsFollow 14 rawData (RealData.featureRows rawData).
Proof. rewrite RealData_featureRows_map. apply rowsFollow_map; reflexivity. Qed.

Lemma Optimized_featureRows_map (rawData : list Observation) :
  Optimized.featureRows rawData
  = map (Optimized.featureRow rawData (map price rawData) (map volume rawData)
           (Optimized.calculateMovingAverageArray (map price rawData) 5)
           (Optimized.calculateMovingAverageArray (map price rawData) 10)
           (Optimized.calculateRSIArray (map price rawData) 14))
        (seq 10 (length rawData - 1 - 10)).
Proof. unfold Optimized.featureRows. apply forLoop_push. Qed.

Lemma Optimized_featureRows_follow (rawData : list Observation) :
  rowsFollow 10 rawData (Optimized.featureRows rawData).
Proof. rewrite Optimized_featureRows_map. apply rowsFollow_map; reflexivity. Qed.

Lemma rowsFollow_nonempty (start : nat) (rawData : list Observation)
  (rows : list FeatureRow) :
  start + 2 <= length rawData -> rowsFollow start rawData rows -> rows <> [].
Proof. intros H [Hlen _] ->. cbn [length] in Hlen. lia. Qed.

(** The run of the real-data [processFeatures] on a long enough series. *)
Lemma RealData_processFeatures_run (this : RealData.DataProcessor) :
  20 <= length (RealData.rawData this) ->
  exists rows' sc,
    normalizeFeatures (RealData.featureRows (RealData.rawData this)) = Some (rows', sc)
    /\ RealData.processFeatures this
       = Return ({| RealData.rawData := RealData.rawData this;
                    RealData.processedData := rows';
                    RealData.scaler := Some sc |}, rows').
Proof.
  intros Hlen.
  pose proof (RealData_featureRows_follow (RealData.rawData this)) as Hf.
  apply rowsFollow_nonempty in Hf; [|lia].
  destruct (normalizeFeatures_nonempty _ Hf) as (rows' & sc & Hn).
  exists rows', sc. split; [exact Hn|].
  unfold RealData.processFeatures.
  rewrite (proj2 (Nat.ltb_ge _ _) Hlen), Hn. reflexivity.
Qed.

(** The run of the optimised [processFeatures] when the key is not cached. *)
Lemma Optimized_processFeatures_run (this : Optimized.DataProcessor) :
  20 <= length (Optimized.rawData this) ->
  Optimized.cache this !! Optimized.generateCacheKey (Optimized.rawData this) = None ->
  exists rows' sc,
    normalizeFeatures (Optimized.featureRows (Optimized.rawData this)) = Some (rows', sc)
    /\ Optimized.processFeatures this
       = Return ({| Optimized.rawData := Optimized.rawData this;
                    Optimized.processedData := rows';
                    Optimized.scaler := Some sc;
                    Optimized.cache :=
                      <[Optimized.generateCacheKey (Optimized.rawData this) := rows']>
                        (Optimized.cache this) |}, rows').
Proof.
  intros Hlen Hmiss.
  pose proof (Optimized_featureRows_follow (Optimized.rawData this)) as Hf.
  apply rowsFollow_nonempty in Hf; [|lia].
  destruct (normalizeFeatures_nonempty _ Hf) as (rows' & sc & Hn).
  exists rows', sc. split; [exact Hn|].
  unfold Optimized.processFeatures.
  rewrite (proj2 (Nat.ltb_ge _ _) Hlen), Hmiss, Hn. reflexivity.
Qed.

(** C3, counterexample.  Sixteen observations satisfy [n >= 14 + 2], yet
    [processFeatures] throws instead of returning one row. *)
Lemma featureCount_counterexample :
  RealData.processFeatures series16 = Throw (Error insufficientFeatureData)
  /\ ~ featureCountAsStated series16.
Proof.
  assert (H : RealData.processFeatures series16
              = Throw (Error insufficientFeatureData)) by reflexivity.
  split; [exact H|].
  intros Hc. destruct Hc as (this' & rows & Hr & _).
  - simpl. lia.
  - rewrite H in Hr. discriminate.
Qed.

(** C3, amended.  For a series of length [n >= 20] the real-data
    [processFeatures] returns exactly [n - 14 - 1] rows and stores them as
    [processedData]; row [k] is built at index [14 + k] (its price and date
    are those of that observation), has 6 features, and its target is the
    price at index [14 + k + 1]. *)
Theorem RealData_processFeatures_rows (this : RealData.DataProcessor)
  (Hlen : 20 <= length (RealData.rawData this)) :
  exists this' rows,
    RealData.processFeatures this = Return (this', rows)
    /\ RealData.processedData this' = rows
    /\ RealData.rawData this' = RealData.rawData this
    /\ length rows = length (RealData.rawData this) - 14 - 1
    /\ forall k, k < length (RealData.rawData this) - 14 - 1 ->
         exists row o o',
           rows !! k = Some row
           /\ length (features row) = 6
           /\ RealData.rawData this !! (14 + k) = Some o
           /\ rowPrice row = price o /\ rowDate row = date o
           /\ RealData.rawData this !! (14 + k + 1) = Some o'
           /\ target row = price o'.
Proof.
  destruct (RealData_processFeatures_run this Hlen) as (rows' & sc & Hn & Hrun).
  eexists _, rows'. split; [exact Hrun|]. split; [reflexivity|].
  split; [reflexivity|].
  exact (rowsFollow_normalized _ _ _ _ _ (RealData_featureRows_follow _) Hn).
Qed.

Lemma RealData_processFeatures_rows_witness :
  exists this' rows,
    RealData.processFeatures series20 = Return (this', rows) /\ length rows = 5.
Proof.
  assert (Hlen : 20 <= length (RealData.rawData series20)) by (simpl; lia).
  destruct (RealData_processFeatures_rows series20 Hlen)
    as (this' & rows & Hrun & _ & _ & Hcount & _).
  exists this', rows. split; [exact Hrun | exact Hcount].
Defined.

(** The optimised processor starts its loop at index 10: on a cache miss a
    series of length [n >= 20] yields [n - 10 - 1] rows of 6 features. *)
Lemma Optimized_processFeatures_rows (this : Optimized.DataProcessor) :
  20 <= length (Optimized.rawData this) ->
  Optimized.cache this !! Optimized.generateCacheKey (Optimized.rawData this) = None ->
  exists this' rows,
    Optimized.processFeatures this = Return (this', rows)
    /\ Optimized.processedData this' = rows
    /\ rowsFollow 10 (Optimized.rawData this) rows.
Proof.
  intros Hlen Hmiss.
  destruct (Optimized_processFeatures_run this Hlen Hmiss) as (rows' & sc & Hn & Hrun).
  eexists _, rows'. split; [exact Hrun|]. split; [reflexivity|].
  exact (rowsFollow_normalized _ _ _ _ _ (Optimized_featureRows_follow _) Hn).
Qed.

(** ** The length guard of [processFeatures] *)

Lemma RealData_processFeatures_guard (this : RealData.DataProcessor) :
  (length (RealData.rawData this) < 20 ->
   RealData.processFeatures this = Throw (Error insufficientFeatureData))
  /\ (20 <= length (RealData.rawData this) ->
      ~ raises (RealData.processFeatures this)).
Proof.
  split.
  - intros H. unfold RealData.processFeatures.
    rewrite (proj2 (Nat.ltb_lt _ _) H). reflexivity.
  - intros H [e He].
    destruct (RealData_processFeatures_run this H) as (? & ? & _ & Hrun).
    rewrite Hrun in He. discriminate.
Qed.

Lemma Optimized_processFeatures_guard (this : Optimized.DataProcessor) :
  (length (Optimized.rawData this) < 20 ->
   Optimized.processFeatures this = Throw (Error insufficientFeatureData))
  /\ (20 <= length (Optimized.rawData this) ->
      ~ raises (Optimized.processFeatures this)).
Proof.
  split.
  - intros H. unfold Optimized.processFeatures.
    rewrite (proj2 (Nat.ltb_lt _ _) H). reflexivity.
  - intros H [e He]. unfold Optimized.processFeatures in He.
    rewrite (proj2 (Nat.ltb_ge _ _) H) in He.
    destruct (Optimized.cache this !! _); [discriminate|].
    destruct (normalizeFeatures _) as [[? ?]|]; discriminate.
Qed.

(** C9.  In both processors [processFeatures] throws the error
    ["Insufficient data for feature processing"] exactly when the series has
    fewer than 20 observations; with 20 or more it throws nothing at all.
    The threshold 20 is below the 100 observations of a generated series. *)
Theorem processFeatures_insufficient_iff
  (real : RealData.DataProcessor) (opt : Optimized.DataProcessor) :
  (RealData.processFeatures real = Throw (Error insufficientFeatureData)
   <-> length (RealData.rawData real) < 20)
  /\ (raises (RealData.processFeatures real)
      <-> length (RealData.rawData real) < 20)
  /\ (Optimized.processFeatures opt = Throw (Error insufficientFeatureData)
      <-> length (Optimized.rawData opt) < 20)
  /\ (raises (Optimized.processFeatures opt)
      <-> length (Optimized.rawData opt) < 20)
  /\ 20 < DATA_CONFIG.syntheticDataPoints.
Proof.
  destruct (RealData_processFeatures_guard real) as [Hr1 Hr2].
  destruct (Optimized_processFeatures_guard opt) as [Ho1 Ho2].
  assert (Hreal : raises (RealData.processFeatures real)
                  <-> length (RealData.rawData real) < 20).
  { split; [|intros H; eexists; apply Hr1, H].
    intros H. destruct (Nat.lt_ge_cases (length (RealData.rawData real)) 20) as [|Hge];
      [assumption|]. destruct (Hr2 Hge H). }
  assert (Hopt : raises (Optimized.processFeatures opt)
                 <-> length (Optimized.rawData opt) < 20).
  { split; [|intros H; eexists; apply Ho1, H].
    intros H. destruct (Nat.lt_ge_cases (length (Optimized.rawData opt)) 20) as [|Hge];
      [assumption|]. destruct (Ho2 Hge H). }
  split; [|split; [exact Hreal|split; [|split; [exact Hopt|]]]].
  - split; [|exact Hr1]. intros H. apply Hreal. eexists; exact H.
  - split; [|exact Ho1]. intros H. apply Hopt. eexists; exact H.
  - unfold DATA_CONFIG.syntheticDataPoints. lia.
Qed.

Lemma processFeatures_insufficient_iff_witness :
  RealData.processFeatures series16 = Throw (Error insufficientFeatureData)
  /\ ~ raises (RealData.processFeatures series20).
Proof.
  destruct (processFeatures_insufficient_iff series16 Optimized.new) as (H16 & _).
  destruct (processFeatures_insufficient_iff series20 Optimized.new) as (_ & H20 & _).
  split.
  - apply H16. simpl. lia.
  - intros Hr. apply H20 in Hr. simpl in Hr. lia.
Defined.

(** ** Latest features *)

Lemma getLatestFeatures_snoc (rows : list FeatureRow) (item : FeatureRow) :
  getLatestFeatures (rows ++ [item]) = Return (Some (features item)).
Proof.
  unfold getLatestFeatures.
  rewrite length_app. cbn [length].
  rewrite (proj2 (Nat.ltb_lt 0 (length rows + 1))) by lia.
  replace (length rows + 1 - 1) with (length rows) by lia.
  rewrite list_lookup_middle by reflexivity. reflexivity.
Qed.

(** C10.  [getLatestFeatures] never throws: on an empty processed set it
    returns [null], otherwise the features of the last row. *)
Theorem getLatestFeatures_last (processedData : list FeatureRow) :
  ~ raises (getLatestFeatures processedData)
  /\ (processedData = [] -> getLatestFeatures processedData = Return None)
  /\ (forall rows item,
        processedData = rows ++ [item] ->
        getLatestFeatures processedData = Return (Some (features item))).
Proof.
  assert (Hlast : forall rows item,
             processedData = rows ++ [item] ->
             getLatestFeatures processedData = Return (Some (features item))).
  { intros rows item ->. apply getLatestFeatures_snoc. }
  split; [|split; [intros ->; reflexivity | exact Hlast]].
  intros [e He].
  destruct processedData as [|x l] using rev_ind; [discriminate|].
  rewrite (Hlast l x eq_refl) in He. discriminate.
Qed.

Lemma getLatestFeatures_last_witness :
  getLatestFeatures [mkFeatureRow [1; 2]%R 3%R 4%R 0%Z; mkFeatureRow [5; 6]%R 7%R 8%R 1%Z]
  = Return (Some [5; 6]%R).
Proof.
  destruct (getLatestFeatures_last
              [mkFeatureRow [1; 2]%R 3%R 4%R 0%Z; mkFeatureRow [5; 6]%R 7%R 8%R 1%Z])
    as (_ & _ & H).
  exact (H [mkFeatureRow [1; 2]%R 3%R 4%R 0%Z] (mkFeatureRow [5; 6]%R 7%R 8%R 1%Z) eq_refl).
Defined.

(** ** Evaluation metrics *)

Section MetricsSpec.
Local Open Scope R_scope.

Lemma sumTo_ext (n : nat) (f g : nat -> R) :
  (forall i, (i < n)%nat -> f i = g i) -> sumTo n f = sumTo n g.
Proof.
  induction n as [|n IH]; intros H; simpl; [reflexivity|].
  rewrite IH by (intros; apply H; lia). rewrite H by lia. reflexivity.
Qed.

Lemma sumTo_shift (n : nat) (f : nat -> R) :
  sumTo (S n) f = f O + sumTo n (fun i => f (S i)).
Proof.
  induction n as [|n IH]; [simpl; lra|].
  change (sumTo (S (S n)) f) with (sumTo (S n) f + f (S n)).
  rewrite IH. simpl. lra.
Qed.

Lemma pairwise_sumTo (f : R -> R -> R) (ps acts : list R) :
  length ps = length acts ->
  specSum (pairwise f ps acts)
  = sumTo (length ps) (fun i => f (at_ ps i) (at_ acts i)).
Proof.
  revert acts. induction ps as [|p ps IH]; intros [|a acts] Hlen;
    try discriminate; [reflexivity|].
  cbn [length pairwise]. rewrite sumTo_shift. simpl. f_equal.
  apply IH. simpl in Hlen. lia.
Qed.

Lemma map_sumTo (f : R -> R) (l : list R) :
  specSum (map f l) = sumTo (length l) (fun i => f (at_ l i)).
Proof.
  induction l as [|a l IH]; [reflexivity|].
  cbn [length map]. rewrite sumTo_shift. simpl. f_equal. exact IH.
Qed.

Lemma pairwise_length (f : R -> R -> R) (ps acts : list R) :
  length ps = length acts -> length (pairwise f ps acts) = length ps.
Proof.
  revert acts. induction ps as [|p ps IH]; intros [|a acts] Hlen;
    try discriminate; [reflexivity|].
  simpl. f_equal. apply IH. simpl in Hlen. lia.
Qed.

Lemma reduce_plus_specSum (l : list R) (init : R) :
  reduce (fun sum val => sum + val) init l = init + specSum l.
Proof.
  unfold reduce. revert init. induction l as [|a l IH]; intros init; simpl.
  - lra.
  - rewrite IH. lra.
Qed.

(** The accumulators of the loop of [calculateMetrics] after [n] rounds. *)
Lemma metrics_loop (ps acts : list R) (meanActual : R) (n : nat) :
  forLoop 0 n
    (fun i '(mae, mse, totalSq) =>
       let error := Rabs (at_ ps i - at_ acts i) in
       let squaredError := (at_ ps i - at_ acts i) ^ 2 in
       (mae + error, mse + squaredError,
        totalSq + (at_ acts i - meanActual) ^ 2))
    (0, 0, 0)
  = (sumTo n (fun i => Rabs (at_ ps i - at_ acts i)),
     sumTo n (fun i => (at_ ps i - at_ acts i) ^ 2),
     sumTo n (fun i => (at_ acts i - meanActual) ^ 2)).
Proof.
  induction n as [|n IH]; [reflexivity|].
  change (Datatypes.S n) with (0 + Datatypes.S n)%nat at 1.
  rewrite forLoop_S. change (0 + n)%nat with n. rewrite IH. reflexivity.
Qed.

(** C4.  On equal-length, non-empty inputs [calculateMetrics] returns
    MAE = mean |p - a|, MSE = mean (p - a)², RMSE = √MSE,
    R² = 1 - (MSE·n) / Σ (a - mean a)² (0 when that sum is 0),
    accuracy = max(0, (1 - MAE / mean a)·100) and the sample size [n];
    the result is a function of the two sequences. *)
Theorem calculateMetrics_formulas (predictions actuals : list R)
  (Hlen : length predictions = length actuals) (Hne : predictions <> []) :
  let m := ModelBuilder.calculateMetrics predictions actuals in
  mae m = specMAE predictions actuals
  /\ mse m = specMSE predictions actuals
  /\ rmse m = specRMSE predictions actuals
  /\ r2 m = specR2 predictions actuals
  /\ accuracy m = specAccuracy predictions actuals
  /\ sampleSize m = length predictions.
Proof.
  unfold ModelBuilder.calculateMetrics. rewrite metrics_loop.
  rewrite reduce_plus_specSum, Rplus_0_l.
  assert (Hmean : specSum actuals / INR (length predictions) = specMean actuals)
    by (unfold specMean; rewrite Hlen; reflexivity).
  rewrite Hmean.
  assert (Hmae : sumTo (length predictions)
                   (fun i => Rabs (at_ predictions i - at_ actuals i))
                 / INR (length predictions) = specMAE predictions actuals).
  { unfold specMAE, specMean. rewrite pairwise_sumTo, pairwise_length by exact Hlen.
    reflexivity. }
  assert (Hmse : sumTo (length predictions)
                   (fun i => (at_ predictions i - at_ actuals i) ^ 2)
                 / INR (length predictions) = specMSE predictions actuals).
  { unfold specMSE, specMean. rewrite pairwise_sumTo, pairwise_length by exact Hlen.
    reflexivity. }
  assert (Htot : sumTo (length predictions)
                   (fun i => (at_ actuals i - specMean actuals) ^ 2)
                 = specTotalSq actuals).
  { unfold specTotalSq. rewrite map_sumTo, Hlen. reflexivity. }
  cbv zeta. cbn [mae mse rmse r2 accuracy sampleSize].
  rewrite Hmae, Hmse, Htot.
  repeat split; try reflexivity.
  unfold specR2, eqb. destruct (Req_dec_T (specTotalSq actuals) 0); reflexivity.
Qed.

(** The example of the specification: [evaluate([1,2,3],[1,2,4])]. *)
Lemma calculateMetrics_formulas_witness :
  let m := ModelBuilder.calculateMetrics [1; 2; 3] [1; 2; 4] in
  mae m = 1 / 3 /\ mse m = 1 / 3 /\ rmse m = sqrt (1 / 3) /\ sampleSize m = 3%nat.
Proof.
  assert (Hlen : length [1; 2; 3] = length [1; 2; 4]) by reflexivity.
  assert (Hne : [1; 2; 3] <> []) by discriminate.
  destruct (calculateMetrics_formulas [1; 2; 3] [1; 2; 4] Hlen Hne)
    as (Hmae & Hmse & Hrmse & _ & _ & Hn).
  assert (Emae : specMAE [1; 2; 3] [1; 2; 4] = 1 / 3).
  { unfold specMAE, specMean. simpl.
    rewrite (Rabs_pos_eq (1 - 1)), (Rabs_pos_eq (2 - 2)), (Rabs_left (3 - 4)) by lra.
    lra. }
  assert (Emse : specMSE [1; 2; 3] [1; 2; 4] = 1 / 3).
  { unfold specMSE, specMean. simpl. lra. }
  cbv zeta. unfold specRMSE in Hrmse. rewrite Hmae, Hmse, Hrmse, Emae, Emse.
  repeat split.
Defined.

End MetricsSpec.

(** ** RSI *)

Section RsiFacts.
Local Open Scope R_scope.

Lemma gtb_true (a b : R) : a > b -> gtb a b = true.
Proof. intros H. unfold gtb. destruct (Rgt_dec a b); [reflexivity | contradiction]. Qed.

Lemma gtb_false (a b : R) : a <= b -> gtb a b = false.
Proof. intros H. unfold gtb. destruct (Rgt_dec a b); [lra | reflexivity]. Qed.

Lemma ltb_false (a b : R) : b <= a -> ltb a b = false.
Proof. intros H. unfold ltb. destruct (Rlt_dec a b); [lra | reflexivity]. Qed.

Lemma eqb_true (a b : R) : a = b -> eqb a b = true.
Proof. intros H. unfold eqb. destruct (Req_dec_T a b); [reflexivity | contradiction]. Qed.

Lemma eqb_false (a b : R) : a <> b -> eqb a b = false.
Proof. intros H. unfold eqb. destruct (Req_dec_T a b); [contradiction | reflexivity]. Qed.

Lemma repeat_lookup_lt {A} (x : A) (n j : nat) :
  (j < n)%nat -> repeat x n !! j = Some x.
Proof.
  revert j. induction n as [|n IH]; intros [|j] H; try lia; [reflexivity|].
  simpl. apply IH. lia.
Qed.

Lemma Forall_repeat {A} (P : A -> Prop) (x : A) (n : nat) :
  P x -> Forall P (repeat x n).
Proof. intros H. induction n; simpl; constructor; assumption. Qed.

(** The final formula maps a non-negative relative strength into [0, 100). *)
Lemma rsi_formula_range (rs : R) :
  0 <= rs -> 0 <= 100 - 100 / (1 + rs) < 100.
Proof.
  intros H.
  assert (Hpos : 0 < 1 + rs) by lra.
  assert (Hinv : 0 < / (1 + rs) <= 1).
  { split; [apply Rinv_0_lt_compat, Hpos|].
    rewrite <- Rinv_1 at 2. apply Rinv_le_contravar; lra. }
  unfold Rdiv. nra.
Qed.

Lemma ratio_nonneg (a b : R) : 0 <= a -> 0 < b -> 0 <= a / b.
Proof.
  intros Ha Hb. unfold Rdiv. apply Rmult_le_pos; [exact Ha|].
  left. apply Rinv_0_lt_compat, Hb.
Qed.

(** *** The array version *)

Lemma rsiSeed_nonneg (prices : list R) (period : nat) :
  let '(g, l) := forLoop 1 (period + 1) (Optimized.rsiSeedStep prices) (0, 0) in
  0 <= g /\ 0 <= l.
Proof.
  apply (forLoop_invariant (fun _ '(g, l) => 0 <= g /\ 0 <= l)); [lia|lra|].
  intros i [g l] _ [Hg Hl]. unfold Optimized.rsiSeedStep.
  destruct (gtb _ 0) eqn:E.
  - unfold gtb in E. destruct (Rgt_dec _ 0) in E; [|discriminate]. lra.
  - pose proof (Rabs_pos (at_ prices i - at_ prices (i - 1))). lra.
Qed.

(** What one rolling step writes, and that the averages stay non-negative. *)
Lemma rsiRollStep_spec (prices : list R) (period i : nat) (g l : R)
  (result : list R) :
  (1 <= period)%nat -> 0 <= g -> 0 <= l ->
  let '(g', l', result') := Optimized.rsiRollStep prices period i (g, l, result) in
  0 <= g' /\ 0 <= l'
  /\ result' = <[i := if eqb l' 0 then 100 - 100 / (1 + 100)
                      else 100 - 100 / (1 + g' / l')]> result
  /\ 0 <= (if eqb l' 0 then 100 - 100 / (1 + 100)
           else 100 - 100 / (1 + g' / l')) < 100.
Proof.
  intros Hp Hg Hl. unfold Optimized.rsiRollStep.
  set (change := at_ prices i - at_ prices (i - 1)).
  set (gain := if gtb change 0 then change else 0).
  set (loss := if ltb change 0 then Rabs change else 0).
  assert (Hgain : 0 <= gain).
  { unfold gain, gtb. destruct (Rgt_dec change 0); lra. }
  assert (Hloss : 0 <= loss).
  { unfold loss. destruct (ltb change 0); [apply Rabs_pos | lra]. }
  assert (Hn1 : 0 <= INR (period - 1)) by apply pos_INR.
  assert (Hn : 0 < INR period) by (apply lt_0_INR; lia).
  set (g' := (g * INR (period - 1) + gain) / INR period).
  set (l' := (l * INR (period - 1) + loss) / INR period).
  assert (Hg' : 0 <= g') by (apply ratio_nonneg; [nra | exact Hn]).
  assert (Hl' : 0 <= l') by (apply ratio_nonneg; [nra | exact Hn]).
  split; [exact Hg'|]. split; [exact Hl'|].
  split.
  - unfold eqb. destruct (Req_dec_T l' 0); reflexivity.
  - unfold eqb. destruct (Req_dec_T l' 0) as [E|E].
    + apply rsi_formula_range. lra.
    + apply rsi_formula_range, ratio_nonneg; [exact Hg' | lra].
Qed.

(** The invariant of the rolling loop. *)
Lemma rsiRun_invariant (prices : list R) (period : nat) :
  (1 <= period)%nat -> (period <= length prices)%nat ->
  let '(g, l, result) := Optimized.rsiRun prices period in
  0 <= g /\ 0 <= l
  /\ length result = length prices
  /\ Forall inRsiRange result
  /\ forall j, (j < period)%nat -> (j < length prices)%nat -> result !! j = Some 50.
Proof.
  intros Hp Hlen. unfold Optimized.rsiRun.
  pose proof (rsiSeed_nonneg prices period) as Hseed.
  destruct (forLoop 1 (period + 1) _ _) as [g0 l0]. destruct Hseed as [Hg0 Hl0].
  assert (Hn : 0 < INR period) by (apply lt_0_INR; lia).
  apply (forLoop_invariant
    (fun n '(g, l, result) =>
       0 <= g /\ 0 <= l /\ length result = length prices
       /\ Forall inRsiRange result
       /\ forall j, (j < period)%nat -> (j < length prices)%nat ->
                    result !! j = Some 50)).
  - exact Hlen.
  - split; [apply ratio_nonneg; assumption|].
    split; [apply ratio_nonneg; assumption|].
    split; [apply repeat_length|].
    split.
    + apply Forall_repeat. unfold inRsiRange. lra.
    + intros j _ Hj. apply repeat_lookup_lt, Hj.
  - intros i [[g l] result] Hi (Hg & Hl & Hres & Hall & Hfill).
    pose proof (rsiRollStep_spec prices period i g l result Hp Hg Hl) as Hstep.
    destruct (Optimized.rsiRollStep prices period i (g, l, result)) as [[g' l'] result'].
    destruct Hstep as (Hg' & Hl' & -> & Hv).
    split; [exact Hg'|]. split; [exact Hl'|].
    split; [rewrite length_insert; exact Hres|].
    split.
    + apply Forall_insert; [exact Hall|]. unfold inRsiRange. lra.
    + intros j Hj1 Hj2. rewrite list_lookup_insert_ne by lia. apply Hfill; assumption.
Qed.

(** Every entry of the RSI array lies in [0, 100], and the entries before
    the lookback period are 50. *)
Lemma calculateRSIArray_range (prices : list R) (period : nat) :
  (1 <= period)%nat ->
  length (Optimized.calculateRSIArray prices period) = length prices
  /\ Forall inRsiRange (Optimized.calculateRSIArray prices period)
  /\ forall j, (j < period)%nat -> (j < length prices)%nat ->
       Optimized.calculateRSIArray prices period !! j = Some 50.
Proof.
  intros Hp. unfold Optimized.calculateRSIArray.
  destruct (length prices <? period + 1)%nat eqn:E.
  - split; [apply repeat_length|]. split.
    + apply Forall_repeat. unfold inRsiRange. lra.
    + intros j _ Hj. apply repeat_lookup_lt, Hj.
  - apply Nat.ltb_ge in E.
    pose proof (rsiRun_invariant prices period Hp ltac:(lia)) as H.
    destruct (Optimized.rsiRun prices period) as [[g l] result].
    destruct H as (_ & _ & H1 & H2 & H3). auto.
Qed.

End RsiFacts.

Section RsiBug.
Local Open Scope R_scope.

Lemma rsiSeed_no_loss (prices : list R) (period : nat) :
  neverFalls prices -> (period < length prices)%nat ->
  snd (forLoop 1 (period + 1) (Optimized.rsiSeedStep prices) (0, 0)) = 0.
Proof.
  intros Hup Hlen.
  apply (forLoop_invariant (fun _ st => snd st = 0)); [lia|reflexivity|].
  intros i [g l] Hi Hl. simpl in Hl. subst l. unfold Optimized.rsiSeedStep.
  specialize (Hup i ltac:(lia)).
  destruct (gtb _ 0) eqn:E; simpl; [reflexivity|].
  unfold gtb in E. destruct (Rgt_dec _ 0) in E; [discriminate|].
  rewrite Rabs_pos_eq by lra. lra.
Qed.

(** With no falling price the smoothed average loss is 0 at every index, and
    the rolling loop writes [100 - 100 / 101] there, not 100. *)
Lemma rsiRun_no_loss (prices : list R) (period : nat) :
  neverFalls prices -> (1 <= period < length prices)%nat ->
  let '(_, l, result) := Optimized.rsiRun prices period in
  l = 0
  /\ forall j, (period <= j < length prices)%nat ->
       result !! j = Some (100 - 100 / (1 + 100)).
Proof.
  intros Hup Hlen. unfold Optimized.rsiRun.
  pose proof (rsiSeed_no_loss prices period Hup ltac:(lia)) as Hseed.
  destruct (forLoop 1 (period + 1) _ _) as [g0 l0]. simpl in Hseed. subst l0.
  set (loop := forLoop period _ _ _).
  enough (Hinv : let '(_, l, result) := loop in
                 l = 0 /\ length result = length prices
                 /\ forall j, (period <= j < length prices)%nat ->
                      result !! j = Some (100 - 100 / (1 + 100))).
  { destruct loop as [[g l] result]. destruct Hinv as (? & _ & ?). split; assumption. }
  subst loop.
  apply (forLoop_invariant
    (fun n '(_, l, result) =>
       l = 0 /\ length result = length prices
       /\ forall j, (period <= j < n)%nat ->
            result !! j = Some (100 - 100 / (1 + 100)))).
  - lia.
  - split; [unfold Rdiv; lra|]. split; [apply repeat_length|]. intros j Hj. lia.
  - intros i [[g l] result] Hi (-> & Hres & Hdone).
    unfold Optimized.rsiRollStep.
    specialize (Hup i ltac:(lia)).
    rewrite ltb_false by lra.
    assert (Hl : (0 * INR (period - 1) + 0) / INR period = 0)
      by (unfold Rdiv; lra).
    rewrite Hl, eqb_true by reflexivity.
    split; [reflexivity|]. split; [rewrite length_insert; exact Hres|].
    intros j Hj. destruct (Nat.eq_dec j i) as [->|Hne].
    + apply list_lookup_insert_eq. lia.
    + rewrite list_lookup_insert_ne by lia. apply Hdone. lia.
Qed.

(** *** The per-index version of the real-data processor *)

Lemma specSum_nonneg (l : list R) : Forall (fun x => 0 <= x) l -> 0 <= specSum l.
Proof. induction 1; simpl; lra. Qed.

Lemma averageGain_nonneg (changes : list R) (period : nat) :
  (1 <= period)%nat -> 0 <= RealData.averageGain changes period.
Proof.
  intros Hp. unfold RealData.averageGain.
  destruct (0 <? length _)%nat; [|lra].
  apply ratio_nonneg; [|apply lt_0_INR; lia].
  rewrite reduce_plus_specSum, Rplus_0_l. apply specSum_nonneg.
  apply List.Forall_forall. intros x Hx. apply filter_In in Hx as [_ Hx].
  unfold gtb in Hx. destruct (Rgt_dec x 0); [lra | discriminate].
Qed.

Lemma averageLoss_nonneg (changes : list R) (period : nat) :
  (1 <= period)%nat -> 0 <= RealData.averageLoss changes period.
Proof.
  intros Hp. unfold RealData.averageLoss.
  destruct (0 <? length _)%nat; [|lra].
  apply ratio_nonneg; [|apply lt_0_INR; lia].
  rewrite reduce_plus_specSum, Rplus_0_l. apply specSum_nonneg.
  apply List.Forall_forall. intros x Hx. apply in_map_iff in Hx as (y & <- & _).
  apply Rabs_pos.
Qed.

(** [calculateRSI] is always in [0, 100]; it is 50 without enough history
    and exactly 100 when the average loss of the lookback is 0. *)
Lemma calculateRSI_range (prices : list R) (index period : nat) :
  (1 <= period)%nat ->
  inRsiRange (RealData.calculateRSI prices index period)
  /\ ((index < period)%nat -> RealData.calculateRSI prices index period = 50)
  /\ ((period <= index)%nat ->
      RealData.averageLoss (RealData.priceChanges prices index period) period = 0 ->
      RealData.calculateRSI prices index period = 100).
Proof.
  intros Hp. unfold RealData.calculateRSI, inRsiRange.
  destruct (index <? period)%nat eqn:E.
  - split; [lra|]. split; [reflexivity|]. apply Nat.ltb_lt in E. lia.
  - apply Nat.ltb_ge in E.
    pose proof (averageGain_nonneg (RealData.priceChanges prices index period) period Hp).
    pose proof (averageLoss_nonneg (RealData.priceChanges prices index period) period Hp).
    unfold eqb.
    destruct (Req_dec_T (RealData.averageLoss _ period) 0) as [E0|E0].
    + split; [lra|]. split; [lia | reflexivity].
    + split; [|split; [lia | intros _ ?; contradiction]].
      assert (Hpos : 0 < RealData.averageLoss
                           (RealData.priceChanges prices index period) period).
      { destruct H0 as [Hlt|Heq]; [exact Hlt | symmetry in Heq; contradiction]. }
      pose proof (rsi_formula_range _ (ratio_nonneg _ _ H Hpos)). lra.
Qed.

Lemma rising15_neverFalls : neverFalls rising15.
Proof.
  intros i Hi. unfold rising15 in *. cbn [length] in Hi.
  do 15 (destruct i as [|i]; [unfold at_; cbn [nth Nat.sub]; lra|]). lia.
Qed.

(** C8, the defect.  On fifteen rising prices the smoothed average loss is 0
    at index 14, and [calculateRSIArray] stores [100 - 100/101 = 10000/101]
    there, not 100; the per-index [calculateRSI] of the real-data processor
    returns exactly 100 on the same input. *)
Theorem calculateRSIArray_rising :
  snd (fst (Optimized.rsiRun rising15 14)) = 0
  /\ Optimized.calculateRSIArray rising15 14 !! 14%nat = Some (10000 / 101)
  /\ 10000 / 101 <> 100
  /\ RealData.calculateRSI rising15 14 14 = 100.
Proof.
  pose proof (rsiRun_no_loss rising15 14 rising15_neverFalls ltac:(simpl; lia)) as H.
  unfold Optimized.calculateRSIArray.
  change (length rising15 <? 14 + 1)%nat with false. cbv iota.
  destruct (Optimized.rsiRun rising15 14) as [[g l] result].
  destruct H as [Hl Hres].
  split; [exact Hl|]. split.
  - rewrite (Hres 14%nat) by (simpl; lia). f_equal. lra.
  - split; [lra|].
    apply calculateRSI_range; [lia|lia|].
    unfold RealData.averageLoss.
    replace (List.filter (fun change => ltb change 0)
                         (RealData.priceChanges rising15 14 14)) with (@nil R);
      [reflexivity|].
    unfold RealData.priceChanges, forLoop, rising15, at_.
    cbn [Nat.add Nat.sub seq fold_left Nat.ltb Nat.leb nth app List.filter].
    repeat (rewrite ltb_false by lra; cbn [List.filter]). reflexivity.
Qed.

End RsiBug.

(** ** Evaluation never validates its input *)

Section EvaluateFacts.
Local Open Scope R_scope.

(** C7, counterexample.  With a model present, one input row evaluated
    against two actual values, and two input rows against one, both return a
    metrics record; nothing is raised although the two sequences differ in
    length. *)
Lemma evaluate_uneven_counterexample :
  (exists metrics,
     ModelBuilder.evaluateModel zeroPredict builtBuilder
       [[1; 1; 1; 1; 1; 1]] [[1]; [2]] = Return metrics
     /\ sampleSize metrics = 1%nat)
  /\ (exists metrics,
        ModelBuilder.evaluateModel zeroPredict builtBuilder
          [[1; 1; 1; 1; 1; 1]; [2; 2; 2; 2; 2; 2]] [[1]] = Return metrics
        /\ sampleSize metrics = 2%nat)
  /\ ~ evaluateValidatesAsStated zeroPredict builtBuilder
         [[1; 1; 1; 1; 1; 1]] [[1]; [2]].
Proof.
  assert (H : ModelBuilder.evaluateModel zeroPredict builtBuilder
                [[1; 1; 1; 1; 1; 1]] [[1]; [2]]
              = Return (ModelBuilder.calculateMetrics [0] [1; 2])) by reflexivity.
  split; [|split].
  - eexists. split; [exact H | reflexivity].
  - eexists. split; reflexivity.
  - intros Hc.
    destruct (Hc _ [0] eq_refl eq_refl) as [e He].
    + left. cbn [length concat app]. lia.
    + rewrite H in He. discriminate.
Qed.

(** The empty batch is refused by the library, not by a check of
    [evaluateModel]: the error is the re-thrown one. *)
Example evaluate_empty_batch :
  ModelBuilder.evaluateModel zeroPredict builtBuilder [] []
  = Throw (Error "Model evaluation failed: the input does not fit the model").
Proof. reflexivity. Qed.

Lemma calculateMetrics_sampleSize (predictions actuals : list R) :
  sampleSize (ModelBuilder.calculateMetrics predictions actuals) = length predictions.
Proof.
  unfold ModelBuilder.calculateMetrics.
  destruct (forLoop 0 (length predictions) _ _) as [[? ?] ?]. reflexivity.
Qed.

(** C7, amended.  [evaluateModel] raises exactly when no model has been built
    or the library's prediction throws; the errors are ["No model available
    for evaluation"] and ["Model evaluation failed: ..."].  Whenever a model
    is present and the prediction succeeds it returns the metrics of
    [calculateMetrics], whose sample size is the number of predictions,
    whatever the lengths of the two sequences: it compares no lengths. *)
Theorem evaluateModel_raises_iff
  (tfPredict : Model -> list (list R) -> result (list R))
  (this : ModelBuilder.ModelBuilder) (testX testY : list (list R)) :
  (raises (ModelBuilder.evaluateModel tfPredict this testX testY)
   <-> ModelBuilder.model this = None
       \/ exists m, ModelBuilder.model this = Some m /\ raises (tfPredict m testX))
  /\ (ModelBuilder.model this = None ->
      ModelBuilder.evaluateModel tfPredict this testX testY
      = Throw (Error "No model available for evaluation"))
  /\ (forall m e,
        ModelBuilder.model this = Some m ->
        tfPredict m testX = Throw e ->
        exists msg,
          ModelBuilder.evaluateModel tfPredict this testX testY
          = Throw (Error ("Model evaluation failed: " ++ msg)))
  /\ (forall m predArray,
        ModelBuilder.model this = Some m ->
        tfPredict m testX = Return predArray ->
        ModelBuilder.evaluateModel tfPredict this testX testY
        = Return (ModelBuilder.calculateMetrics predArray (concat testY))
        /\ sampleSize (ModelBuilder.calculateMetrics predArray (concat testY))
           = length predArray).
Proof.
  unfold ModelBuilder.evaluateModel.
  destruct (ModelBuilder.model this) as [m|] eqn:Em.
  - split; [|split; [discriminate|split]].
    2:{ intros m' e [= <-] Hp. rewrite Hp. destruct e as [msg|msg]; exists msg; reflexivity. }
    + destruct (tfPredict m testX) as [predArray|e] eqn:Ep.
      * split; [intros [e He]; discriminate|].
        intros [H|(m' & Hm' & e & He)]; [discriminate|].
        injection Hm' as <-. rewrite Ep in He. discriminate.
      * split.
        -- intros _. right. exists m. split; [reflexivity|]. rewrite Ep. eexists; reflexivity.
        -- intros _. destruct e; eexists; reflexivity.
    + intros m' predArray [= <-] Hp. rewrite Hp.
      split; [reflexivity | apply calculateMetrics_sampleSize].
  - split; [|split; [reflexivity | split; discriminate]].
    split; [intros _; left; reflexivity | intros _; eexists; reflexivity].
Qed.

Lemma evaluateModel_raises_iff_witness :
  ModelBuilder.evaluateModel zeroPredict ModelBuilder.new [] []
  = Throw (Error "No model available for evaluation")
  /\ sampleSize (ModelBuilder.calculateMetrics [0; 0] [1]) = 2%nat.
Proof.
  split.
  - apply (evaluateModel_raises_iff zeroPredict ModelBuilder.new [] []). reflexivity.
  - destruct (evaluateModel_raises_iff zeroPredict builtBuilder
                [[1; 1; 1; 1; 1; 1]; [2; 2; 2; 2; 2; 2]] [[1]])
      as (_ & _ & _ & H).
    destruct (H _ [0; 0] eq_refl eq_refl) as [_ Hn]. exact Hn.
Defined.

End EvaluateFacts.

(** ** Model ownership *)

Lemma buildModel_allocates (tf : Tf) (this : ModelBuilder.ModelBuilder)
  (modelType cryptoKey : string) (tf' : Tf) (this' : ModelBuilder.ModelBuilder)
  (m : Model) :
  ModelBuilder.buildModel tf this modelType cryptoKey = Return (tf', this', m) ->
  liveModels tf' = nextModelId tf :: liveModels tf
  /\ ModelBuilder.model this' = Some m
  /\ modelId m = nextModelId tf.
Proof.
  unfold ModelBuilder.buildModel.
  destruct (CRYPTO_CONFIG cryptoKey) as [crypto|]; [|discriminate].
  destruct (MODEL_CONFIG modelType (iso20022 crypto)) as [config|]; [|discriminate].
  destruct (String.eqb modelType "neural");
    [|destruct (String.eqb modelType "deep");
      [|destruct (String.eqb modelType "lstm"); [|discriminate]]];
    intros [= <- <- <-]; repeat split.
Qed.

(** [dispose] releases the model the builder holds. *)
Lemma dispose_releases (s : Session) :
  ownsItsModels s ->
  liveModels (fst (sessionStep s CallDispose)) = []
  /\ ModelBuilder.model (snd (sessionStep s CallDispose)) = None.
Proof.
  destruct s as [tf mb]. unfold ownsItsModels, sessionStep, ModelBuilder.dispose.
  simpl. destruct (ModelBuilder.model mb) as [m|]; simpl; intros H.
  - rewrite H. simpl. rewrite Nat.eqb_refl. split; reflexivity.
  - split; [exact H | reflexivity].
Qed.

(** [buildModel] on a builder that still holds a model does not release it:
    afterwards two models are alive, the old one no longer referenced. *)
Lemma build_over_model_leaks (s : Session) (modelType cryptoKey : string)
  (old : Model) (tf' : Tf) (this' : ModelBuilder.ModelBuilder) (m : Model) :
  ownsItsModels s ->
  ModelBuilder.model (snd s) = Some old ->
  ModelBuilder.buildModel (fst s) (snd s) modelType cryptoKey = Return (tf', this', m) ->
  sessionStep s (CallBuild modelType cryptoKey) = (tf', this')
  /\ liveModels tf' = [modelId m; modelId old]
  /\ ModelBuilder.model this' = Some m.
Proof.
  destruct s as [tf mb]. unfold ownsItsModels. simpl. intros Hown Hold Hb.
  rewrite Hold in Hown.
  destruct (buildModel_allocates _ _ _ _ _ _ _ Hb) as (Hlive & Hm & Hid).
  rewrite Hb. split; [reflexivity|]. split; [|exact Hm].
  rewrite Hlive, Hown, Hid. reflexivity.
Qed.

(** C2, the defect.  Training twice in a row calls [buildModel] twice with no
    [dispose] in between: the library then holds two live models (ids 1 and
    0) while the builder references only the second.  Disposing first, as
    [selectCrypto] and [reset] do, leaves exactly one. *)
Theorem retrain_leaves_two_models :
  liveModels (fst (sessionRun [CallBuild "neural" "xrp"; CallBuild "neural" "xrp"]))
  = [1; 0]
  /\ option_map modelId
       (ModelBuilder.model
          (snd (sessionRun [CallBuild "neural" "xrp"; CallBuild "neural" "xrp"])))
     = Some 1
  /\ liveModels
       (fst (sessionRun [CallBuild "neural" "xrp"; CallDispose; CallBuild "neural" "xrp"]))
     = [1].
Proof. repeat split. Qed.

(** ** Which rows the scaler is fitted on *)

Section ScalerFacts.
Local Open Scope R_scope.

Lemma normalizeFeatures_result (rows rows' : list FeatureRow) (sc : Scaler)
  (first : FeatureRow) :
  rows !! 0%nat = Some first ->
  normalizeFeatures rows = Some (rows', sc) ->
  sc = computeScaler rows (length (features first))
  /\ rows' = map (normalizeRow (length (features first)) sc) rows.
Proof.
  destruct rows as [|x rest]; [discriminate|]. intros [= ->].
  unfold normalizeFeatures. intros [= <- <-]. split; reflexivity.
Qed.

Lemma rowsFollow_first (start : nat) (rawData : list Observation)
  (rows : list FeatureRow) :
  (start + 2 <= length rawData)%nat -> rowsFollow start rawData rows ->
  exists first, rows !! 0%nat = Some first /\ length (features first) = 6%nat.
Proof.
  intros H [_ Hrows]. destruct (Hrows 0%nat ltac:(lia)) as (row & _ & _ & Hr & Hw & _).
  exists row. split; assumption.
Qed.

(** The entries of a normalised row. *)
Lemma normalizeRow_entries (featureCount : nat) (sc : Scaler) (item : FeatureRow)
  (j : nat) :
  (j < featureCount)%nat -> (j < length (features item))%nat ->
  at_ (features (normalizeRow featureCount sc item)) j
  = (at_ (features item) j - at_ (means sc) j) / at_ (stds sc) j.
Proof.
  intros Hj Hlen.
  destruct (normalize_loop_spec sc (features item) featureCount) as [_ H].
  unfold normalizeRow; cbn [features].
  rewrite (H j Hlen), (proj2 (Nat.ltb_lt j featureCount) Hj). reflexivity.
Qed.

Lemma reduce_column {A} (g : A -> R) (data : list A) (init : R) :
  reduce (fun sum item => sum + g item) init data = init + specSum (map g data).
Proof.
  unfold reduce. revert init.
  induction data as [|x data IH]; intros init; simpl; [lra|].
  rewrite IH. lra.
Qed.

(** The mean stored for a column is the mean of that column over the rows
    the scaler is computed from. *)
Lemma columnMeans_at (data : list FeatureRow) (featureCount j : nat) :
  (j < featureCount)%nat ->
  at_ (columnMeans data featureCount) j
  = specMean (map (fun item => at_ (features item) j) data).
Proof.
  intros Hj. unfold at_ at 1, columnMeans.
  rewrite (nth_lookup_Some _ _ _
             (reduce (fun sum item => sum + at_ (features item) j) 0 data
              / INR (length data))).
  - unfold specMean. rewrite length_map, reduce_column. f_equal. lra.
  - change (map ?f ?l) with (f <$> l).
    rewrite list_lookup_fmap, lookup_seq_lt by exact Hj. reflexivity.
Qed.

(** The run of [processFeatures] in terms of the scaler of the whole set. *)
Lemma Optimized_processFeatures_scaler (this : Optimized.DataProcessor) :
  (20 <= length (Optimized.rawData this))%nat ->
  Optimized.cache this !! Optimized.generateCacheKey (Optimized.rawData this) = None ->
  let rows := Optimized.featureRows (Optimized.rawData this) in
  let sc := computeScaler rows 6 in
  exists this',
    Optimized.processFeatures this = Return (this', map (normalizeRow 6 sc) rows)
    /\ Optimized.scaler this' = Some sc
    /\ Optimized.processedData this' = map (normalizeRow 6 sc) rows.
Proof.
  intros Hlen Hmiss rows sc.
  destruct (Optimized_processFeatures_run this Hlen Hmiss) as (rows' & sc' & Hn & Hrun).
  assert (Hlen2 : (10 + 2 <= length (Optimized.rawData this))%nat) by lia.
  destruct (rowsFollow_first 10 _ _ Hlen2 (Optimized_featureRows_follow _))
    as (first & Hfirst & Hw).
  destruct (normalizeFeatures_result _ _ _ _ Hfirst Hn) as [Hsc Hrows].
  rewrite Hw in Hsc, Hrows. fold rows in Hsc, Hrows. fold sc in Hsc. subst sc' rows'.
  eexists. split; [exact Hrun|]. split; reflexivity.
Qed.

Lemma stepSeries_momentum (i : nat) :
  (10 <= i < 19)%nat ->
  Optimized.calculateMomentum stepPrices i = if (i <? 18)%nat then 0 else 1.
Proof.
  intros Hi. do 10 (destruct i as [|i]; [lia|]).
  do 9 (destruct i as [|i];
        [unfold Optimized.calculateMomentum, at_, stepPrices;
         cbn [Nat.ltb Nat.leb Nat.sub nth]; lra|]).
  lia.
Qed.

(** The momentum column of the rows of [stepSeries]. *)
Lemma stepSeries_momentum_column (l : list nat) :
  Forall (fun i => (10 <= i < 19)%nat) l ->
  map (fun item => at_ (features item) 2)
      (map (Optimized.featureRow (Optimized.rawData stepSeries)
              (map price (Optimized.rawData stepSeries))
              (map volume (Optimized.rawData stepSeries))
              (Optimized.calculateMovingAverageArray
                 (map price (Optimized.rawData stepSeries)) 5)
              (Optimized.calculateMovingAverageArray
                 (map price (Optimized.rawData stepSeries)) 10)
              (Optimized.calculateRSIArray
                 (map price (Optimized.rawData stepSeries)) 14)) l)
  = map (fun i => if (i <? 18)%nat then 0 else 1) l.
Proof.
  intros Hl. rewrite map_map. apply map_ext_Forall.
  eapply List.Forall_impl; [|exact Hl]. intros i Hi.
  unfold Optimized.featureRow, at_ at 1. cbn [features nth].
  change (map price (Optimized.rawData stepSeries)) with stepPrices.
  apply stepSeries_momentum, Hi.
Qed.

Lemma stepSeries_length : length (Optimized.rawData stepSeries) = 20%nat.
Proof. reflexivity. Qed.

Lemma stepSeries_rows :
  exists mk,
    Optimized.featureRows (Optimized.rawData stepSeries) = map mk (seq 10 9)
    /\ trainRows (Optimized.rawData stepSeries) = map mk (seq 10 7)
    /\ forall l, Forall (fun i => (10 <= i < 19)%nat) l ->
         map (fun item => at_ (features item) 2) (map mk l)
         = map (fun i => if (i <? 18)%nat then 0 else 1) l.
Proof.
  eexists. split; [|split; [|apply stepSeries_momentum_column]].
  - rewrite Optimized_featureRows_map, stepSeries_length. reflexivity.
  - unfold trainRows.
    assert (H0 : (0 <= DATA_CONFIG.trainTestSplit)%Q) by (unfold Qle; simpl; lia).
    destruct (splitData_prefix_suffix
                (Optimized.featureRows (Optimized.rawData stepSeries)) _ H0)
      as (Htr & _).
    rewrite Htr, Optimized_featureRows_map, stepSeries_length.
    rewrite length_map, length_seq.
    change (splitIndex (20 - 1 - 10) DATA_CONFIG.trainTestSplit)
      with (splitIndex 9 (8 # 10)).
    rewrite (proj1 splitIndex_configured). change (Z.to_nat 7) with 7%nat.
    rewrite firstn_map. reflexivity.
Qed.

(** C1, counterexample.  On [stepSeries] the run stores the scaler of all nine
    rows: its mean for the momentum column is 1/9, because the last row, which
    the split assigns to the test partition, has momentum 1.  The scaler of
    the seven train rows has mean 0 there.  So the stored scaler is not the
    one computed from the train partition. *)
Lemma scaler_leak_counterexample :
  (exists this' rows,
     Optimized.processFeatures stepSeries = Return (this', rows)
     /\ Optimized.scaler this'
        = Some (computeScaler (Optimized.featureRows (Optimized.rawData stepSeries)) 6))
  /\ at_ (means (computeScaler (Optimized.featureRows (Optimized.rawData stepSeries)) 6)) 2
     = 1 / 9
  /\ at_ (means (computeScaler (trainRows (Optimized.rawData stepSeries)) 6)) 2 = 0
  /\ ~ scalerFromTrainOnly stepSeries.
Proof.
  assert (Hlen : (20 <= length (Optimized.rawData stepSeries))%nat)
    by (rewrite stepSeries_length; lia).
  destruct (Optimized_processFeatures_scaler stepSeries Hlen (lookup_empty _))
    as (this' & Hrun & Hsc & _).
  destruct stepSeries_rows as (mk & Hall & Htrain & Hcol).
  assert (Hfull : at_ (means (computeScaler
                    (Optimized.featureRows (Optimized.rawData stepSeries)) 6)) 2 = 1 / 9).
  { cbn [means computeScaler]. rewrite columnMeans_at by lia.
    rewrite Hall, Hcol by (repeat constructor; lia).
    unfold specMean, specSum.
    cbn [seq map fold_right length Nat.ltb Nat.leb INR]. lra. }
  assert (Htr : at_ (means (computeScaler
                    (trainRows (Optimized.rawData stepSeries)) 6)) 2 = 0).
  { cbn [means computeScaler]. rewrite columnMeans_at by lia.
    rewrite Htrain, Hcol by (repeat constructor; lia).
    unfold specMean, specSum.
    cbn [seq map fold_right length Nat.ltb Nat.leb INR]. lra. }
  assert (Hneq : computeScaler (Optimized.featureRows (Optimized.rawData stepSeries)) 6
                 <> computeScaler (trainRows (Optimized.rawData stepSeries)) 6).
  { intros Heq. rewrite Heq, Htr in Hfull. lra. }
  split; [eexists _, _; split; [exact Hrun | exact Hsc]|].
  split; [exact Hfull|]. split; [exact Htr|].
  intros Hc. specialize (Hc _ _ Hrun). rewrite Hsc in Hc.
  apply Hneq. congruence.
Qed.

(** C1, amended.  On a run that computes the rows (20 or more observations,
    key not cached) the scaler is fitted by [normalizeFeatures] on the whole
    processed set, train and test rows together, before any split; it is
    stored unchanged, and that one scaler has normalised every row: the
    train partition, the test partition and the latest-features vector
    served for inference are the rows normalised by it, entry by entry
    [(x - mean) / std]. *)
Theorem scaler_fitted_on_whole_set (this : Optimized.DataProcessor)
  (Hlen : (20 <= length (Optimized.rawData this))%nat)
  (Hmiss : Optimized.cache this
             !! Optimized.generateCacheKey (Optimized.rawData this) = None) :
  let rows := Optimized.featureRows (Optimized.rawData this) in
  let sc := computeScaler rows 6 in
  let k := Z.to_nat (splitIndex (length rows) DATA_CONFIG.trainTestSplit) in
  exists this',
    Optimized.processFeatures this = Return (this', Optimized.processedData this')
    /\ Optimized.scaler this' = Some sc
    /\ Optimized.processedData this' = map (normalizeRow 6 sc) rows
    /\ train (splitData (Optimized.processedData this') DATA_CONFIG.trainTestSplit)
       = map (normalizeRow 6 sc) (firstn k rows)
    /\ test (splitData (Optimized.processedData this') DATA_CONFIG.trainTestSplit)
       = map (normalizeRow 6 sc) (skipn k rows)
    /\ getLatestFeatures (Optimized.processedData this')
       = Return (option_map (fun item => features (normalizeRow 6 sc item))
                            (last rows))
    /\ (forall j, (j < 6)%nat ->
          at_ (means sc) j = specMean (map (fun item => at_ (features item) j) rows))
    /\ (forall item j, In item rows -> (j < 6)%nat ->
          at_ (features (normalizeRow 6 sc item)) j
          = (at_ (features item) j - at_ (means sc) j) / at_ (stds sc) j).
Proof.
  intros rows sc k.
  destruct (Optimized_processFeatures_scaler this Hlen Hmiss)
    as (this' & Hrun & Hsc & Hpd).
  fold rows in Hrun, Hsc, Hpd. fold sc in Hrun, Hsc, Hpd.
  pose proof (Optimized_featureRows_follow (Optimized.rawData this)) as Hfollow.
  fold rows in Hfollow.
  assert (H0 : (0 <= DATA_CONFIG.trainTestSplit)%Q) by (unfold Qle; simpl; lia).
  destruct (splitData_prefix_suffix (Optimized.processedData this') _ H0)
    as (Htr & Hte).
  exists this'. rewrite Htr, Hte, Hpd, length_map. fold k.
  split; [exact Hrun|]. split; [exact Hsc|]. split; [reflexivity|].
  split; [apply firstn_map|]. split; [apply skipn_map|].
  split; [|split].
  - destruct rows as [|x l] using rev_ind.
    + destruct Hfollow as [Hl _]. cbn [length] in Hl. lia.
    + rewrite map_app. cbn [map].
      rewrite getLatestFeatures_snoc.
      rewrite last_snoc. reflexivity.
  - intros j Hj. apply columnMeans_at, Hj.
  - intros item j Hin Hj. apply normalizeRow_entries; [exact Hj|].
    destruct Hfollow as [Hl Hrows].
    apply list_elem_of_In, list_elem_of_lookup in Hin as [i Hi].
    assert (Hi' : (i < length rows)%nat) by (apply lookup_lt_is_Some; eauto).
    destruct (Hrows i ltac:(lia)) as (row & _ & _ & Hrow & Hw & _).
    rewrite Hi in Hrow. injection Hrow as <-. lia.
Qed.

Lemma scaler_fitted_on_whole_set_witness :
  exists this',
    Optimized.processFeatures stepSeries = Return (this', Optimized.processedData this')
    /\ Optimized.scaler this'
       = Some (computeScaler (Optimized.featureRows (Optimized.rawData stepSeries)) 6).
Proof.
  assert (Hlen : (20 <= length (Optimized.rawData stepSeries))%nat)
    by (rewrite stepSeries_length; lia).
  destruct (scaler_fitted_on_whole_set stepSeries Hlen (lookup_empty _))
    as (this' & Hrun & Hsc & _).
  exists this'. split; [exact Hrun | exact Hsc].
Defined.

End ScalerFacts.

(** * Further properties of the embedded code *)

(** ** RSI: both versions *)

Section RsiMore.
Local Open Scope R_scope.

(** X1.  For a period of at least 1, [calculateRSIArray] returns one entry
    per price, every entry lies in [0, 100], the entries before the period
    are 50, and a series of at most [period] prices gives 50 everywhere. *)
Theorem rsiArray_bounded (prices : list R) (period : nat)
  (Hp : (1 <= period)%nat) :
  length (Optimized.calculateRSIArray prices period) = length prices
  /\ (forall i x, Optimized.calculateRSIArray prices period !! i = Some x ->
        0 <= x <= 100)
  /\ (forall j, (j < period)%nat -> (j < length prices)%nat ->
        Optimized.calculateRSIArray prices period !! j = Some 50)
  /\ ((length prices <= period)%nat ->
      Optimized.calculateRSIArray prices period = repeat 50 (length prices)).
Proof.
  destruct (calculateRSIArray_range prices period Hp) as (Hlen & Hall & H50).
  split; [exact Hlen|]. split; [|split; [exact H50|]].
  - intros i x Hi. rewrite Forall_lookup in Hall. exact (Hall i x Hi).
  - intros Hshort. unfold Optimized.calculateRSIArray.
    rewrite (proj2 (Nat.ltb_lt (length prices) (period + 1))) by lia. reflexivity.
Qed.

Lemma rsiArray_bounded_witness :
  length (Optimized.calculateRSIArray rising15 14) = 15%nat
  /\ Optimized.calculateRSIArray rising15 14 !! 3%nat = Some 50.
Proof.
  assert (Hp : (1 <= 14)%nat) by lia.
  destruct (rsiArray_bounded rising15 14 Hp) as (Hlen & _ & H50 & _).
  split; [exact Hlen|]. apply H50; simpl; lia.
Defined.

(** X2.  For a period of at least 1 the per-index [calculateRSI] lies in
    [0, 100]; it is 50 when the index is below the period, 100 when the
    average loss of the lookback is 0, and strictly below 100 otherwise. *)
Theorem realData_rsi_bounded (prices : list R) (index period : nat)
  (Hp : (1 <= period)%nat) :
  0 <= RealData.calculateRSI prices index period <= 100
  /\ ((index < period)%nat -> RealData.calculateRSI prices index period = 50)
  /\ ((period <= index)%nat ->
      RealData.averageLoss (RealData.priceChanges prices index period) period = 0 ->
      RealData.calculateRSI prices index period = 100)
  /\ ((period <= index)%nat ->
      RealData.averageLoss (RealData.priceChanges prices index period) period <> 0 ->
      RealData.calculateRSI prices index period < 100).
Proof.
  destruct (calculateRSI_range prices index period Hp) as (Hr & H50 & H100).
  split; [exact Hr|]. split; [exact H50|]. split; [exact H100|].
  intros Hi Hne. unfold RealData.calculateRSI.
  rewrite (proj2 (Nat.ltb_ge index period)) by lia.
  rewrite eqb_false by exact Hne.
  pose proof (averageGain_nonneg (RealData.priceChanges prices index period) period Hp) as Hg.
  pose proof (averageLoss_nonneg (RealData.priceChanges prices index period) period Hp) as Hl.
  assert (Hpos : 0 < RealData.averageLoss
                       (RealData.priceChanges prices index period) period).
  { destruct Hl as [Hlt|Heq]; [exact Hlt | symmetry in Heq; contradiction]. }
  apply (rsi_formula_range _ (ratio_nonneg _ _ Hg Hpos)).
Qed.

Lemma realData_rsi_bounded_witness :
  RealData.calculateRSI rising15 3 14 = 50.
Proof.
  assert (Hp : (1 <= 14)%nat) by lia.
  destruct (realData_rsi_bounded rising15 3 14 Hp) as (_ & H50 & _).
  apply H50. lia.
Defined.

(** X3.  On a series in which no price ever falls, every entry of
    [calculateRSIArray] from the period on is [100 - 100/101 = 10000/101]:
    the array never reaches 100. *)
Theorem rsiArray_never_falls (prices : list R) (period : nat)
  (Hup : neverFalls prices) (Hp : (1 <= period < length prices)%nat) :
  forall j, (period <= j < length prices)%nat ->
    Optimized.calculateRSIArray prices period !! j = Some (10000 / 101).
Proof.
  intros j Hj.
  pose proof (rsiRun_no_loss prices period Hup Hp) as H.
  unfold Optimized.calculateRSIArray.
  rewrite (proj2 (Nat.ltb_ge (length prices) (period + 1))) by lia.
  destruct (Optimized.rsiRun prices period) as [[g l] result].
  destruct H as [_ Hres]. rewrite (Hres j Hj). f_equal. lra.
Qed.

Lemma rsiArray_never_falls_witness :
  Optimized.calculateRSIArray [1; 1; 2; 2; 3] 2 !! 4%nat = Some (10000 / 101).
Proof.
  assert (Hup : neverFalls [1; 1; 2; 2; 3]).
  { intros i Hi. cbn [length] in Hi.
    do 5 (destruct i as [|i]; [unfold at_; cbn [nth Nat.sub]; lra|]). lia. }
  assert (Hp : (1 <= 2 < length [1; 1; 2; 2; 3])%nat) by (simpl; lia).
  apply (rsiArray_never_falls [1; 1; 2; 2; 3] 2 Hup Hp). simpl. lia.
Defined.

End RsiMore.

(** ** Moving averages: the rolling array and the per-index window *)

Section MovingAverage.
Local Open Scope R_scope.

Lemma at_lookup (l : list R) (i : nat) (x : R) : l !! i = Some x -> at_ l i = x.
Proof. intros H. unfold at_. apply nth_lookup_Some, H. Qed.

Lemma specSum_app (l1 l2 : list R) : specSum (l1 ++ l2) = specSum l1 + specSum l2.
Proof. induction l1 as [|x l1 IH]; simpl; [lra|]. unfold specSum in *. simpl. lra. Qed.

Lemma prefixSum_step (l : list R) (k : nat) :
  (k < length l)%nat ->
  specSum (firstn (S k) l) = specSum (firstn k l) + at_ l k.
Proof.
  intros Hk. destruct (lookup_lt_is_Some_2 l k Hk) as [x Hx].
  rewrite (take_S_r l k x Hx), specSum_app, (at_lookup _ _ _ Hx).
  unfold specSum. simpl. lra.
Qed.

(** Sliding a window of [n] elements one place to the right. *)
Lemma windowSum_step (l : list R) (a n : nat) :
  (a + n < length l)%nat -> (1 <= n)%nat ->
  specSum (firstn n (skipn (S a) l))
  = specSum (firstn n (skipn a l)) + at_ l (a + n) - at_ l a.
Proof.
  intros Hlen Hn. destruct n as [|m]; [lia|].
  destruct (lookup_lt_is_Some_2 l a ltac:(lia)) as [x Hx].
  destruct (lookup_lt_is_Some_2 l (a + S m) ltac:(lia)) as [y Hy].
  rewrite (drop_S l x a Hx). cbn [firstn].
  assert (Hy' : skipn (S a) l !! m = Some y).
  { rewrite lookup_drop. replace (S a + m)%nat with (a + S m)%nat by lia. exact Hy. }
  rewrite (take_S_r _ m y Hy'), specSum_app.
  rewrite (at_lookup _ _ _ Hx), (at_lookup _ _ _ Hy).
  unfold specSum. simpl. lra.
Qed.

(** [calculateMA] at an index inside the series, unfolded. *)
Lemma calculateMA_window (prices : list R) (j window : nat) :
  (j < length prices)%nat -> (1 <= window)%nat ->
  RealData.calculateMA prices j window
  = if (j <? window)%nat
    then specSum (firstn (j + 1) prices) / INR (j + 1)
    else specSum (firstn window (skipn (j + 1 - window) prices)) / INR window.
Proof.
  intros Hj Hw. unfold RealData.calculateMA, RealData.window, RealData.windowStart.
  rewrite Nat.max_0_l, slice_nat, reduce_plus_specSum, Rplus_0_l.
  rewrite length_firstn, length_skipn.
  destruct (j <? window)%nat eqn:E.
  - apply Nat.ltb_lt in E. replace (j + 1 - window)%nat with 0%nat by lia.
    rewrite Nat.sub_0_r, Nat.min_l by lia. reflexivity.
  - apply Nat.ltb_ge in E.
    replace (j + 1 - (j + 1 - window))%nat with window by lia.
    rewrite Nat.min_l by lia. reflexivity.
Qed.

(** X4.  For a window of at least 1 the rolling array of the optimised
    processor has one entry per price, and its entry at every index is the
    per-index moving average [calculateMA] of the real-data processor: the
    mean of the last [window] prices, or of all prices so far while fewer
    than [window] are available. *)
Theorem movingAverageArray_is_calculateMA (prices : list R) (window : nat)
  (Hw : (1 <= window)%nat) :
  length (Optimized.calculateMovingAverageArray prices window) = length prices
  /\ forall i, (i < length prices)%nat ->
       Optimized.calculateMovingAverageArray prices window !! i
       = Some (RealData.calculateMA prices i window).
Proof.
  unfold Optimized.calculateMovingAverageArray.
  set (m := Nat.min window (length prices)).
  pose proof (forLoop_invariant
    (fun k '(sum, result) =>
       sum = specSum (firstn k prices)
       /\ length result = length prices
       /\ forall j, (j < k)%nat ->
            result !! j = Some (RealData.calculateMA prices j window))
    0 m
    (fun i '(sum, result) =>
       let sum := sum + at_ prices i in
       (sum, <[i := sum / INR (i + 1)]> result))
    (0, repeat 0 (length prices)) ltac:(lia)) as H1.
  cbv beta in H1.
  destruct (forLoop 0 m _ _) as [sum1 res1].
  destruct H1 as (Hs1 & Hl1 & Hv1).
  { split; [reflexivity|]. split; [apply repeat_length|]. intros j Hj. lia. }
  { intros i [sum result] Hi (Hs & Hl & Hv). subst m.
    assert (Hsum : sum + at_ prices i = specSum (firstn (S i) prices))
      by (rewrite prefixSum_step by lia; rewrite Hs; reflexivity).
    split; [exact Hsum|]. split; [rewrite length_insert; exact Hl|].
    intros j Hj. destruct (Nat.eq_dec j i) as [->|Hne].
    - rewrite list_lookup_insert_eq by lia. f_equal.
      rewrite calculateMA_window by lia.
      rewrite (proj2 (Nat.ltb_lt i window)) by lia.
      rewrite Hsum. replace (i + 1)%nat with (S i) by lia. reflexivity.
    - rewrite list_lookup_insert_ne by lia. apply Hv. lia. }
  destruct (Nat.le_gt_cases (length prices) window) as [Hshort|Hlong].
  - rewrite forLoop_empty by exact Hshort.
    split; [exact Hl1|]. intros i Hi. apply Hv1. subst m. lia.
  - assert (Hm : m = window) by (subst m; lia).
    pose proof (forLoop_invariant
      (fun k '(sum, result) =>
         sum = specSum (firstn window (skipn (k - window) prices))
         /\ length result = length prices
         /\ forall j, (j < k)%nat ->
              result !! j = Some (RealData.calculateMA prices j window))
      window (length prices)
      (fun i '(sum, result) =>
         let sum := sum + at_ prices i - at_ prices (i - window) in
         (sum, <[i := sum / INR window]> result))
      (sum1, res1) ltac:(lia)) as H2.
    cbv beta in H2.
    destruct (forLoop window (length prices) _ _) as [sum2 res2].
    destruct H2 as (_ & Hl2 & Hv2).
    { rewrite Nat.sub_diag. cbn [skipn]. rewrite Hm in Hs1, Hv1.
      split; [exact Hs1|]. split; [exact Hl1|]. exact Hv1. }
    { intros i [sum result] Hi (Hs & Hl & Hv).
      assert (Hsum : sum + at_ prices i - at_ prices (i - window)
                     = specSum (firstn window (skipn (S i - window) prices))).
      { replace (S i - window)%nat with (S (i - window)) by lia.
        rewrite windowSum_step by lia.
        replace (i - window + window)%nat with i by lia. rewrite Hs. reflexivity. }
      split; [exact Hsum|]. split; [rewrite length_insert; exact Hl|].
      intros j Hj. destruct (Nat.eq_dec j i) as [->|Hne].
      - rewrite list_lookup_insert_eq by lia. f_equal.
        rewrite calculateMA_window by lia.
        rewrite (proj2 (Nat.ltb_ge i window)) by lia.
        rewrite Hsum. replace (i + 1 - window)%nat with (S i - window)%nat by lia.
        reflexivity.
      - rewrite list_lookup_insert_ne by lia. apply Hv. lia. }
    split; [exact Hl2|]. intros i Hi. apply Hv2, Hi.
Qed.

Lemma movingAverageArray_is_calculateMA_witness :
  Optimized.calculateMovingAverageArray [2; 4; 6; 8] 2 !! 3%nat
  = Some (RealData.calculateMA [2; 4; 6; 8] 3 2).
Proof.
  assert (Hw : (1 <= 2)%nat) by lia.
  destruct (movingAverageArray_is_calculateMA [2; 4; 6; 8] 2 Hw) as [_ H].
  apply H. simpl. lia.
Defined.

End MovingAverage.

(** ** The scaler and the normalised rows *)

Section ScalerMore.
Local Open Scope R_scope.

Lemma columnStds_at (data : list FeatureRow) (featureCount j : nat) (ms : list R) :
  (j < featureCount)%nat ->
  at_ (columnStds data featureCount ms) j
  = orElse (sqrt (specSum (map (fun item => (at_ (features item) j - at_ ms j) ^ 2) data)
                  / INR (length data))) 1.
Proof.
  intros Hj. unfold at_ at 1, columnStds.
  erewrite nth_lookup_Some.
  2:{ change (map ?f ?l) with (f <$> l).
      rewrite list_lookup_fmap, lookup_seq_lt by exact Hj. reflexivity. }
  cbv zeta. rewrite reduce_column, Rplus_0_l. reflexivity.
Qed.

Lemma orElse_positive (x : R) : 0 <= x -> 0 < orElse x 1.
Proof.
  intros Hx. unfold orElse. destruct (Req_dec_T x 0) as [E|E]; [lra|].
  destruct Hx as [Hlt|Heq]; [exact Hlt | symmetry in Heq; contradiction].
Qed.

(** X5.  Whatever the rows, the scaler has one mean and one standard
    deviation per feature, and every stored standard deviation is strictly
    positive: a zero (or undefined) deviation is replaced by 1, so the
    normalisation never divides by zero. *)
Theorem computeScaler_stds_positive (data : list FeatureRow) (featureCount : nat) :
  length (means (computeScaler data featureCount)) = featureCount
  /\ length (stds (computeScaler data featureCount)) = featureCount
  /\ forall j s, stds (computeScaler data featureCount) !! j = Some s -> 0 < s.
Proof.
  unfold computeScaler; cbn [means stds].
  split; [unfold columnMeans; rewrite length_map, length_seq; reflexivity|].
  split; [unfold columnStds; rewrite length_map, length_seq; reflexivity|].
  intros j s Hs.
  assert (Hj : (j < featureCount)%nat).
  { apply lookup_lt_Some in Hs. unfold columnStds in Hs.
    rewrite length_map, length_seq in Hs. exact Hs. }
  apply at_lookup in Hs. rewrite <- Hs, columnStds_at by exact Hj.
  apply orElse_positive, sqrt_pos.
Qed.

Lemma specSum_squares_nonneg {A} (f : A -> R) (l : list A) :
  0 <= specSum (map (fun x => f x ^ 2) l).
Proof.
  induction l as [|a l IH]; [simpl; lra|].
  cbn [map]. unfold specSum in *. cbn [fold_right].
  pose proof (pow2_ge_0 (f a)). lra.
Qed.

End ScalerMore.

Section NormalizeMore.
Local Open Scope R_scope.

Lemma specSum_constant {A} (f : A -> R) (c : R) (l : list A) :
  Forall (fun x => f x = c) l -> specSum (map f l) = INR (length l) * c.
Proof.
  induction 1 as [|a l Ha _ IH]; [simpl; lra|].
  cbn [map length]. rewrite S_INR. unfold specSum in *. cbn [fold_right].
  rewrite IH, Ha. lra.
Qed.

End NormalizeMore.

(** ** The feature cache *)

Section CacheMore.
Local Open Scope R_scope.

(** What a successful run leaves behind. *)
Lemma processFeatures_outcome (this this' : Optimized.DataProcessor)
  (rows : list FeatureRow) :
  Optimized.processFeatures this = Return (this', rows) ->
  (20 <= length (Optimized.rawData this))%nat
  /\ Optimized.rawData this' = Optimized.rawData this
  /\ Optimized.processedData this' = rows
  /\ Optimized.cache this' !! Optimized.generateCacheKey (Optimized.rawData this)
     = Some rows.
Proof.
  unfold Optimized.processFeatures. intros Hrun.
  destruct (length (Optimized.rawData this) <? 20)%nat eqn:Elen; [discriminate|].
  apply Nat.ltb_ge in Elen. split; [exact Elen|].
  destruct (Optimized.cache this !! Optimized.generateCacheKey (Optimized.rawData this))
    as [cached|] eqn:Ecache.
  - injection Hrun as <- <-. repeat split; reflexivity || exact Ecache.
  - destruct (normalizeFeatures (Optimized.featureRows (Optimized.rawData this)))
      as [[rows' sc]|]; injection Hrun as <- <-;
      (split; [reflexivity|]; split; [reflexivity|]);
      cbn [Optimized.cache]; apply lookup_insert_eq.
Qed.

(** A run that finds its key in the cache. *)
Lemma processFeatures_hit (this : Optimized.DataProcessor) (cached : list FeatureRow) :
  (20 <= length (Optimized.rawData this))%nat ->
  Optimized.cache this !! Optimized.generateCacheKey (Optimized.rawData this)
  = Some cached ->
  Optimized.processFeatures this
  = Return ({| Optimized.rawData := Optimized.rawData this;
               Optimized.processedData := cached;
               Optimized.scaler := Optimized.scaler this;
               Optimized.cache := Optimized.cache this |}, cached).
Proof.
  intros Hlen Hc. unfold Optimized.processFeatures.
  rewrite (proj2 (Nat.ltb_ge _ _) Hlen), Hc. reflexivity.
Qed.

(** X8.  A successful [processFeatures] leaves its rows in the cache under
    the key of the series, and running it again on the state it returned
    gives the same rows and the same state: the second run is a cache hit. *)
Theorem processFeatures_cached_again (this this' : Optimized.DataProcessor)
  (rows : list FeatureRow)
  (Hrun : Optimized.processFeatures this = Return (this', rows)) :
  Optimized.processFeatures this' = Return (this', rows)
  /\ Optimized.cache this' !! Optimized.generateCacheKey (Optimized.rawData this)
     = Some rows
  /\ Optimized.rawData this' = Optimized.rawData this
  /\ Optimized.processedData this' = rows.
Proof.
  destruct (processFeatures_outcome this this' rows Hrun) as (Hlen & Hraw & Hpd & Hc).
  split; [|repeat split; assumption].
  rewrite (processFeatures_hit this' rows); rewrite ?Hraw; try assumption.
  destruct this' as [r p sc c]. cbn in *. subst. reflexivity.
Qed.

Lemma processFeatures_cached_again_witness :
  exists this' rows,
    Optimized.processFeatures stepSeries = Return (this', rows)
    /\ Optimized.processFeatures this' = Return (this', rows).
Proof.
  assert (Hlen : (20 <= length (Optimized.rawData stepSeries))%nat)
    by (rewrite stepSeries_length; lia).
  destruct (Optimized_processFeatures_run stepSeries Hlen (lookup_empty _))
    as (rows' & sc & _ & Hrun).
  eexists _, rows'. split; [exact Hrun|].
  apply (processFeatures_cached_again stepSeries _ rows' Hrun).
Defined.

Lemma priceHash_prices (a b : list Observation) (start : nat) (init : R) :
  map price a = map price b ->
  reduce (fun hash '(i, item) => hash + price item * INR (i + 1)) init
         (combine (seq start (length a)) a)
  = reduce (fun hash '(i, item) => hash + price item * INR (i + 1)) init
           (combine (seq start (length b)) b).
Proof.
  unfold reduce. revert b start init.
  induction a as [|x a IH]; intros [|y b] start init Hp; try discriminate; [reflexivity|].
  injection Hp as Hxy Hp. cbn [length seq combine fold_left].
  rewrite Hxy. apply IH, Hp.
Qed.

(** The key is computed from the prices alone. *)
Lemma generateCacheKey_prices (a b : list Observation) :
  map price a = map price b ->
  Optimized.generateCacheKey a = Optimized.generateCacheKey b.
Proof.
  intros H. unfold Optimized.generateCacheKey.
  rewrite (priceHash_prices a b 0 0 H). reflexivity.
Qed.

(** X9.  The cache is keyed by prices only and survives a change of series.
    After a run on one series, loading a series with the same prices (its
    volumes and dates may differ) and running [processFeatures] again
    returns the rows of the first series unchanged; nothing is recomputed. *)
Theorem processFeatures_stale_rows (this this' : Optimized.DataProcessor)
  (rows : list FeatureRow) (series : list Observation)
  (Hrun : Optimized.processFeatures this = Return (this', rows))
  (Hprices : map price series = map price (Optimized.rawData this)) :
  Optimized.processFeatures (Optimized_setRawData this' series)
  = Return ({| Optimized.rawData := series;
               Optimized.processedData := rows;
               Optimized.scaler := Optimized.scaler this';
               Optimized.cache := Optimized.cache this' |}, rows).
Proof.
  destruct (processFeatures_outcome this this' rows Hrun) as (Hlen & _ & _ & Hc).
  apply (processFeatures_hit (Optimized_setRawData this' series) rows).
  - cbn [Optimized_setRawData Optimized.rawData].
    rewrite <- (length_map price series), Hprices, length_map. exact Hlen.
  - cbn [Optimized_setRawData Optimized.rawData Optimized.cache].
    rewrite (generateCacheKey_prices series _ Hprices). exact Hc.
Qed.

Lemma processFeatures_stale_rows_witness :
  exists this' rows,
    Optimized.processFeatures stepSeries = Return (this', rows)
    /\ Optimized.processedData
         (fst (match Optimized.processFeatures
                       (Optimized_setRawData this'
                          (map (fun p => {| date := 1%Z; price := p; volume := 2 |})
                               stepPrices)) with
               | Return r => r
               | Throw _ => (this', [])
               end)) = rows.
Proof.
  assert (Hlen : (20 <= length (Optimized.rawData stepSeries))%nat)
    by (rewrite stepSeries_length; lia).
  destruct (Optimized_processFeatures_run stepSeries Hlen (lookup_empty _))
    as (rows' & sc & _ & Hrun).
  eexists _, rows'. split; [exact Hrun|].
  rewrite (processFeatures_stale_rows stepSeries _ rows'
             (map (fun p => {| date := 1%Z; price := p; volume := 2 |}) stepPrices)
             Hrun eq_refl).
  reflexivity.
Defined.

End CacheMore.

(** ** Building and releasing models *)

(** X10.  For each of the six configured instruments and the three
    architectures [buildModel] does not throw: it creates one new model in
    the library and releases none, the new model becomes the builder's
    current one, takes 6 inputs, ends in one linear unit and is compiled;
    the training history is left as it was. *)
Theorem buildModel_configured (tf : Tf) (this : ModelBuilder.ModelBuilder)
  (modelType cryptoKey : string)
  (Hkey : In cryptoKey ["xrp"; "xlm"; "ada"; "btc"; "eth"; "sol"]%string)
  (Htype : In modelType ["neural"; "deep"; "lstm"]%string) :
  exists tf' this' m,
    ModelBuilder.buildModel tf this modelType cryptoKey = Return (tf', this', m)
    /\ ModelBuilder.model this' = Some m
    /\ ModelBuilder.isReady this' = true
    /\ ModelBuilder.trainingHistory this' = ModelBuilder.trainingHistory this
    /\ modelId m = nextModelId tf
    /\ liveModels tf' = modelId m :: liveModels tf
    /\ inputShape m = 6
    /\ last (layers m) = Some (Dense 1 "linear")
    /\ optimizer m <> None.
Proof.
  cbn [In] in Hkey, Htype.
  destruct Hkey as [<-|[<-|[<-|[<-|[<-|[<-|[]]]]]]];
    destruct Htype as [<-|[<-|[<-|[]]]];
    (eexists _, _, _; split; [reflexivity|];
     repeat split; try reflexivity; discriminate).
Qed.

Lemma buildModel_configured_witness :
  exists r, ModelBuilder.buildModel tfInit ModelBuilder.new "lstm" "btc" = Return r.
Proof.
  destruct (buildModel_configured tfInit ModelBuilder.new "lstm" "btc")
    as (tf' & this' & m & H & _).
  - cbn [In]. tauto.
  - cbn [In]. tauto.
  - eexists. exact H.
Defined.

(** Identifiers handed out by the library are fresh: in every reachable
    session all live models, and the builder's model, lie below the next
    identifier. *)
Lemma sessionStep_fresh (s : Session) (c : SessionCall) :
  (Forall (fun id => id < nextModelId (fst s)) (liveModels (fst s))
   /\ forall m, ModelBuilder.model (snd s) = Some m -> modelId m < nextModelId (fst s)) ->
  Forall (fun id => id < nextModelId (fst (sessionStep s c)))
         (liveModels (fst (sessionStep s c)))
  /\ forall m, ModelBuilder.model (snd (sessionStep s c)) = Some m ->
       modelId m < nextModelId (fst (sessionStep s c)).
Proof.
  destruct s as [tf mb]. cbn [fst snd]. intros [Hlive Hcur].
  destruct c as [modelType cryptoKey|]; cbn [sessionStep].
  - destruct (ModelBuilder.buildModel tf mb modelType cryptoKey) as [[[tf' mb'] m]|e] eqn:Hb;
      [|split; assumption].
    destruct (buildModel_allocates _ _ _ _ _ _ _ Hb) as (Hl & Hm & Hid).
    assert (Hnext : nextModelId tf' = S (nextModelId tf)).
    { revert Hb. unfold ModelBuilder.buildModel.
      destruct (CRYPTO_CONFIG cryptoKey); [|discriminate].
      destruct (MODEL_CONFIG modelType _); [|discriminate].
      destruct (String.eqb modelType "neural");
        [|destruct (String.eqb modelType "deep");
          [|destruct (String.eqb modelType "lstm"); [|discriminate]]];
        intros [= <- _ _]; reflexivity. }
    cbn [fst snd]. rewrite Hl, Hnext. split.
    + constructor; [lia|]. eapply List.Forall_impl; [|exact Hlive].
      intros id Hid'. cbv beta in *. lia.
    + intros m' Hm'. rewrite Hm in Hm'. injection Hm' as <-. lia.
  - unfold ModelBuilder.dispose. destruct (ModelBuilder.model mb) as [m|] eqn:Em;
      cbn [fst snd tfDispose nextModelId liveModels ModelBuilder.model].
    + split; [|discriminate].
      apply List.Forall_forall. intros id Hin. apply filter_In in Hin as [Hin _].
      rewrite List.Forall_forall in Hlive. apply Hlive, Hin.
    + split; [exact Hlive|]. intros m' Hm'. rewrite ?Em in Hm'. discriminate.
Qed.

Lemma sessionRun_from_fresh (calls : list SessionCall) (s : Session) :
  (Forall (fun id => id < nextModelId (fst s)) (liveModels (fst s))
   /\ forall m, ModelBuilder.model (snd s) = Some m -> modelId m < nextModelId (fst s)) ->
  Forall (fun id => id < nextModelId (fst (fold_left sessionStep calls s)))
         (liveModels (fst (fold_left sessionStep calls s)))
  /\ forall m, ModelBuilder.model (snd (fold_left sessionStep calls s)) = Some m ->
       modelId m < nextModelId (fst (fold_left sessionStep calls s)).
Proof.
  revert s. induction calls as [|c calls IH]; intros s H; [exact H|].
  cbn [fold_left]. apply IH, sessionStep_fresh, H.
Qed.

(** A live model that is not the builder's current one survives any call. *)
Lemma sessionStep_keeps_leak (s : Session) (c : SessionCall) (id : nat) :
  (Forall (fun i => i < nextModelId (fst s)) (liveModels (fst s))
   /\ forall m, ModelBuilder.model (snd s) = Some m -> modelId m < nextModelId (fst s)) ->
  In id (liveModels (fst s)) ->
  option_map modelId (ModelBuilder.model (snd s)) <> Some id ->
  In id (liveModels (fst (sessionStep s c)))
  /\ option_map modelId (ModelBuilder.model (snd (sessionStep s c))) <> Some id.
Proof.
  destruct s as [tf mb]. cbn [fst snd]. intros [Hlive Hcur] Hin Hnot.
  assert (Hlt : id < nextModelId tf).
  { rewrite List.Forall_forall in Hlive. apply Hlive, Hin. }
  destruct c as [modelType cryptoKey|]; cbn [sessionStep].
  - destruct (ModelBuilder.buildModel tf mb modelType cryptoKey) as [[[tf' mb'] m]|e] eqn:Hb;
      [|split; assumption].
    destruct (buildModel_allocates _ _ _ _ _ _ _ Hb) as (Hl & Hm & Hid).
    cbn [fst snd]. rewrite Hl, Hm. cbn [option_map]. split; [right; exact Hin|].
    intros [= Heq]. lia.
  - unfold ModelBuilder.dispose. destruct (ModelBuilder.model mb) as [m|] eqn:Em;
      cbn [fst snd tfDispose liveModels ModelBuilder.model option_map].
    + split; [|discriminate]. apply filter_In. split; [exact Hin|].
      apply negb_true_iff, Nat.eqb_neq. intros Heq. apply Hnot.
      cbn [option_map]. congruence.
    + split; [exact Hin|]. rewrite ?Em. discriminate.
Qed.

(** X11.  A model that is live but no longer the builder's current one is
    never released: whatever calls follow (builds or disposes), it stays in
    the library's memory and never becomes current again. *)
Theorem leaked_model_stays_live (calls1 calls2 : list SessionCall) (id : nat)
  (Hlive : In id (liveModels (fst (sessionRun calls1))))
  (Hnot : option_map modelId (ModelBuilder.model (snd (sessionRun calls1))) <> Some id) :
  In id (liveModels (fst (sessionRun (calls1 ++ calls2))))
  /\ option_map modelId (ModelBuilder.model (snd (sessionRun (calls1 ++ calls2))))
     <> Some id.
Proof.
  unfold sessionRun in *. rewrite fold_left_app.
  assert (Hinit : Forall (fun i => i < nextModelId (fst sessionInit))
                         (liveModels (fst sessionInit))
                  /\ forall m, ModelBuilder.model (snd sessionInit) = Some m ->
                       modelId m < nextModelId (fst sessionInit))
    by (split; [constructor | intros m H; discriminate H]).
  assert (Hfresh := sessionRun_from_fresh calls1 sessionInit Hinit).
  revert Hfresh Hlive Hnot. generalize (fold_left sessionStep calls1 sessionInit) as s.
  induction calls2 as [|c calls2 IH]; intros s Hfresh Hlive Hnot; [split; assumption|].
  cbn [fold_left].
  destruct (sessionStep_keeps_leak s c id Hfresh Hlive Hnot) as [Hlive' Hnot'].
  apply IH; [apply sessionStep_fresh, Hfresh | exact Hlive' | exact Hnot'].
Qed.

Lemma leaked_model_stays_live_witness :
  In 0 (liveModels
          (fst (sessionRun ([CallBuild "neural" "xrp"; CallBuild "deep" "btc"]
                            ++ [CallDispose; CallBuild "lstm" "eth"; CallDispose])))).
Proof.
  apply (leaked_model_stays_live
           [CallBuild "neural" "xrp"; CallBuild "deep" "btc"]
           [CallDispose; CallBuild "lstm" "eth"; CallDispose] 0).
  - simpl. right. left. reflexivity.
  - simpl. discriminate.
Defined.

(** X12.  [dispose] always leaves the builder without a model and not
    ready, the model it held is no longer live, and disposing again changes
    nothing. *)
Theorem dispose_idempotent (s : Session) :
  let s' := sessionStep s CallDispose in
  ModelBuilder.model (snd s') = None
  /\ ModelBuilder.isReady (snd s') = false
  /\ (forall m, ModelBuilder.model (snd s) = Some m ->
        ~ In (modelId m) (liveModels (fst s')))
  /\ sessionStep s' CallDispose = s'.
Proof.
  destruct s as [tf mb]. cbn [sessionStep]. unfold ModelBuilder.dispose.
  destruct (ModelBuilder.model mb) as [m|] eqn:Em; cbn [fst snd].
  - repeat split.
    + intros m' Heq Hin. rewrite Em in Heq. injection Heq as <-.
      apply filter_In in Hin as [_ Hin].
      rewrite Nat.eqb_refl in Hin. discriminate.
  - unfold ModelBuilder.isReady. cbn [ModelBuilder.model]. rewrite ?Em.
    repeat split. discriminate.
Qed.

Lemma dispose_idempotent_witness :
  sessionStep (sessionStep (sessionRun [CallBuild "neural" "xrp"]) CallDispose) CallDispose
  = sessionStep (sessionRun [CallBuild "neural" "xrp"]) CallDispose
  /\ liveModels (fst (sessionStep (sessionRun [CallBuild "neural" "xrp"]) CallDispose)) = [].
Proof.
  destruct (dispose_idempotent (sessionRun [CallBuild "neural" "xrp"]))
    as (_ & _ & _ & Hidem).
  split; [exact Hidem | reflexivity].
Defined.

(** ** Metrics: ranges and the perfect prediction *)

Section MetricsMore.
Local Open Scope R_scope.






Lemma squares_zero_all_equal (l : list R) (mu : R) :
  specSum (map (fun a => (a - mu) ^ 2) l) = 0 -> Forall (fun a => a = mu) l.
Proof.
  induction l as [|a l IH]; intros E; [constructor|].
  cbn [map] in E. unfold specSum in E. cbn [fold_right] in E.
  fold (specSum (map (fun a0 => (a0 - mu) ^ 2) l)) in E.
  pose proof (pow2_ge_0 (a - mu)) as H1.
  pose proof (specSum_squares_nonneg (fun a0 => a0 - mu) l) as H2.
  constructor.
  - assert (Ha : (a - mu) ^ 2 = 0) by lra. simpl in Ha. nra.
  - apply IH. lra.
Qed.


End MetricsMore.


(** ** Volatility and volume ratio *)

Section IndicatorsMore.
Local Open Scope R_scope.

Lemma specSum_ge_member (l : list R) (x : R) :
  Forall (fun y => 0 <= y) l -> In x l -> x <= specSum l.
Proof.
  induction 1 as [|y l Hy Hl IH]; intros Hin; [destruct Hin|].
  unfold specSum. cbn [fold_right]. fold (specSum l).
  pose proof (specSum_nonneg l Hl).
  destruct Hin as [->|Hin]; [lra|]. specialize (IH Hin). lra.
Qed.

(** The ratio of the last element of a window of non-negative numbers to
    the window mean is at most the window length. *)
Lemma window_ratio_bound (w : list R) (v : R) :
  Forall (fun y => 0 <= y) w -> In v w ->
  let avg := specSum w / INR (length w) in
  0 <= (if eqb avg 0 then 1 else v / avg) <= Rmax 1 (INR (length w)).
Proof.
  intros Hw Hin avg.
  assert (Hlen : 0 < INR (length w)).
  { apply lt_0_INR. destruct w; [destruct Hin | simpl; lia]. }
  pose proof (specSum_nonneg w Hw) as Hs.
  pose proof (specSum_ge_member w v Hw Hin) as Hv.
  assert (Hv0 : 0 <= v) by (rewrite List.Forall_forall in Hw; apply Hw, Hin).
  pose proof (Rmax_l 1 (INR (length w))) as M1.
  pose proof (Rmax_r 1 (INR (length w))) as M2.
  unfold eqb. destruct (Req_dec_T avg 0) as [E|E]; [lra|].
  assert (Hspos : 0 < specSum w).
  { destruct Hs as [Hlt|Heq]; [exact Hlt|]. exfalso. apply E.
    unfold avg. rewrite <- Heq. unfold Rdiv. lra. }
  assert (Havg : 0 < avg) by (unfold avg; apply Rdiv_lt_0_compat; assumption).
  split; [apply ratio_nonneg; assumption|].
  apply Rle_trans with (INR (length w)); [|exact M2].
  apply (Rmult_le_reg_r avg); [exact Havg|].
  replace (v / avg * avg) with v by (field; lra).
  unfold avg. replace (INR (length w) * (specSum w / INR (length w))) with (specSum w)
    by (field; lra).
  exact Hv.
Qed.

Lemma in_window (l : list R) (start index : nat) (x : R) :
  (start <= index)%nat -> l !! index = Some x ->
  In x (slice l (Z.of_nat start) (Z.of_nat (index + 1)))
  /\ length (slice l (Z.of_nat start) (Z.of_nat (index + 1))) = (index + 1 - start)%nat.
Proof.
  intros Hs Hx. rewrite slice_nat.
  assert (Hlt : (index < length l)%nat) by (apply lookup_lt_Some in Hx; exact Hx).
  split.
  - apply list_elem_of_In, list_elem_of_lookup. exists (index - start)%nat.
    rewrite lookup_take_lt, lookup_drop by lia.
    replace (start + (index - start))%nat with index by lia. exact Hx.
  - rewrite length_firstn, length_skipn. lia.
Qed.

(** X15.  With non-negative volumes and an index inside the series, the
    volume ratio of both processors lies between 0 and the window length 10
    (the current volume is part of the window it is compared with). *)
Theorem volumeRatio_bounded (volumes : list R) (index : nat)
  (Hpos : Forall (fun v => 0 <= v) volumes)
  (Hidx : (index < length volumes)%nat) :
  0 <= Optimized.calculateVolumeRatio volumes index <= 10
  /\ 0 <= RealData.calculateVolumeRatio volumes index 10 <= 10.
Proof.
  destruct (lookup_lt_is_Some_2 volumes index Hidx) as [v Hv].
  assert (Hat : at_ volumes index = v) by (apply at_lookup, Hv).
  assert (Hwin : forall start, (start <= index)%nat -> (index + 1 - start <= 10)%nat ->
            let w := slice volumes (Z.of_nat start) (Z.of_nat (index + 1)) in
            0 <= (if eqb (reduce (fun a b => a + b) 0 w / INR (length w)) 0
                  then 1 else at_ volumes index / (reduce (fun a b => a + b) 0 w / INR (length w)))
              <= 10).
  { intros start Hs Hw w.
    destruct (in_window volumes start index v Hs Hv) as [Hin Hlen]. fold w in Hin, Hlen.
    assert (Hwpos : Forall (fun y => 0 <= y) w).
    { unfold w. rewrite slice_nat. apply Forall_take, Forall_drop, Hpos. }
    pose proof (window_ratio_bound w v Hwpos Hin) as Hb. cbv zeta in Hb.
    rewrite reduce_plus_specSum, Rplus_0_l, Hat.
    assert (Hmax : Rmax 1 (INR (length w)) <= 10).
    { apply Rmax_lub; [lra|]. rewrite Hlen.
      replace 10 with (INR 10) by (simpl; lra). apply le_INR, Hw. }
    lra. }
  split.
  - unfold Optimized.calculateVolumeRatio. rewrite Nat.max_0_l.
    apply Hwin; lia.
  - unfold RealData.calculateVolumeRatio, RealData.window, RealData.windowStart.
    rewrite Nat.max_0_l. apply Hwin; lia.
Qed.

Lemma volumeRatio_bounded_witness :
  0 <= Optimized.calculateVolumeRatio [1; 0; 3] 2 <= 10.
Proof.
  apply (volumeRatio_bounded [1; 0; 3] 2).
  - repeat constructor; lra.
  - simpl. lia.
Defined.

(** X16.  The volatility of a window (the population standard deviation of
    its prices) is never negative, and for a window of at least two prices
    it is 0 exactly when all prices in the window are equal. *)
Theorem volatility_zero_iff_constant (prices : list R)
  (Hlen : (2 <= length prices)%nat) :
  0 <= Optimized.calculateVolatility prices
  /\ (Optimized.calculateVolatility prices = 0
      <-> exists c, Forall (fun p => p = c) prices).
Proof.
  unfold Optimized.calculateVolatility.
  rewrite (proj2 (Nat.ltb_ge (length prices) 2)) by exact Hlen.
  rewrite !reduce_plus_specSum, !Rplus_0_l.
  rewrite (reduce_column (fun price => (price - specSum prices / INR (length prices)) ^ 2)).
  rewrite Rplus_0_l.
  assert (Hn : 0 < INR (length prices)) by (apply lt_0_INR; lia).
  set (mu := specSum prices / INR (length prices)).
  pose proof (specSum_squares_nonneg (fun p => p - mu) prices) as Hsq.
  split; [apply sqrt_pos|]. split.
  - intros Hz. exists mu. apply sqrt_eq_0 in Hz; [|apply ratio_nonneg; assumption].
    apply squares_zero_all_equal.
    unfold Rdiv in Hz. apply Rmult_integral in Hz as [Hz|Hz]; [exact Hz|].
    pose proof (Rinv_0_lt_compat _ Hn). lra.
  - intros [c Hc].
    assert (Hmu : mu = c).
    { unfold mu. rewrite <- (map_id prices) at 1.
      rewrite (specSum_constant (fun a => a) c prices Hc). field. lra. }
    rewrite (specSum_constant _ 0).
    + replace (INR (length prices) * 0 / INR (length prices)) with 0
        by (unfold Rdiv; lra). apply sqrt_0.
    + eapply List.Forall_impl; [|exact Hc]. intros p Hp. cbv beta in *.
      rewrite Hmu, Hp. simpl. lra.
Qed.

Lemma volatility_zero_iff_constant_witness :
  Optimized.calculateVolatility [5; 5; 5] = 0.
Proof.
  assert (Hlen : (2 <= length [5; 5; 5])%nat) by (simpl; lia).
  apply (volatility_zero_iff_constant [5; 5; 5] Hlen).
  exists 5. repeat constructor.
Defined.

End IndicatorsMore.

(** ** Generated series *)

Section GenerationFacts.
Local Open Scope R_scope.

Lemma configured_key (cryptoKey : string) :
  In cryptoKey ["xrp"; "xlm"; "ada"; "btc"; "eth"; "sol"]%string ->
  exists crypto basePrice,
    CRYPTO_CONFIG cryptoKey = Some crypto
    /\ CRYPTO_basePrice cryptoKey = Some basePrice
    /\ 0 < basePrice.
Proof.
  cbn [In]. intros [<-|[<-|[<-|[<-|[<-|[<-|[]]]]]]];
    eexists _, _; (split; [reflexivity|]; split; [reflexivity|]); lra.
Qed.

(** The loop of [generateRealisticData] after all its rounds. *)
Lemma realistic_loop (rand : nat -> R) (now : nat -> Z) (dataPoints : nat)
  (latestPrice volatility price0 : R) :
  (forall k, 0 <= rand k < 1) ->
  let '(_, rawData) :=
    forLoop 0 dataPoints (realisticStep rand now dataPoints latestPrice volatility)
            (price0, []) in
  length rawData = dataPoints
  /\ Forall (fun o => latestPrice * (1 / 10) <= price o /\ 0 < volume o) rawData.
Proof.
  intros Hrand.
  apply (forLoop_invariant
    (fun n '(_, rawData) =>
       length rawData = n
       /\ Forall (fun o => latestPrice * (1 / 10) <= price o /\ 0 < volume o) rawData));
    [lia | split; [reflexivity | constructor] |].
  intros i [pr rawData] _ [Hlen Hall]. unfold realisticStep.
  split; [rewrite length_app, Hlen; simpl; lia|].
  apply Forall_app. split; [exact Hall|]. constructor; [|constructor].
  cbn [price volume]. split; [apply Rmax_r|].
  pose proof (Hrand (2 * i + 1)%nat) as Hr.
  pose proof (Rabs_pos ((rand (2 * i)%nat - 1 / 2) * volatility)) as Ha.
  unfold volumeMultiplier.
  apply Rmult_lt_0_compat; [apply Rmult_lt_0_compat|]; lra.
Qed.

Lemma setLastPrice_spec (rawData : list Observation) (p : R) :
  length (setLastPrice rawData p) = length rawData
  /\ (forall i, (i < length rawData - 1)%nat ->
        setLastPrice rawData p !! i = rawData !! i)
  /\ (forall o, rawData !! (length rawData - 1)%nat = Some o ->
        setLastPrice rawData p !! (length rawData - 1)%nat
        = Some {| date := date o; price := p; volume := volume o |}).
Proof.
  unfold setLastPrice.
  destruct (rawData !! (length rawData - 1)%nat) as [last|] eqn:E.
  - split; [apply length_insert|]. split.
    + intros i Hi. apply list_lookup_insert_ne. lia.
    + intros o [= <-]. apply list_lookup_insert_eq.
      apply lookup_lt_Some in E. exact E.
  - split; [reflexivity|]. split; [reflexivity | discriminate].
Qed.

(** The run of [generateRealisticData] for a configured instrument. *)
Lemma generateRealisticData_run (rand : nat -> R) (now : nat -> Z)
  (this : Optimized.DataProcessor) (cryptoKey : string)
  (currentPrice : option R) (recentChange : R) :
  In cryptoKey ["xrp"; "xlm"; "ada"; "btc"; "eth"; "sol"]%string ->
  (forall k, 0 <= rand k < 1) ->
  exists series basePrice,
    CRYPTO_basePrice cryptoKey = Some basePrice
    /\ 0 < basePrice
    /\ Optimized_generateRealisticData rand now this cryptoKey currentPrice recentChange
       = Return (Optimized_setRawData this series, series)
    /\ length series = 100%nat
    /\ (forall i o, series !! i = Some o ->
          0 < volume o
          /\ ((i < 99)%nat ->
              (match truthy currentPrice with Some p => p | None => basePrice end)
              * (1 / 10) <= price o))
    /\ (forall o, series !! 99%nat = Some o ->
          match truthy currentPrice with
          | Some p => price o = p
          | None => basePrice * (1 / 10) <= price o
          end).
Proof.
  intros Hkey Hrand.
  destruct (configured_key cryptoKey Hkey) as (crypto & basePrice & Hc & Hb & Hpos).
  unfold Optimized_generateRealisticData. rewrite Hc, Hb.
  set (latestPrice := match truthy currentPrice with Some p => p | None => basePrice end).
  pose proof (realistic_loop rand now DATA_CONFIG.syntheticDataPoints latestPrice
                (volatilityOf (iso20022 crypto))
                (latestPrice * (1 - recentChange / 100 * (3 / 10))) Hrand) as Hloop.
  destruct (forLoop 0 DATA_CONFIG.syntheticDataPoints _ _) as [pr raw].
  destruct Hloop as [Hlen Hall]. change DATA_CONFIG.syntheticDataPoints with 100%nat in Hlen.
  rewrite Forall_lookup in Hall.
  destruct (truthy currentPrice) as [p|] eqn:Et.
  - destruct (setLastPrice_spec raw p) as (Hl & Hother & Hlast).
    rewrite Hlen in Hl, Hother, Hlast. cbn [Nat.sub] in Hother, Hlast.
    exists (setLastPrice raw p), basePrice.
    split; [reflexivity|]. split; [exact Hpos|]. split; [reflexivity|].
    split; [exact Hl|]. split.
    + intros i o Ho.
      assert (Hi : (i < 100)%nat) by (apply lookup_lt_Some in Ho; lia).
      destruct (Nat.eq_dec i 99%nat) as [->|Hne].
      * destruct (lookup_lt_is_Some_2 raw 99%nat ltac:(lia)) as [o' Ho'].
        rewrite (Hlast o' Ho') in Ho. injection Ho as <-. cbn [volume].
        split; [apply (Hall 99%nat o' Ho') | lia].
      * rewrite Hother in Ho by lia.
        split; [apply (Hall i o Ho) | intros _; apply (Hall i o Ho)].
    + intros o Ho.
      destruct (lookup_lt_is_Some_2 raw 99%nat ltac:(lia)) as [o' Ho'].
      rewrite (Hlast o' Ho') in Ho. injection Ho as <-. reflexivity.
  - exists raw, basePrice.
    split; [reflexivity|]. split; [exact Hpos|]. split; [reflexivity|].
    split; [exact Hlen|]. split.
    + intros i o Ho. split; [apply (Hall i o Ho) | intros _; apply (Hall i o Ho)].
    + intros o Ho. apply (Hall 99%nat o Ho).
Qed.

(** X17.  For a configured instrument and random draws in [0, 1),
    [generateRealisticData] never throws and stores and returns the same
    100 observations; every volume is positive, every price but the last is
    at least a tenth of the anchor price (the given current price, or the
    configured base price when none is given), and the last price is the
    given current price itself. *)
Theorem generateRealisticData_series (rand : nat -> R) (now : nat -> Z)
  (this : Optimized.DataProcessor) (cryptoKey : string)
  (currentPrice : option R) (recentChange : R)
  (Hkey : In cryptoKey ["xrp"; "xlm"; "ada"; "btc"; "eth"; "sol"]%string)
  (Hrand : forall k, 0 <= rand k < 1) :
  exists series basePrice,
    CRYPTO_basePrice cryptoKey = Some basePrice
    /\ Optimized_generateRealisticData rand now this cryptoKey currentPrice recentChange
       = Return (Optimized_setRawData this series, series)
    /\ length series = 100%nat
    /\ (forall i o, series !! i = Some o ->
          0 < volume o
          /\ ((i < 99)%nat ->
              (match truthy currentPrice with Some p => p | None => basePrice end)
              * (1 / 10) <= price o))
    /\ (forall o, series !! 99%nat = Some o ->
          match truthy currentPrice with
          | Some p => price o = p
          | None => basePrice * (1 / 10) <= price o
          end)
    /\ (truthy currentPrice = None -> Forall (fun o => 0 < price o) series).
Proof.
  destruct (generateRealisticData_run rand now this cryptoKey currentPrice recentChange
              Hkey Hrand)
    as (series & basePrice & Hb & Hpos & Hrun & Hlen & Hall & Hlast).
  exists series, basePrice. repeat (split; [assumption|]).
  intros Hnone. rewrite Hnone in Hall, Hlast. apply Forall_lookup. intros i o Ho.
  assert (Hi : (i < 100)%nat) by (apply lookup_lt_Some in Ho; lia).
  destruct (Nat.eq_dec i 99%nat) as [->|Hne].
  - specialize (Hlast o Ho). lra.
  - destruct (Hall i o Ho) as [_ Hp]. specialize (Hp ltac:(lia)). lra.
Qed.

Lemma generateRealisticData_series_witness :
  exists series,
    Optimized_generateRealisticData (fun _ => 1 / 2) (fun _ => 0%Z) Optimized.new
      "btc" (Some 50000) 0
    = Return (Optimized_setRawData Optimized.new series, series)
    /\ length series = 100%nat.
Proof.
  assert (Hrand : forall k : nat, 0 <= (fun _ : nat => 1 / 2) k < 1) by (intros; lra).
  destruct (generateRealisticData_series (fun _ => 1 / 2) (fun _ => 0%Z) Optimized.new
              "btc" (Some 50000) 0 ltac:(cbn [In]; tauto) Hrand)
    as (series & basePrice & _ & Hrun & Hlen & _).
  exists series. split; [exact Hrun | exact Hlen].
Defined.

(** X18.  For a configured instrument, whatever the price request returns
    (failure, error status, missing price or a price), [fetchData] does not
    throw and leaves a series of 100 observations; the [processFeatures]
    that follows does not throw either, and when the key is not cached it
    returns 89 rows. *)
Theorem fetchData_then_processFeatures (rand : nat -> R) (now : nat -> Z)
  (response : PriceResponse) (this : Optimized.DataProcessor) (cryptoKey : string)
  (Hkey : In cryptoKey ["xrp"; "xlm"; "ada"; "btc"; "eth"; "sol"]%string)
  (Hrand : forall k, 0 <= rand k < 1) :
  exists series,
    Optimized_fetchData rand now response this cryptoKey
    = Return (Optimized_setRawData this series, series)
    /\ length series = 100%nat
    /\ ~ raises (Optimized.processFeatures (Optimized_setRawData this series))
    /\ (Optimized.cache this !! Optimized.generateCacheKey series = None ->
        exists this' rows,
          Optimized.processFeatures (Optimized_setRawData this series)
          = Return (this', rows)
          /\ length rows = 89%nat).
Proof.
  destruct (configured_key cryptoKey Hkey) as (crypto & basePrice & Hc & _ & _).
  assert (Hgen : forall currentPrice recentChange,
            exists series,
              Optimized_generateRealisticData rand now this cryptoKey
                currentPrice recentChange
              = Return (Optimized_setRawData this series, series)
              /\ length series = 100%nat).
  { intros cp rc.
    destruct (generateRealisticData_run rand now this cryptoKey cp rc Hkey Hrand)
      as (series & ? & _ & _ & Hrun & Hlen & _).
    exists series. split; assumption. }
  assert (Hfetch : exists series,
            Optimized_fetchData rand now response this cryptoKey
            = Return (Optimized_setRawData this series, series)
            /\ length series = 100%nat).
  { unfold Optimized_fetchData. rewrite Hc.
    destruct response as [|[|] usd change]; try apply Hgen.
    destruct (truthy usd); apply Hgen. }
  destruct Hfetch as (series & Hrun & Hlen).
  exists series. split; [exact Hrun|]. split; [exact Hlen|].
  assert (H20 : (20 <= length (Optimized.rawData (Optimized_setRawData this series)))%nat)
    by (cbn [Optimized_setRawData Optimized.rawData]; lia).
  split; [apply Optimized_processFeatures_guard, H20|].
  intros Hmiss.
  destruct (Optimized_processFeatures_rows (Optimized_setRawData this series) H20 Hmiss)
    as (this' & rows & Hp & _ & [Hcount _]).
  exists this', rows. split; [exact Hp|].
  cbn [Optimized_setRawData Optimized.rawData] in Hcount. lia.
Qed.

Lemma fetchData_then_processFeatures_witness :
  exists series,
    Optimized_fetchData (fun _ => 0) (fun _ => 0%Z) RequestFailed Optimized.new "xrp"
    = Return (Optimized_setRawData Optimized.new series, series)
    /\ length series = 100%nat.
Proof.
  assert (Hrand : forall k : nat, 0 <= (fun _ : nat => 0) k < 1) by (intros; lra).
  destruct (fetchData_then_processFeatures (fun _ => 0) (fun _ => 0%Z) RequestFailed
              Optimized.new "xrp" ltac:(cbn [In]; tauto) Hrand)
    as (series & Hrun & Hlen & _).
  exists series. split; [exact Hrun | exact Hlen].
Defined.

End GenerationFacts.

Section FallbackFacts.
Local Open Scope R_scope.

Lemma fallback_loop (rand : nat -> R) (now : nat -> Z) (basePrice : R) :
  (forall k, 0 <= rand k < 1) ->
  let '(_, rawData) :=
    forLoop 0 100 (fallbackStep rand now basePrice) (basePrice, []) in
  length rawData = 100%nat
  /\ Forall (fun o => basePrice * (8 / 10) <= price o /\ 0 <= volume o) rawData.
Proof.
  intros Hrand.
  apply (forLoop_invariant
    (fun n '(_, rawData) =>
       length rawData = n
       /\ Forall (fun o => basePrice * (8 / 10) <= price o /\ 0 <= volume o) rawData));
    [lia | split; [reflexivity | constructor] |].
  intros i [pr rawData] _ [Hlen Hall]. unfold fallbackStep.
  split; [rewrite length_app, Hlen; simpl; lia|].
  apply Forall_app. split; [exact Hall|]. constructor; [|constructor].
  cbn [price volume]. split; [apply Rmax_r|].
  pose proof (Hrand (2 * i + 1)%nat). lra.
Qed.

(** X19.  For a configured instrument and random draws in [0, 1), the
    fallback generator of the real-data processor stores and returns 100
    observations whose prices are all at least 80% of the base price (hence
    positive) and whose volumes are not negative; [processFeatures] then
    returns exactly 85 rows. *)
Theorem generateFallbackData_series (rand : nat -> R) (now : nat -> Z)
  (this : RealData.DataProcessor) (cryptoKey : string)
  (Hkey : In cryptoKey ["xrp"; "xlm"; "ada"; "btc"; "eth"; "sol"]%string)
  (Hrand : forall k, 0 <= rand k < 1) :
  exists this1 series basePrice,
    CRYPTO_basePrice cryptoKey = Some basePrice
    /\ RealData_generateFallbackData rand now this cryptoKey = Return (this1, series)
    /\ RealData.rawData this1 = series
    /\ length series = 100%nat
    /\ Forall (fun o => basePrice * (8 / 10) <= price o /\ 0 < price o /\ 0 <= volume o)
              series
    /\ exists this2 rows,
         RealData.processFeatures this1 = Return (this2, rows)
         /\ length rows = 85%nat.
Proof.
  destruct (configured_key cryptoKey Hkey) as (crypto & basePrice & _ & Hb & Hpos).
  unfold RealData_generateFallbackData. rewrite Hb.
  pose proof (fallback_loop rand now basePrice Hrand) as Hloop.
  destruct (forLoop 0 100 _ _) as [pr raw]. destruct Hloop as [Hlen Hall].
  eexists _, raw, basePrice.
  split; [reflexivity|]. split; [reflexivity|]. split; [reflexivity|].
  split; [exact Hlen|]. split.
  - eapply List.Forall_impl; [|exact Hall]. intros o [Hp Hv]. cbv beta. lra.
  - set (this1 := {| RealData.rawData := raw;
                     RealData.processedData := RealData.processedData this;
                     RealData.scaler := RealData.scaler this |}).
    assert (H20 : (20 <= length (RealData.rawData this1))%nat)
      by (cbn [this1 RealData.rawData]; lia).
    destruct (RealData_processFeatures_run this1 H20) as (rows' & sc & Hn & Hrun).
    eexists _, rows'. split; [exact Hrun|].
    destruct (rowsFollow_normalized _ _ _ _ _ (RealData_featureRows_follow _) Hn)
      as [Hcount _].
    cbn [this1 RealData.rawData] in Hcount. lia.
Qed.

Lemma generateFallbackData_series_witness :
  exists this1 series,
    RealData_generateFallbackData (fun _ => 0) (fun _ => 0%Z) series20 "eth"
    = Return (this1, series)
    /\ length series = 100%nat.
Proof.
  assert (Hrand : forall k : nat, 0 <= (fun _ : nat => 0) k < 1) by (intros; lra).
  destruct (generateFallbackData_series (fun _ => 0) (fun _ => 0%Z) series20 "eth"
              ltac:(cbn [In]; tauto) Hrand)
    as (this1 & series & basePrice & _ & Hrun & _ & Hlen & _).
  exists this1, series. split; [exact Hrun | exact Hlen].
Defined.

End FallbackFacts.

(** ** The synthetic-data processor *)

Section SyntheticFacts.
Local Open Scope R_scope.

Lemma slice_length_le {A} (l : list A) (a b : nat) :
  (length (slice l (Z.of_nat a) (Z.of_nat b)) <= b - a)%nat.
Proof. rewrite slice_nat, length_firstn. lia. Qed.

Lemma Synthetic_features_shape (prices volumes : list R) (index : nat) :
  length (Synthetic.calculateFeatures prices volumes index) = 6%nat
  /\ Synthetic.calculateFeatures prices volumes index !! 5%nat = Some 50.
Proof.
  split; [reflexivity|].
  unfold Synthetic.calculateFeatures. cbv zeta. cbn [lookup list_lookup].
  f_equal. unfold Synthetic.calculateRSI.
  pose proof (slice_length_le prices (Nat.max 0 (index - 10)) (index + 1)) as Hlen.
  rewrite (proj2 (Nat.ltb_lt _ (14 + 1))) by lia. reflexivity.
Qed.

(** X20.  In the synthetic-data processor the RSI feature is constant:
    [calculateFeatures] hands [calculateRSI] at most 11 prices, fewer than
    the 15 it needs, so for every series and index the feature vector has 6
    entries and its RSI entry is 50. *)
Theorem synthetic_rsi_always_50 (prices volumes : list R) (index : nat) :
  length (Synthetic.calculateFeatures prices volumes index) = 6%nat
  /\ Synthetic.calculateFeatures prices volumes index !! 5%nat = Some 50.
Proof. apply Synthetic_features_shape. Qed.

Lemma Synthetic_featureRows_map (rawData : list Observation) :
  Synthetic.featureRows rawData
  = map (fun i =>
           {| features :=
                Synthetic.calculateFeatures (map price rawData) (map volume rawData) i;
              target := at_ (map price rawData) (i + 1);
              rowPrice := at_ (map price rawData) i;
              rowDate := nth i (map date rawData) 0%Z |})
        (seq 10 (length rawData - 1 - 10)).
Proof.
  unfold Synthetic.featureRows. cbv zeta.
  apply (forLoop_push 10 (length rawData - 1)
           (fun i =>
              {| features :=
                   Synthetic.calculateFeatures (map price rawData) (map volume rawData) i;
                 target := at_ (map price rawData) (i + 1);
                 rowPrice := at_ (map price rawData) i;
                 rowDate := nth i (map date rawData) 0%Z |})).
Qed.

(** X21.  For a series of [n >= 20] observations the synthetic-data
    [processFeatures] returns [n - 11] rows of 6 features each, and after
    its normalisation the RSI feature of every row is 0: the constant 50 is
    its own mean. *)
Theorem synthetic_processFeatures_rows (this : Synthetic.DataProcessor)
  (Hlen : (20 <= length (Synthetic.rawData this))%nat) :
  exists this' rows,
    Synthetic.processFeatures this = Return (this', rows)
    /\ Synthetic.processedData this' = rows
    /\ length rows = (length (Synthetic.rawData this) - 11)%nat
    /\ Forall (fun row => length (features row) = 6%nat
                          /\ features row !! 5%nat = Some 0) rows.
Proof.
  unfold Synthetic.processFeatures.
  rewrite (proj2 (Nat.ltb_ge _ _) Hlen).
  rewrite Synthetic_featureRows_map.
  set (mk := fun i : nat => _).
  set (n := (length (Synthetic.rawData this) - 1 - 10)%nat).
  assert (Hn : (1 <= n)%nat) by (subst n; lia).
  set (rows0 := map mk (seq 10 n)).
  assert (Hfeat : forall row, In row rows0 ->
            length (features row) = 6%nat /\ features row !! 5%nat = Some 50).
  { intros row Hin. apply in_map_iff in Hin as (i & <- & _).
    apply Synthetic_features_shape. }
  assert (Hcons : exists first rest, rows0 = first :: rest).
  { subst rows0. destruct n as [|n']; [lia|]. cbn [seq map]. eauto. }
  destruct Hcons as (first & rest & Hrows0).
  assert (Hfirst : length (features first) = 6%nat).
  { apply Hfeat. rewrite Hrows0. left. reflexivity. }
  unfold Synthetic.normalizeFeatures. rewrite Hrows0, Hfirst, <- Hrows0.
  eexists _, _. split; [reflexivity|]. split; [reflexivity|].
  cbn [Synthetic.processedData].
  split; [rewrite length_map; subst rows0; rewrite length_map, length_seq; subst n; lia|].
  apply Forall_map. apply List.Forall_forall. intros row Hin.
  destruct (Hfeat row Hin) as [Hw H5]. cbn [features].
  split; [rewrite length_imap; exact Hw|].
  rewrite list_lookup_imap, H5. cbn [fmap option_fmap option_map]. f_equal.
  assert (Hmean : at_ (Synthetic.columnMeans rows0 6) 5 = 50).
  { unfold Synthetic.columnMeans, at_. cbn [seq map nth]. cbv zeta.
    rewrite reduce_plus_specSum, Rplus_0_l, length_map.
    rewrite (specSum_constant _ 50).
    - field. apply not_0_INR. subst rows0. rewrite length_map, length_seq. lia.
    - apply List.Forall_forall. intros r Hr. apply at_lookup. apply Hfeat, Hr. }
  rewrite Hmean. unfold Rdiv. lra.
Qed.

End SyntheticFacts.

Lemma synthetic_processFeatures_rows_witness :
  exists this' rows,
    Synthetic.processFeatures
      {| Synthetic.rawData := repeat {| date := 0%Z; price := 1; volume := 1 |} 20;
         Synthetic.processedData := [];
         Synthetic.scaler := None |}
    = Return (this', rows)
    /\ length rows = 9%nat.
Proof.
  destruct (synthetic_processFeatures_rows
              {| Synthetic.rawData := repeat {| date := 0%Z; price := 1; volume := 1 |} 20;
                 Synthetic.processedData := [];
                 Synthetic.scaler := None |})
    as (this' & rows & Hrun & _ & Hlen & _).
  - cbn [Synthetic.rawData]. rewrite repeat_length. lia.
  - exists this', rows. split; [exact Hrun|].
    rewrite Hlen. cbn [Synthetic.rawData]. rewrite repeat_length. reflexivity.
Defined.

(** ** The indicator processor of main.js *)

Section AdvancedFacts.
Local Open Scope R_scope.

Lemma orElse_nonzero (x d : R) : x <> 0 -> orElse x d = x.
Proof. intros H. unfold orElse. destruct (Req_dec_T x 0); [contradiction | reflexivity]. Qed.

Lemma historical_loop (rand : nat -> R) (now : Z) (basePrice : R) (n : nat) :
  (forall j, 0 <= rand j < 1) -> 0 <= basePrice -> (n <= 100)%nat ->
  let data := forLoop 0 n (Advanced.historicalStep rand now basePrice) [] in
  length data = n
  /\ forall k c, data !! k = Some c -> candleOk now basePrice data k c.
Proof.
  intros Hrand Hbase Hn.
  apply (forLoop_invariant
           (fun n data => length data = n
              /\ forall k c, data !! k = Some c -> candleOk now basePrice data k c)).
  - lia.
  - split; [reflexivity|]. intros k c H. rewrite lookup_nil in H. discriminate.
  - intros i data Hi [Hlen IH].
    unfold Advanced.historicalStep. cbv zeta.
    set (pm := 1 + sin (INR (99 - i) * (5 / 100)) * (1 / 100)
               + (rand (4 * i)%nat - 1 / 2) * (15 / 1000)
               + sin (INR (99 - i) * (3 / 10)) * (8 / 1000)).
    set (pr := Rmax (1 / 10) (basePrice * pm)).
    set (op := if (99 - i <? 99)%nat then _ else _).
    set (c0 := {| timestamp := _ |}).
    split; [rewrite length_app, Hlen; cbn [length]; lia|].
    intros k c Hk.
    destruct (Nat.lt_ge_cases k (length data)) as [Hlt|Hge].
    + rewrite lookup_app_l in Hk by exact Hlt.
      destruct (IH k c Hk) as (H1 & H2 & H3 & H4 & H5 & H6 & H7 & H8).
      repeat split; try assumption; try tauto.
      intros p Hk1 Hp. rewrite lookup_app_l in Hp by lia. apply (H8 p Hk1 Hp).
    + assert (Hkl : k = length data).
      { apply lookup_lt_Some in Hk. rewrite length_app in Hk. cbn [length] in Hk. lia. }
      subst k. rewrite lookup_app_r, Nat.sub_diag in Hk by lia.
      cbn in Hk. injection Hk as <-.
      assert (Hpm : 9745 / 10000 <= pm <= 10255 / 10000).
      { pose proof (SIN_bound (INR (99 - i) * (5 / 100))) as Hs1.
        pose proof (SIN_bound (INR (99 - i) * (3 / 10))) as Hs2.
        pose proof (Hrand (4 * i)%nat) as Hr. subst pm. lra. }
      assert (Hpr : 1 / 10 <= pr) by (subst pr; apply Rmax_l).
      assert (Hr2 := Hrand (4 * i + 1)%nat).
      assert (Hr3 := Hrand (4 * i + 2)%nat).
      assert (Hr4 := Hrand (4 * i + 3)%nat).
      subst c0. unfold candleOk. cbn [timestamp cprice cvolume low high close open].
      rewrite Hlen.
      split; [reflexivity|]. split; [exact Hpr|].
      split.
      { split.
        - apply Rle_trans with (basePrice * pm); [nra | subst pr; apply Rmax_r].
        - subst pr. apply Rmax_lub; [apply Rmax_l|].
          apply Rle_trans with (basePrice * (10255 / 10000)); [nra | apply Rmax_r]. }
      split; [lra|]. split; [nra|]. split; [reflexivity|].
      split.
      * intros ->. subst op. reflexivity.
      * intros p Hi1 Hp. rewrite lookup_app_l in Hp by lia.
        subst op. replace (99 - i <? 99)%nat with true
          by (symmetry; apply Nat.ltb_lt; lia).
        rewrite Hlen, Hp.
        apply orElse_nonzero.
        destruct (IH _ _ Hp) as (_ & H2 & _). lra.
Qed.

(** X22.  [generateHistoricalData] of main.js, whatever [Math.random] returns
    in [0, 1) and for a current price that is not negative, stores and
    returns 100 hourly candles, the last one stamped [now]; every price is at
    least 0.1 and within 2.55 percent of the current price (from below, and
    from above up to the floor 0.1), [low <= price <= high], the volume is in
    [500000, 2000000), and every candle opens at the price of the one before
    it. *)
Theorem generateHistoricalData_candles (rand : nat -> R) (now : Z)
  (this : Advanced.DataProcessor)
  (Hrand : forall j, 0 <= rand j < 1)
  (Hprice : 0 <= Advanced.currentPrice this) :
  let '(this', data) := Advanced.generateHistoricalData rand now this in
  Advanced.rawData this' = data
  /\ Advanced.processedData this' = Advanced.processedData this
  /\ length data = 100%nat
  /\ (forall k c, data !! k = Some c ->
        candleOk now (Advanced.currentPrice this) data k c)
  /\ (forall c, last data = Some c -> timestamp c = now).
Proof.
  unfold Advanced.generateHistoricalData. cbv zeta.
  destruct (historical_loop rand now (Advanced.currentPrice this) 100 Hrand Hprice
              (le_n _)) as [Hlen Hall].
  cbv zeta in Hlen, Hall.
  split; [reflexivity|]. split; [reflexivity|]. split; [exact Hlen|].
  split; [exact Hall|].
  intros c Hc. rewrite last_lookup, Hlen in Hc.
  destruct (Hall _ _ Hc) as (Ht & _). rewrite Ht. cbn. lia.
Qed.

Lemma generateHistoricalData_candles_witness :
  let '(this', data) :=
    Advanced.generateHistoricalData (fun _ => 0) 360000000%Z Advanced.new in
  length data = 100%nat
  /\ forall c, last data = Some c -> timestamp c = 360000000%Z.
Proof.
  assert (Hrand : forall j : nat, 0 <= (fun _ : nat => 0) j < 1) by (intros; lra).
  assert (Hprice : 0 <= Advanced.currentPrice Advanced.new)
    by (cbn [Advanced.currentPrice Advanced.new]; lra).
  pose proof (generateHistoricalData_candles (fun _ => 0) 360000000%Z Advanced.new
                Hrand Hprice) as H.
  destruct (Advanced.generateHistoricalData (fun _ => 0) 360000000%Z Advanced.new)
    as [this' data].
  destruct H as (_ & _ & Hlen & _ & Hlast). split; assumption.
Defined.

Lemma Advanced_features_map (getHours getDay : Z -> nat) (raw : list Candle) :
  forLoop 10 (length raw)
    (fun i features => features ++ [Advanced.sampleAt getHours getDay raw i]) []
  = map (Advanced.sampleAt getHours getDay raw) (seq 10 (length raw - 10)).
Proof. apply forLoop_push. Qed.

(** X23.  On a series of [n >= 10] candles [processFeatures] of main.js keeps
    the series and stores and returns [n - 10] samples, one per index
    [10 .. n-1]; each has 20 features, the first being the price at its
    index, and its target is the price one step later, except that the last
    sample, which has no later candle, is labelled with its own price. *)
Theorem advanced_processFeatures_samples (getHours getDay : Z -> nat)
  (rand : nat -> R) (now : Z) (this : Advanced.DataProcessor)
  (Hlen : (10 <= length (Advanced.rawData this))%nat) :
  let raw := Advanced.rawData this in
  let '(this', samples) := Advanced.processFeatures getHours getDay rand now this in
  Advanced.rawData this' = raw
  /\ Advanced.processedData this' = samples
  /\ length samples = (length raw - 10)%nat
  /\ (forall k s, samples !! k = Some s ->
        length (sampleFeatures s) = 20%nat
        /\ sampleFeatures s !! 0%nat = Some (Advanced.priceAt raw (10 + k))
        /\ ((11 + k < length raw)%nat ->
            sampleTarget s = Advanced.priceAt raw (11 + k)))
  /\ (forall s, last samples = Some s ->
        sampleFeatures s !! 0%nat = Some (sampleTarget s)).
Proof.
  cbv zeta. unfold Advanced.processFeatures.
  rewrite (proj2 (Nat.ltb_ge _ _) Hlen). cbv zeta.
  rewrite Advanced_features_map.
  set (raw := Advanced.rawData this).
  assert (Hk : forall k s,
             map (Advanced.sampleAt getHours getDay raw) (seq 10 (length raw - 10)) !! k
             = Some s ->
             (k < length raw - 10)%nat
             /\ s = Advanced.sampleAt getHours getDay raw (10 + k)).
  { intros k s H. rewrite list_lookup_fmap in H.
    destruct (seq 10 (length raw - 10) !! k) as [i|] eqn:E; [|discriminate].
    apply lookup_seq in E as [-> Hlt]. cbn in H. injection H as <-. auto. }
  split; [reflexivity|]. split; [reflexivity|].
  split; [rewrite length_map, length_seq; reflexivity|].
  split.
  - intros k s H. apply Hk in H as [Hlt ->].
    split; [reflexivity|]. split; [reflexivity|].
    intros Hnext. unfold Advanced.sampleAt. cbn [sampleTarget].
    f_equal. lia.
  - intros s H. rewrite last_lookup in H. apply Hk in H as [Hlt ->].
    rewrite length_map, length_seq in *.
    unfold Advanced.sampleAt. cbn [sampleTarget sampleFeatures lookup list_lookup].
    do 2 f_equal. lia.
Qed.

Lemma advanced_processFeatures_samples_witness :
  let raw := repeat {| timestamp := 0; cprice := 1; cvolume := 1; high := 1;
                       low := 1; open := 1; close := 1 |} 12 in
  let '(this', samples) :=
    Advanced.processFeatures (fun _ => 0%nat) (fun _ => 0%nat) (fun _ => 0) 0%Z
      {| Advanced.rawData := raw; Advanced.processedData := [];
         Advanced.currentPrice := 1 |} in
  length samples = 2%nat.
Proof.
  cbv zeta.
  pose proof (advanced_processFeatures_samples (fun _ => 0%nat) (fun _ => 0%nat)
                (fun _ => 0) 0%Z
                {| Advanced.rawData :=
                     repeat {| timestamp := 0; cprice := 1; cvolume := 1; high := 1;
                               low := 1; open := 1; close := 1 |} 12;
                   Advanced.processedData := [];
                   Advanced.currentPrice := 1 |}) as H.
  cbv zeta in H.
  destruct (Advanced.processFeatures _ _ _ _ _) as [this' samples].
  destruct H as (_ & _ & Hlen & _).
  - cbn [Advanced.rawData]. rewrite repeat_length. lia.
  - rewrite Hlen. cbn [Advanced.rawData]. rewrite repeat_length. reflexivity.
Defined.

Lemma regenerated_series_samples (getHours getDay : Z -> nat)
  (rand : nat -> R) (now : Z) (this : Advanced.DataProcessor) :
  (length (Advanced.rawData this) < 10)%nat ->
  let '(this', samples) := Advanced.processFeatures getHours getDay rand now this in
  length (Advanced.rawData this') = 100%nat
  /\ Advanced.processedData this' = samples
  /\ length samples = 90%nat.
Proof.
  intros Hlen.
  unfold Advanced.processFeatures.
  rewrite (proj2 (Nat.ltb_lt _ _) Hlen). cbv zeta.
  rewrite Advanced_features_map.
  unfold Advanced.generateHistoricalData.
  cbn [fst snd Advanced.rawData Advanced.currentPrice Advanced.processedData].
  assert (H100 : length (forLoop 0 100
                   (Advanced.historicalStep rand now (Advanced.currentPrice this)) [])
                 = 100%nat).
  { apply (forLoop_invariant (fun n (data : list Candle) => length data = n)).
    - lia.
    - reflexivity.
    - intros i data _ Hd. unfold Advanced.historicalStep. cbv zeta.
      rewrite length_app, Hd. cbn [length]. lia. }
  split; [exact H100|]. split; [reflexivity|].
  rewrite length_map, length_seq, H100. reflexivity.
Qed.

(** X24.  On a series of fewer than 10 candles (also the empty one of a new
    or reset processor) [processFeatures] of main.js first replaces the
    series by a generated one of 100 candles and then returns 90 samples. *)
Theorem advanced_processFeatures_regenerates (getHours getDay : Z -> nat)
  (rand : nat -> R) (now : Z) (this : Advanced.DataProcessor)
  (Hlen : (length (Advanced.rawData this) < 10)%nat) :
  let '(this', samples) := Advanced.processFeatures getHours getDay rand now this in
  Advanced.rawData this' = snd (Advanced.generateHistoricalData rand now this)
  /\ length (Advanced.rawData this') = 100%nat
  /\ Advanced.processedData this' = samples
  /\ length samples = 90%nat
  /\ Advanced.currentPrice this' = Advanced.currentPrice this.
Proof.
  unfold Advanced.processFeatures.
  rewrite (proj2 (Nat.ltb_lt _ _) Hlen). cbv zeta.
  rewrite Advanced_features_map.
  unfold Advanced.generateHistoricalData.
  cbn [fst snd Advanced.rawData Advanced.currentPrice Advanced.processedData].
  assert (H100 : length (forLoop 0 100
                   (Advanced.historicalStep rand now (Advanced.currentPrice this)) [])
                 = 100%nat).
  { apply (forLoop_invariant (fun n (data : list Candle) => length data = n)).
    - lia.
    - reflexivity.
    - intros i data _ Hd. unfold Advanced.historicalStep. cbv zeta.
      rewrite length_app, Hd. cbn [length]. lia. }
  split; [reflexivity|]. split; [exact H100|]. split; [reflexivity|].
  split; [|reflexivity].
  rewrite length_map, length_seq, H100. reflexivity.
Qed.

Lemma advanced_processFeatures_regenerates_witness :
  let '(this', samples) :=
    Advanced.processFeatures (fun _ => 0%nat) (fun _ => 0%nat) (fun _ => 0) 0%Z
      Advanced.new in
  length samples = 90%nat.
Proof.
  pose proof (advanced_processFeatures_regenerates (fun _ => 0%nat) (fun _ => 0%nat)
                (fun _ => 0) 0%Z Advanced.new) as H.
  destruct (Advanced.processFeatures _ _ _ _ _) as [this' samples].
  destruct H as (_ & _ & _ & Hlen & _).
  - cbn [Advanced.rawData Advanced.new length]. lia.
  - exact Hlen.
Defined.

(** X25.  [calculateRSI] of main.js (period at least 1, index inside the
    series) is 50 before a full lookback, and otherwise lies in [0, 100)
    and never reaches 100: a zero average loss is replaced by 0.001.  On a
    window without any price change it is 0. *)
Theorem advanced_rsi_range (rawData : list Candle) (index period : nat)
  (Hp : (1 <= period)%nat) (Hidx : (index < length rawData)%nat) :
  0 <= Advanced.calculateRSI rawData index period < 100
  /\ ((index < period)%nat -> Advanced.calculateRSI rawData index period = 50)
  /\ ((period <= index)%nat ->
      (forall i, (index + 1 - period <= i <= index)%nat ->
         Advanced.priceAt rawData i = Advanced.priceAt rawData (i - 1)) ->
      Advanced.calculateRSI rawData index period = 0).
Proof.
  unfold Advanced.calculateRSI.
  destruct (index <? period)%nat eqn:E.
  { apply Nat.ltb_lt in E. split; [lra|]. split; [reflexivity|]. lia. }
  apply Nat.ltb_ge in E.
  set (body := fun (i : nat) (st : R * R) => _).
  assert (Hpos : 0 < INR period) by (apply lt_0_INR; lia).
  assert (Hinv : let '(g, l) := forLoop (index + 1 - period) (index + 1) body (0, 0) in
                 0 <= g /\ 0 <= l).
  { apply (forLoop_invariant (fun _ '(g, l) => 0 <= g /\ 0 <= l)); [lia | lra |].
    intros i [g l] _ [Hg Hl]. subst body. cbv beta iota zeta.
    unfold gtb. destruct (Rgt_dec _ 0) as [G|G].
    - lra.
    - pose proof (Rabs_pos (Advanced.priceAt rawData i
                            - Advanced.priceAt rawData (i - 1))). lra. }
  split; [|split; [lia|]].
  - destruct (forLoop _ _ body (0, 0)) as [g l]. destruct Hinv as [Hg Hl].
    apply rsi_formula_range. apply ratio_nonneg; [apply ratio_nonneg; assumption|].
    unfold orElse. destruct (Req_dec_T (l / INR period) 0) as [_|Hne]; [lra|].
    pose proof (ratio_nonneg l (INR period) Hl Hpos). lra.
  - intros _ Hflat.
    assert (Hzero : forLoop (index + 1 - period) (index + 1) body (0, 0) = (0, 0)).
    { apply (forLoop_invariant (fun _ st => st = (0, 0))); [lia | reflexivity |].
      intros i st Hi ->. subst body. cbv beta iota zeta.
      rewrite Hflat by lia. rewrite Rminus_diag.
      replace (gtb 0 0) with false by (symmetry; apply gtb_false; lra).
      rewrite Rabs_R0. f_equal. lra. }
    rewrite Hzero. unfold Rdiv. rewrite !Rmult_0_l. rewrite Rplus_0_r.
    lra.
Qed.

Lemma advanced_rsi_range_witness :
  0 <= Advanced.calculateRSI
         (repeat {| timestamp := 0; cprice := 1; cvolume := 1; high := 1;
                    low := 1; open := 1; close := 1 |} 12) 11 14 < 100.
Proof.
  apply (advanced_rsi_range
           (repeat {| timestamp := 0; cprice := 1; cvolume := 1; high := 1;
                      low := 1; open := 1; close := 1 |} 12) 11 14).
  - lia.
  - rewrite repeat_length. lia.
Defined.

(** X26.  [calculateEMA] of main.js (period at least 1, index inside the
    series) stays between any two bounds that hold for the prices at the
    indices [index - period .. index] it reads, and its third argument has no
    effect: the 'macd' signal line is the moving average of the price. *)
Theorem advanced_ema_bounds (rawData : list Candle) (index period : nat)
  (type : string) (lo hi : R)
  (Hp : (1 <= period)%nat) (Hidx : (index < length rawData)%nat)
  (Hwin : forall j, (index - period <= j <= index)%nat ->
            lo <= Advanced.priceAt rawData j <= hi) :
  lo <= Advanced.calculateEMA rawData index period type <= hi
  /\ Advanced.calculateEMA rawData index period type
     = Advanced.calculateEMA rawData index period "price".
Proof.
  split.
  - unfold Advanced.calculateEMA.
    destruct (index <? period)%nat eqn:E; [apply Hwin; lia|].
    apply Nat.ltb_ge in E. cbv zeta.
    assert (Hm : 0 < 2 / (INR period + 1) <= 1).
    { assert (H1 : 1 <= INR period) by (change 1 with (INR 1); apply le_INR, Hp).
      split.
      - apply Rdiv_lt_0_compat; lra.
      - replace 1 with ((INR period + 1) / (INR period + 1)) at 2 by (field; lra).
        unfold Rdiv. apply Rmult_le_compat_r; [left; apply Rinv_0_lt_compat; lra | lra]. }
    set (m := 2 / (INR period + 1)) in *.
    apply (forLoop_invariant (fun _ ema => lo <= ema <= hi)); [lia | apply Hwin; lia |].
    intros i ema Hi Hema. cbv beta.
    assert (Hv : lo <= Advanced.priceAt rawData i <= hi) by (apply Hwin; lia).
    destruct (String.eqb type "price"); nra.
  - unfold Advanced.calculateEMA. destruct (String.eqb type "price"); reflexivity.
Qed.

Lemma advanced_ema_bounds_witness :
  1 <= Advanced.calculateEMA
         (repeat {| timestamp := 0; cprice := 1; cvolume := 1; high := 1;
                    low := 1; open := 1; close := 1 |} 12) 11 9 "macd" <= 1.
Proof.
  apply (advanced_ema_bounds
           (repeat {| timestamp := 0; cprice := 1; cvolume := 1; high := 1;
                      low := 1; open := 1; close := 1 |} 12) 11 9 "macd" 1 1).
  - lia.
  - rewrite repeat_length. lia.
  - intros j Hj. unfold Advanced.priceAt, at_.
    assert (Hj' : (j < 12)%nat) by lia.
    do 12 (destruct j as [|j]; [cbn; lra|]). lia.
Defined.

Lemma reduce_map_specSum {A} (f : A -> R) (l : list A) (init : R) :
  reduce (fun sum x => sum + f x) init l = init + specSum (map f l).
Proof.
  unfold reduce. revert init. induction l as [|a l IH]; intros init; simpl.
  - lra.
  - rewrite IH. lra.
Qed.

Lemma specSum_bounds (l : list R) (lo hi : R) :
  Forall (fun x => lo <= x <= hi) l ->
  INR (length l) * lo <= specSum l <= INR (length l) * hi.
Proof.
  induction 1 as [|x l Hx _ IH]; [simpl; lra|].
  cbn [length]. rewrite S_INR. unfold specSum in *. cbn [fold_right]. lra.
Qed.

Lemma specMean_bounds (l : list R) (lo hi : R) :
  l <> [] -> Forall (fun x => lo <= x <= hi) l ->
  lo <= specSum l / INR (length l) <= hi.
Proof.
  intros Hne Hl. pose proof (specSum_bounds l lo hi Hl) as [H1 H2].
  assert (Hn : 0 < INR (length l)).
  { apply lt_0_INR. destruct l; [contradiction | simpl; lia]. }
  split.
  - apply Rmult_le_reg_r with (INR (length l)); [exact Hn|].
    unfold Rdiv. rewrite Rmult_assoc, Rinv_l by lra. lra.
  - apply Rmult_le_reg_r with (INR (length l)); [exact Hn|].
    unfold Rdiv. rewrite Rmult_assoc, Rinv_l by lra. lra.
Qed.

(** The prices read by [calculateSMA] and [calculateBollingerBands]. *)
Lemma advanced_window (rawData : list Candle) (index period : nat) (lo hi : R) :
  (1 <= period)%nat -> (index < length rawData)%nat ->
  (forall j, (index + 1 - period <= j <= index)%nat ->
     lo <= Advanced.priceAt rawData j <= hi) ->
  let prices :=
    map cprice (slice rawData (Z.of_nat (Nat.max 0 (index + 1 - period)))
                  (Z.of_nat (index + 1))) in
  prices <> [] /\ Forall (fun x => lo <= x <= hi) prices.
Proof.
  intros Hp Hidx Hwin prices. subst prices.
  rewrite Nat.max_0_l, slice_nat.
  set (start := (index + 1 - period)%nat).
  split.
  - intros Hnil. apply (f_equal (@length R)) in Hnil.
    rewrite length_map, length_firstn, length_skipn in Hnil.
    cbn [length] in Hnil. subst start. lia.
  - apply Forall_map. apply Forall_lookup. intros i c Hc.
    apply lookup_take_Some in Hc as [Hc Hi]. rewrite lookup_drop in Hc.
    rewrite <- (at_map_lookup cprice rawData (start + i) c Hc).
    apply Hwin. subst start. lia.
Qed.

(** X27.  [calculateSMA] and [calculateBollingerBands] of main.js (period at
    least 1, index inside the series, band factor not negative): the moving
    average lies between any two bounds of the prices in its window, the
    middle band is that average, the bands lie symmetrically around it with
    [lower <= middle <= upper], and each band is at most [stdDev * (hi - lo)]
    away from the middle. *)
Theorem advanced_bands_order (rawData : list Candle) (index period : nat)
  (stdDev lo hi : R)
  (Hp : (1 <= period)%nat) (Hidx : (index < length rawData)%nat)
  (Hs : 0 <= stdDev)
  (Hwin : forall j, (index + 1 - period <= j <= index)%nat ->
            lo <= Advanced.priceAt rawData j <= hi) :
  let b := Advanced.calculateBollingerBands rawData index period stdDev in
  Advanced.middle b = Advanced.calculateSMA rawData index period
  /\ lo <= Advanced.middle b <= hi
  /\ Advanced.lower b <= Advanced.middle b <= Advanced.upper b
  /\ Advanced.upper b - Advanced.middle b = Advanced.middle b - Advanced.lower b
  /\ Advanced.upper b - Advanced.middle b <= stdDev * (hi - lo).
Proof.
  destruct (advanced_window rawData index period lo hi Hp Hidx Hwin) as [Hne Hall].
  cbv zeta in Hne, Hall.
  unfold Advanced.calculateBollingerBands, Advanced.calculateSMA. cbv zeta.
  cbn [Advanced.middle Advanced.lower Advanced.upper].
  set (prices := map cprice _) in *.
  rewrite reduce_plus_specSum, Rplus_0_l.
  set (sma := specSum prices / INR (length prices)).
  assert (Hsma : lo <= sma <= hi) by (apply specMean_bounds; assumption).
  rewrite (reduce_map_specSum (fun price => (price - sma) ^ 2)), Rplus_0_l.
  set (variance := specSum _ / INR (length prices)).
  assert (Hvar : 0 <= variance <= (hi - lo) ^ 2).
  { subst variance. rewrite <- (length_map (fun price => (price - sma) ^ 2) prices).
    apply specMean_bounds.
    - destruct prices; [contradiction | discriminate].
    - apply Forall_map. eapply Forall_impl; [exact Hall|].
      intros x Hx. cbv beta. split; [apply pow2_ge_0|]. nra. }
  assert (Hsd : 0 <= sqrt variance <= hi - lo).
  { split; [apply sqrt_pos|].
    rewrite <- (sqrt_pow2 (hi - lo)) by lra. apply sqrt_le_1_alt. lra. }
  split; [reflexivity|]. split; [exact Hsma|].
  split; [nra|]. split; [lra|]. nra.
Qed.

Lemma advanced_bands_order_witness :
  let b := Advanced.calculateBollingerBands
             (repeat {| timestamp := 0; cprice := 1; cvolume := 1; high := 1;
                        low := 1; open := 1; close := 1 |} 12) 11 20 2 in
  1 <= Advanced.middle b <= 1.
Proof.
  apply (advanced_bands_order
           (repeat {| timestamp := 0; cprice := 1; cvolume := 1; high := 1;
                      low := 1; open := 1; close := 1 |} 12) 11 20 2 1 1).
  - lia.
  - rewrite repeat_length. lia.
  - lra.
  - intros j Hj. unfold Advanced.priceAt, at_.
    do 12 (destruct j as [|j]; [cbn; lra|]). lia.
Defined.

(** X28.  [splitData()] of main.js on a processor without processed samples
    and with fewer than 10 candles (a new or reset one) first generates the
    series and the samples, and at the default ratio 0.8 returns 72 training
    and 18 test samples, the prefix and the suffix of the 90 stored ones;
    these pass the size check of [MLPlatform.trainModel]. *)
Theorem advanced_splitData_fresh (getHours getDay : Z -> nat) (rand : nat -> R)
  (now : Z) (this : Advanced.DataProcessor)
  (Hproc : Advanced.processedData this = [])
  (Hraw : (length (Advanced.rawData this) < 10)%nat) :
  let '(this', s) := Advanced.splitData getHours getDay rand now this (8 # 10) in
  length (Advanced.rawData this') = 100%nat
  /\ length (Advanced.processedData this') = 90%nat
  /\ train s = firstn 72 (Advanced.processedData this')
  /\ test s = skipn 72 (Advanced.processedData this')
  /\ length (train s) = 72%nat
  /\ length (test s) = 18%nat
  /\ splitThenCheck (8 # 10) (Advanced.processedData this') = Return s.
Proof.
  unfold Advanced.splitData. rewrite Hproc. cbn [length Nat.eqb]. cbv zeta.
  pose proof (regenerated_series_samples getHours getDay rand now this Hraw)
    as H.
  destruct (Advanced.processFeatures getHours getDay rand now this) as [this' samples].
  cbn [fst]. destruct H as (H100 & Hp & H90).
  rewrite Hp.
  assert (Hr : (0 <= 8 # 10)%Q) by (unfold Qle; cbn; lia).
  destruct (splitData_prefix_suffix samples (8 # 10) Hr) as [Htr Hte].
  assert (Hk : Z.to_nat (splitIndex (length samples) (8 # 10)) = 72%nat)
    by (rewrite H90, (proj1 (proj2 (proj2 splitIndex_configured))); reflexivity).
  rewrite Hk in Htr, Hte.
  assert (Ltr : length (train (splitData samples (8 # 10))) = 72%nat)
    by (rewrite Htr, length_firstn, H90; reflexivity).
  assert (Lte : length (test (splitData samples (8 # 10))) = 18%nat)
    by (rewrite Hte, length_skipn, H90; reflexivity).
  repeat split; try assumption.
  unfold splitThenCheck. cbv zeta. rewrite Ltr, Lte. reflexivity.
Qed.

Lemma advanced_splitData_fresh_witness :
  let '(this', s) :=
    Advanced.splitData (fun _ => 0%nat) (fun _ => 0%nat) (fun _ => 0) 0%Z
      Advanced.new (8 # 10) in
  length (train s) = 72%nat /\ length (test s) = 18%nat.
Proof.
  pose proof (advanced_splitData_fresh (fun _ => 0%nat) (fun _ => 0%nat)
                (fun _ => 0) 0%Z Advanced.new) as H.
  destruct (Advanced.splitData _ _ _ _ _ _) as [this' s].
  destruct H as (_ & _ & _ & _ & Htr & Hte & _).
  - reflexivity.
  - cbn [Advanced.rawData Advanced.new length]. lia.
  - split; assumption.
Defined.

Lemma advanced_samples_shape (getHours getDay : Z -> nat) (rand : nat -> R)
  (now : Z) (this : Advanced.DataProcessor) :
  (10 <= length (Advanced.rawData this))%nat ->
  let '(this', samples) := Advanced.processFeatures getHours getDay rand now this in
  Advanced.processedData this' = samples
  /\ length samples = (length (Advanced.rawData this) - 10)%nat
  /\ forall k s, samples !! k = Some s -> length (sampleFeatures s) = 20%nat.
Proof.
  intros Hlen. unfold Advanced.processFeatures.
  rewrite (proj2 (Nat.ltb_ge _ _) Hlen). cbv zeta.
  rewrite Advanced_features_map.
  split; [reflexivity|]. split; [rewrite length_map, length_seq; reflexivity|].
  intros k s H. rewrite list_lookup_fmap in H.
  destruct (seq _ _ !! k) as [i|]; [|discriminate].
  cbn in H. injection H as <-. reflexivity.
Qed.

Lemma sampleAt_width (getHours getDay : Z -> nat) (raw : list Candle) (i : nat) :
  length (sampleFeatures (Advanced.sampleAt getHours getDay raw i)) = 20%nat.
Proof. reflexivity. Qed.

Lemma samples_width (getHours getDay : Z -> nat) (raw : list Candle) (lo n k : nat)
  (s : Sample) :
  map (Advanced.sampleAt getHours getDay raw) (seq lo n) !! k = Some s ->
  length (sampleFeatures s) = 20%nat.
Proof.
  intros H. rewrite list_lookup_fmap in H.
  destruct (seq lo n !! k) as [i|]; [|discriminate].
  injection H as <-. apply sampleAt_width.
Qed.

Lemma regenerated_samples_width (getHours getDay : Z -> nat) (rand : nat -> R)
  (now : Z) (this : Advanced.DataProcessor) :
  (length (Advanced.rawData this) < 10)%nat ->
  forall k s,
    snd (Advanced.processFeatures getHours getDay rand now this) !! k = Some s ->
    length (sampleFeatures s) = 20%nat.
Proof.
  intros Hlen k s. unfold Advanced.processFeatures.
  rewrite (proj2 (Nat.ltb_lt _ _) Hlen). cbv zeta. cbn [snd].
  rewrite Advanced_features_map. apply samples_width.
Qed.

End AdvancedFacts.

Section LatestFeatures.
Local Open Scope R_scope.

(** X29.  [getLatestFeatures] of main.js returns [null] exactly when no
    samples are stored and the series has exactly 10 candles: [processFeatures]
    regenerates a shorter series and starts its loop at index 10.  With no
    samples stored and any other series it returns the 20 features of the
    last candle. *)
Theorem advanced_getLatestFeatures_null_iff (getHours getDay : Z -> nat)
  (rand : nat -> R) (now : Z) (this : Advanced.DataProcessor) :
  let latest := snd (Advanced_getLatestFeatures getHours getDay rand now this) in
  (latest = None
   <-> Advanced.processedData this = []
       /\ length (Advanced.rawData this) = 10%nat)
  /\ (Advanced.processedData this = [] ->
      length (Advanced.rawData this) <> 10%nat ->
      exists fs, latest = Some fs /\ length fs = 20%nat).
Proof.
  cbv zeta. unfold Advanced_getLatestFeatures. cbn [snd].
  destruct (Advanced.processedData this) as [|s0 rest] eqn:Hproc.
  - cbn [length Nat.eqb].
    destruct (Nat.lt_ge_cases (length (Advanced.rawData this)) 10) as [Hlt|Hge].
    + pose proof (regenerated_series_samples getHours getDay rand now this Hlt) as H.
      destruct (Advanced.processFeatures getHours getDay rand now this)
        as [this' samples] eqn:Hrun.
      destruct H as (_ & Hp & H90). cbn [fst]. rewrite Hp, H90.
      destruct (samples !! (90 - 1)%nat) as [s|] eqn:Hs.
      * assert (Hw : length (sampleFeatures s) = 20%nat).
        { apply (regenerated_samples_width getHours getDay rand now this Hlt 89%nat).
          rewrite Hrun. exact Hs. }
        split; [split; [discriminate | intros [_ H10]; lia]|].
        intros _ _. exists (sampleFeatures s). split; [reflexivity | exact Hw].
      * apply lookup_ge_None in Hs. lia.
    + pose proof (advanced_samples_shape getHours getDay rand now this Hge) as H.
      destruct (Advanced.processFeatures getHours getDay rand now this)
        as [this' samples].
      destruct H as (Hp & Hl & Hall). cbn [fst]. rewrite Hp.
      destruct (samples !! (length samples - 1)%nat) as [s|] eqn:Hs.
      * split.
        -- split; [discriminate|]. intros [_ H10].
           apply lookup_lt_Some in Hs. lia.
        -- intros _ _. exists (sampleFeatures s). split; [reflexivity|].
           apply (Hall _ _ Hs).
      * apply lookup_ge_None in Hs.
        split.
        -- split; [intros _; split; [reflexivity | lia]|reflexivity].
        -- intros _ Hne. lia.
  - cbn [length Nat.eqb]. rewrite Hproc. cbn [length].
    destruct ((s0 :: rest) !! (S (length rest) - 1)%nat) as [s|] eqn:Hs.
    + split; [split; [discriminate | intros [H _]; discriminate]|].
      intros H; discriminate.
    + apply lookup_ge_None in Hs. cbn [length] in Hs. lia.
Qed.

Lemma advanced_getLatestFeatures_null_iff_witness :
  exists fs,
    snd (Advanced_getLatestFeatures (fun _ => 0%nat) (fun _ => 0%nat) (fun _ => 0) 0%Z
           Advanced.new) = Some fs
    /\ length fs = 20%nat.
Proof.
  apply (proj2 (advanced_getLatestFeatures_null_iff (fun _ => 0%nat) (fun _ => 0%nat)
                  (fun _ => 0) 0%Z Advanced.new)).
  - reflexivity.
  - cbn [Advanced.rawData Advanced.new length]. lia.
Defined.

End LatestFeatures.

(** ** The first processor of dataProcessor.js *)

Section BasicFacts.
Local Open Scope R_scope.

Lemma basic_historical_loop (rand : nat -> R) (now : Z) (basePrice : R) :
  let data := forLoop 0 100 (Basic.historicalStep rand now basePrice) [] in
  length data = 100%nat
  /\ Forall (fun c => 1 / 2 <= cprice c <= 7 / 10
                      /\ low c <= cprice c <= high c
                      /\ close c = cprice c) data.
Proof.
  apply (forLoop_invariant
           (fun n data => length data = n
              /\ Forall (fun c => 1 / 2 <= cprice c <= 7 / 10
                                  /\ low c <= cprice c <= high c
                                  /\ close c = cprice c) data)).
  - lia.
  - split; [reflexivity | constructor].
  - intros i data _ [Hlen Hall]. unfold Basic.historicalStep. cbv zeta.
    set (pr := Rmax (1 / 2) (Rmin (7 / 10) _)).
    assert (Hpr : 1 / 2 <= pr <= 7 / 10).
    { subst pr. split; [apply Rmax_l|].
      apply Rmax_lub; [lra | apply Rmin_l]. }
    split; [rewrite length_app, Hlen; cbn [length]; lia|].
    apply Forall_app. split; [exact Hall|].
    constructor; [|constructor].
    cbn [cprice low high close]. split; [exact Hpr|]. split; [lra | reflexivity].
Qed.

Lemma basic_sample_shape (raw : list Candle) (i : nat) :
  length (sampleFeatures (Basic.sampleAt raw i)) = 9%nat
  /\ sampleFeatures (Basic.sampleAt raw i) !! 0%nat = Some (Basic.priceAt raw i)
  /\ sampleTarget (Basic.sampleAt raw i)
     = Basic.priceAt raw (Nat.min (i + 1) (length raw - 1)).
Proof. repeat split. Qed.

(** X30.  [fetchData] of the first processor of dataProcessor.js, whatever
    the price request returns and whatever [Math.random] yields, stores and
    returns 100 candles whose prices are clamped to [0.50, 0.70] with
    [low <= price <= high], and stores 95 samples of 9 features each whose
    targets lie in [0.50, 0.70] as well; a following [splitData] gives 76
    training and 19 test samples. *)
Theorem basic_fetchData_clamped (rand : nat -> R) (now now' : Z)
  (response : PriceResponse) (this : Basic.DataProcessor) :
  let '(this', data) := Basic.fetchData rand now now' response this in
  Basic.rawData this' = data
  /\ length data = 100%nat
  /\ Forall (fun c => 1 / 2 <= cprice c <= 7 / 10
                      /\ low c <= cprice c <= high c
                      /\ close c = cprice c) data
  /\ length (Basic.processedData this') = 95%nat
  /\ Forall (fun s => length (sampleFeatures s) = 9%nat
                      /\ 1 / 2 <= sampleTarget s <= 7 / 10)
       (Basic.processedData this')
  /\ (forall rand' now'',
        let s := snd (Basic.splitData rand' now'' this') in
        length (train s) = 76%nat /\ length (test s) = 19%nat).
Proof.
  unfold Basic.fetchData. cbv zeta.
  set (this1 := fst (Basic.fetchRealData response this)).
  unfold Basic.generateHistoricalData. cbv beta iota zeta.
  destruct (basic_historical_loop rand now (Basic.currentPrice this1)) as [Hlen Hall].
  cbv zeta in Hlen, Hall.
  set (data := forLoop 0 100 _ []) in *. clearbody data.
  unfold Basic.processFeatures.
  cbn [Basic.rawData Basic.currentPrice Basic.processedData fst].
  rewrite Hlen. cbn [Nat.eqb]. cbv beta iota zeta.
  cbn [Basic.rawData Basic.currentPrice Basic.processedData fst].
  rewrite forLoop_push, ?Hlen.
  set (samples := map (Basic.sampleAt data) (seq 5 (100 - 5))).
  assert (Hn : length samples = 95%nat)
    by (subst samples; rewrite length_map, length_seq; reflexivity).
  split; [reflexivity|]. split; [reflexivity|]. split; [exact Hall|].
  split; [exact Hn|]. split.
  - subst samples. apply Forall_map. apply List.Forall_forall. intros i Hi.
    apply in_seq in Hi.
    destruct (basic_sample_shape data i) as (Hw & _ & Ht).
    split; [exact Hw|]. rewrite Ht.
    set (j := Nat.min (i + 1) (length data - 1)).
    assert (Hj : (j < length data)%nat) by (subst j; lia).
    apply lookup_lt_is_Some_2 in Hj as [c Hc].
    unfold Basic.priceAt. rewrite (at_map_lookup cprice data j c Hc).
    apply (Forall_lookup_1 _ _ _ _ Hall Hc).
  - intros rand' now''. cbv zeta. unfold Basic.splitData.
    cbn [Basic.processedData].
    replace (length samples =? 0)%nat with false by (rewrite Hn; reflexivity).
    cbv zeta. cbn [snd Basic.processedData].
    assert (Hr : (0 <= 8 # 10)%Q) by (unfold Qle; cbn; lia).
    destruct (splitData_prefix_suffix samples (8 # 10) Hr) as [Htr Hte].
    rewrite Htr, Hte, Hn.
    rewrite (proj2 (proj2 (proj2 splitIndex_configured))).
    change (Z.to_nat 76) with 76%nat.
    rewrite length_firstn, length_skipn, Hn. split; reflexivity.
Qed.

End BasicFacts.

(** ** The split boundary *)

Section SplitBoundary.

(** The double product decides the index: [100 * 0.57] is
    [56.99999999999999] and gives 56, while the exact product is 57; and
    [10 * 0.7], exactly [7] as a double, gives 7 although the double [0.7]
    is below [7/10]. *)
Example splitIndex_rounds :
  splitIndex 100 (57 # 100) = 56%Z
  /\ Qfloor (inject_Z 100 * (57 # 100)) = 57%Z
  /\ splitIndex 10 (7 # 10) = 7%Z
  /\ Qfloor (inject_Z 10 * toDouble (7 # 10)) = 6%Z.
Proof. vm_compute. repeat split; reflexivity. Qed.

(** C5, counterexample.  On a processor whose processed set is empty (a new
    one) the [splitData] of main.js does not split that empty set: it first
    generates a series and its samples, and returns 72 training and 18 test
    samples.  Train followed by test is not the processed set it was called
    on, and the boundary is 72, not [floor(0 * 0.8) = 0]. *)
Lemma splitData_empty_counterexample :
  let v := Advanced.processedData Advanced.new in
  let '(this', s) :=
    Advanced.splitData (fun _ => 0%nat) (fun _ => 0%nat) (fun _ => 0%R) 0%Z
      Advanced.new (8 # 10) in
  v = []
  /\ splitIndex (length v) (8 # 10) = 0%Z
  /\ length (train s) = 72%nat
  /\ length (train s ++ test s) = 90%nat
  /\ train s ++ test s <> v.
Proof.
  cbv zeta. unfold Advanced.splitData.
  cbn [Advanced.processedData Advanced.new length Nat.eqb]. cbv zeta.
  pose proof (regenerated_series_samples (fun _ => 0%nat) (fun _ => 0%nat)
                (fun _ => 0%R) 0%Z Advanced.new) as H.
  destruct (Advanced.processFeatures _ _ _ _ Advanced.new) as [this' samples].
  destruct H as (_ & Hp & H90); [cbn [Advanced.rawData Advanced.new length]; lia|].
  cbn [fst]. rewrite Hp.
  assert (Hr : (0 <= 8 # 10)%Q) by (unfold Qle; cbn; lia).
  destruct (splitData_prefix_suffix samples (8 # 10) Hr) as [Htr _].
  rewrite H90, (proj1 (proj2 (proj2 splitIndex_configured))) in Htr.
  split; [reflexivity|]. split; [vm_compute; reflexivity|].
  split; [rewrite Htr, length_firstn, H90; reflexivity|].
  rewrite splitData_reconstructs.
  split; [exact H90|].
  intros Hnil. rewrite Hnil in H90. discriminate.
Qed.

(** C5, amended.  For a ratio [0 <= r <= 1] and a processed set [v] (rows
    of any kind), [splitData] cuts [v] at the index [k] with
    [k <= length v * r < k + 1], the product being the one of doubles: the
    train partition is the prefix of [k] rows and the test partition the
    rest, the two in order give [v] back, and splitting the reassembled set
    gives the same partitions.  The [splitData] of main.js, called on a
    processor whose processed set is not empty, returns exactly the
    partitions of that set and leaves the processor as it is, whatever the
    random source and the clock. *)
Theorem splitData_boundary {A} (v : list A) (r : Q)
  (Hr : (0 <= r <= 1)%Q) (Hlen : (Z.of_nat (length v) < 2 ^ 53)%Z) :
  (exists k : nat,
     (inject_Z (Z.of_nat k) <= fmul (inject_Z (Z.of_nat (length v))) (toDouble r)
      < inject_Z (Z.of_nat k) + 1)%Q
     /\ (k <= length v)%nat
     /\ splitData v r = {| train := firstn k v; test := skipn k v |}
     /\ length (train (splitData v r)) = k)
  /\ train (splitData v r) ++ test (splitData v r) = v
  /\ splitData (train (splitData v r) ++ test (splitData v r)) r = splitData v r
  /\ (forall getHours getDay rand now this,
        Advanced.processedData this <> [] ->
        Advanced.splitData getHours getDay rand now this r
        = (this, splitData (Advanced.processedData this) r)).
Proof.
  destruct Hr as [Hr0 Hr1].
  pose proof (splitIndex_nonneg (length v) r Hr0) as Hk0.
  pose proof (splitIndex_le_length (length v) r Hr0 Hr1 Hlen) as Hk1.
  destruct (splitData_prefix_suffix v r Hr0) as [Htr Hte].
  set (k := Z.to_nat (splitIndex (length v) r)) in *.
  assert (Hk : Z.of_nat k = splitIndex (length v) r) by (subst k; lia).
  split; [|split; [|split]].
  - exists k. split; [|split; [lia|split]].
    + rewrite Hk. unfold splitIndex. split.
      * apply Qfloor_le.
      * rewrite <- (inject_Z_plus _ 1). apply Qlt_floor.
    + rewrite <- Htr, <- Hte. reflexivity.
    + rewrite Htr, length_firstn. lia.
  - apply splitData_reconstructs.
  - rewrite splitData_reconstructs. reflexivity.
  - intros getHours getDay rand now this Hne.
    unfold Advanced.splitData.
    destruct (Advanced.processedData this) as [|s0 w] eqn:Hw; [contradiction|].
    cbn [length Nat.eqb]. cbv zeta. rewrite Hw. reflexivity.
Qed.

Lemma splitData_boundary_witness :
  exists k : nat,
    (k <= 5)%nat
    /\ splitData [1; 2; 3; 4; 5]%nat (8 # 10)
       = {| train := firstn k [1; 2; 3; 4; 5]%nat;
            test := skipn k [1; 2; 3; 4; 5]%nat |}.
Proof.
  destruct (splitData_boundary [1; 2; 3; 4; 5]%nat (8 # 10))
    as ((k & _ & Hk & Hs & _) & _).
  - split; unfold Qle; cbn; lia.
  - cbn [length]. lia.
  - exists k. split; [exact Hk | exact Hs].
Defined.

End SplitBoundary.
